(** * SaviourAI: the audio -> transcript -> answer pipeline, verified

    A shallow embedding of the pipeline core of the repository:

    - [ai_handler.py]    (class [AIResponseHandler]): cache, model fallback, stats
    - [audio_manager.py] (class [AudioManager]): devices, ring buffer, chunk
      extraction, wav files
    - [transcriber.py]   (class [WhisperTranscriber]): two engines and a sentinel
    - [main.py]          (class [AudioProcessingThread]): the polling loop;
      (class [StealthAIApplication]): the slots of the thread's signals, the
      answer to a question, the copy action
    - [hotkey_manager.py] (class [HotkeyManager]): the debounced handler
    - [overlay.py]       (class [OverlayWidget]): the text kept and copied

    Python floats are IEEE binary64 numbers and are modelled by Rocq's
    primitive floats, which compute with the same rounding.  Python [str]
    values are modelled by [string]; a character is a code point below 256.
    Calls that leave the process (the clock, the HTTP session, PyAudio, the
    speech model, the subprocess) are answered by an explicit world that is
    threaded through the code; an exception is a value of type [exn].  The
    messages of the logger ([log_info], [log_warning], [log_error]) are left
    out; what the application asks of Qt, of the speech engine, of the Q&A
    log and of the clipboard is kept as a list of events. *)

From Stdlib Require Import ZArith List String Ascii Bool Lia Floats Uint63 DecimalString.
From Stdlib Require Strings.Byte.
Import ListNotations.

Set Warnings "-inexact-float,-register-all,-abstract-large-number".

Local Open Scope string_scope.
Local Open Scope Z_scope.

(* ===================================================================== *)
(** * Python runtime: exceptions, effects, strings, dicts, dynamic values *)
(* ===================================================================== *)

Module Py.

(** The exception classes the modelled code can meet. *)
Inductive exn : Type :=
| Timeout            (* requests.exceptions.Timeout *)
| RequestException   (* any other requests.exceptions.RequestException *)
| TimeoutExpired     (* subprocess.TimeoutExpired *)
| KeyError
| IndexError
| TypeError
| AttributeError
| ValueError
| OverflowError
| ZeroDivisionError
| OSError
| OtherException.    (* any other subclass of Exception *)

Inductive result (A : Type) : Type :=
| Ok (a : A)
| Raise (e : exn).
Arguments Ok {A} a.
Arguments Raise {A} e.

Definition rbind {A B} (r : result A) (k : A -> result B) : result B :=
  match r with
  | Ok a => k a
  | Raise e => Raise e
  end.

(** A statement sequence that reads and writes a state of type [S] and may
    raise.  What was written before a raise stays written, as in Python. *)
Definition M (S A : Type) : Type := S -> result A * S.

Definition ret {S A} (a : A) : M S A := fun s => (Ok a, s).

Definition bind {S A B} (c : M S A) (k : A -> M S B) : M S B :=
  fun s => match c s with
           | (Ok a, s') => k a s'
           | (Raise e, s') => (Raise e, s')
           end.

Definition raise {S A} (e : exn) : M S A := fun s => (Raise e, s).

Definition lift {S A} (r : result A) : M S A := fun s => (r, s).

Definition get {S} : M S S := fun s => (Ok s, s).

Definition modify {S} (f : S -> S) : M S unit := fun s => (Ok tt, f s).

(** [try: body  except Exception as e: handler e] *)
Definition try_except {S A} (body : M S A) (handler : exn -> M S A) : M S A :=
  fun s => match body s with
           | (Ok a, s') => (Ok a, s')
           | (Raise e, s') => handler e s'
           end.

(** ** Strings *)

(** [str.isspace] on one character (code points below 256). *)
Definition is_space (c : ascii) : bool :=
  let n := nat_of_ascii c in
  ((9 <=? n) && (n <=? 13) || (28 <=? n) && (n <=? 32)
   || (n =? 133) || (n =? 160))%nat.

Definition is_empty (s : string) : bool :=
  match s with
  | EmptyString => true
  | String _ _ => false
  end.

Fixpoint lstrip (s : string) : string :=
  match s with
  | EmptyString => EmptyString
  | String c r => if is_space c then lstrip r else s
  end.

Fixpoint rstrip (s : string) : string :=
  match s with
  | EmptyString => EmptyString
  | String c r =>
      let r' := rstrip r in
      if is_space c && is_empty r' then EmptyString else String c r'
  end.

(** [s.strip()] *)
Definition strip (s : string) : string := rstrip (lstrip s).

Fixpoint split_from (s cur : string) : list string :=
  match s with
  | EmptyString => if is_empty cur then [] else [cur]
  | String c r =>
      if is_space c
      then (if is_empty cur then split_from r "" else cur :: split_from r "")
      else split_from r (cur ++ String c "")
  end.

(** [s.split()]: the maximal runs of non-blank characters. *)
Definition split (s : string) : list string := split_from s "".

(** [c.lower()] for a code point below 256: A-Z and the accented capitals
    U+00C0..U+00DE (the multiplication sign U+00D7 apart) move up by 32. *)
Definition lower_char (c : ascii) : ascii :=
  let n := nat_of_ascii c in
  if ((65 <=? n) && (n <=? 90)
      || (192 <=? n) && (n <=? 222) && negb (n =? 215))%nat
  then ascii_of_nat (n + 32)
  else c.

Fixpoint lower (s : string) : string :=
  match s with
  | EmptyString => EmptyString
  | String c r => String (lower_char c) (lower r)
  end.

(** [s.upper()] when every letter of [s] is an ASCII letter: the instance
    of [str.upper] the examples use. *)
Definition upper_char (c : ascii) : ascii :=
  let n := nat_of_ascii c in
  if ((97 <=? n) && (n <=? 122))%nat then ascii_of_nat (n - 32) else c.

Fixpoint ascii_upper (s : string) : string :=
  match s with
  | EmptyString => EmptyString
  | String c r => String (upper_char c) (ascii_upper r)
  end.

(** [sep.join(l)] *)
Fixpoint join (sep : string) (l : list string) : string :=
  match l with
  | [] => ""
  | [w] => w
  | w :: r => w ++ sep ++ join sep r
  end.

(** [needle in hay] for two strings. *)
Definition is_substring (needle hay : string) : bool :=
  match index 0 needle hay with
  | Some _ => true
  | None => false
  end.

(** Truth value of an optional string: [None] and [""] are false. *)
Definition truthy (r : option string) : bool :=
  match r with
  | None => false
  | Some s => negb (is_empty s)
  end.

(** ** Dicts

    A Python dict keeps its keys in insertion order; assigning to a key
    that is present keeps the key's place.  So a dict is the list of its
    items, in order, each key once. *)
Section Dict.
Context {V : Type}.

Definition dict : Type := list (string * V).

Fixpoint dict_get (k : string) (d : dict) : option V :=
  match d with
  | [] => None
  | (k', v) :: r => if String.eqb k k' then Some v else dict_get k r
  end.

(** [d[k] = v] *)
Fixpoint dict_set (k : string) (v : V) (d : dict) : dict :=
  match d with
  | [] => [(k, v)]
  | (k', v') :: r =>
      if String.eqb k k' then (k', v) :: r else (k', v') :: dict_set k v r
  end.

(** [del d[k]]: [KeyError] when [k] is not a key. *)
Fixpoint dict_del (k : string) (d : dict) : result dict :=
  match d with
  | [] => Raise KeyError
  | (k', v) :: r =>
      if String.eqb k k' then Ok r
      else rbind (dict_del k r) (fun r' => Ok ((k', v) :: r'))
  end.

(** [list(d.keys())] *)
Definition dict_keys (d : dict) : list string := map fst d.

(** [for key in keys: del d[key]] *)
Fixpoint dict_del_all (keys : list string) (d : dict) : result dict :=
  match keys with
  | [] => Ok d
  | k :: ks => rbind (dict_del k d) (dict_del_all ks)
  end.

End Dict.
Arguments dict V : clear implicits.

(** ** Dynamic values: what [json()] and the speech model hand back *)
Inductive pyval : Type :=
| PNone
| PBool (b : bool)
| PInt (z : Z)
| PFloat (f : float)
| PStr (s : string)
| PList (l : list pyval)
| PDict (d : list (string * pyval)).

Definition is_str (s : string) (v : pyval) : bool :=
  match v with
  | PStr s' => String.eqb s s'
  | _ => false
  end.

(** [needle in c] for a string [needle]. *)
Definition py_in (needle : string) (c : pyval) : result bool :=
  match c with
  | PDict d => Ok (existsb (String.eqb needle) (dict_keys d))
  | PList l => Ok (existsb (is_str needle) l)
  | PStr s => Ok (is_substring needle s)
  | _ => Raise TypeError
  end.

(** [c[k]] for a string [k]. *)
Definition py_getitem (c : pyval) (k : string) : result pyval :=
  match c with
  | PDict d => match dict_get k d with
               | Some v => Ok v
               | None => Raise KeyError
               end
  | _ => Raise TypeError
  end.

(** [c[0]] *)
Definition py_first (c : pyval) : result pyval :=
  match c with
  | PList l => match l with
               | v :: _ => Ok v
               | [] => Raise IndexError
               end
  | PStr s => match s with
              | String ch _ => Ok (PStr (String ch ""))
              | EmptyString => Raise IndexError
              end
  | PDict _ => Raise KeyError
  | _ => Raise TypeError
  end.

(** [len(c)] *)
Definition py_len (c : pyval) : result nat :=
  match c with
  | PStr s => Ok (String.length s)
  | PList l => Ok (List.length l)
  | PDict d => Ok (List.length d)
  | _ => Raise TypeError
  end.

(** [c.strip()] *)
Definition py_strip (c : pyval) : result string :=
  match c with
  | PStr s => Ok (strip s)
  | _ => Raise AttributeError
  end.

(** [d.get(k, default)] *)
Definition py_get (c : pyval) (k : string) (default : pyval) : result pyval :=
  match c with
  | PDict d => match dict_get k d with
               | Some v => Ok v
               | None => Ok default
               end
  | _ => Raise AttributeError
  end.

Fixpoint chars (s : string) : list pyval :=
  match s with
  | EmptyString => []
  | String c r => PStr (String c "") :: chars r
  end.

(** The items [for x in c] visits. *)
Definition py_iter (c : pyval) : result (list pyval) :=
  match c with
  | PList l => Ok l
  | PDict d => Ok (map PStr (dict_keys d))
  | PStr s => Ok (chars s)
  | _ => Raise TypeError
  end.

(** [bool(c)] *)
Definition py_bool (c : pyval) : bool :=
  match c with
  | PNone => false
  | PBool b => b
  | PInt z => negb (z =? 0)
  | PFloat f => negb (f =? 0)%float
  | PStr s => negb (is_empty s)
  | PList l => match l with [] => false | _ => true end
  | PDict d => match d with [] => false | _ => true end
  end.

(** ** Numbers *)

(** The binary64 number nearest to an integer, ties to even, and an
    infinity beyond the range of binary64; below 2^63 the conversion is the
    machine's.  This is what numpy makes of an integer; it is also what
    Python makes of an int that is a constant of the configuration or a
    count of samples.  Python's own conversion of an arbitrary int is
    [float_of_int] below. *)
Definition float_of_Z (z : Z) : float :=
  if (0 <=? z) && (z <? 9223372036854775808)
  then PrimFloat.of_uint63 (Uint63.of_Z z)
  else SF2Prim (binary_normalize prec emax z 0 false).

(** The conversion Python applies to an int operand of a float operation:
    the nearest binary64 number, and [OverflowError] ("int too large to
    convert to float") when that is beyond the range, which is when the
    rounding gives an infinity. *)
Definition float_of_int (z : Z) : result float :=
  let f := float_of_Z z in
  if PrimFloat.is_infinity f then Raise OverflowError else Ok f.

(** [int(x)] for a float: truncation toward zero; [nan] and the infinities
    raise. *)
Definition int_of_float (x : float) : result Z :=
  match Prim2SF x with
  | S754_zero _ => Ok 0
  | S754_infinity _ => Raise OverflowError
  | S754_nan => Raise ValueError
  | S754_finite s m e =>
      let v := Z.shiftl (Z.pos m) e in
      Ok (if s then - v else v)
  end.

(** [v + 1.0] *)
Definition py_add_one (v : pyval) : result float :=
  match v with
  | PFloat f => Ok (f + 1)%float
  | PInt z => rbind (float_of_int z) (fun f => Ok (f + 1)%float)
  | PBool b => Ok ((if b then 1 else 0) + 1)%float
  | _ => Raise TypeError
  end.

(** [max(a, b)] and [min(a, b)] on floats: the first argument stays unless
    the second is strictly beyond it. *)
Definition py_max (a b : float) : float := if (a <? b)%float then b else a.
Definition py_min (a b : float) : float := if (b <? a)%float then b else a.

(** [str(z)] *)
Definition str_of_int (z : Z) : string := NilZero.string_of_int (Z.to_int z).

(** [lst[start:]] *)
Definition slice_from {A} (l : list A) (start : Z) : list A :=
  let n := Z.of_nat (List.length l) in
  let i := if start <? 0 then Z.max 0 (n + start) else Z.min start n in
  skipn (Z.to_nat i) l.

End Py.

Declare Scope eff_scope.
Delimit Scope eff_scope with eff.
Notation "x <- c ;; k" := (Py.bind c (fun x => k))
  (at level 61, c at next level, right associativity) : eff_scope.
Notation "' p <- c ;; k" := (Py.bind c (fun x => let 'p := x in k))
  (at level 61, p pattern, c at next level, right associativity) : eff_scope.
Notation "c ;; k" := (Py.bind c (fun _ => k))
  (at level 61, right associativity) : eff_scope.

Declare Scope res_scope.
Delimit Scope res_scope with res.
Notation "x <~ c ;; k" := (Py.rbind c (fun x => k))
  (at level 61, c at next level, right associativity) : res_scope.

Import Py.

(* ===================================================================== *)
(** * config.py *)
(* ===================================================================== *)

Module Config.

(** [AudioConfig] *)
Definition SAMPLE_RATE : Z := 16000.
Definition CHUNK_SIZE : Z := 1024.
Definition CHANNELS : Z := 1.
Definition CHUNK_DURATION : float := 3%float.
Definition SILENCE_THRESHOLD : float := 0.01%float.

(** [AIConfig] *)
Definition PRIMARY_MODEL : string := "openai/gpt-4-turbo".
Definition FALLBACK_MODEL : string := "openai/gpt-3.5-turbo".

(** [AppConfig.VIRTUAL_AUDIO_DEVICES], as [__post_init__] fills it. *)
Definition VIRTUAL_AUDIO_DEVICES : list string :=
  ["VB-Audio"; "CABLE"; "Stereo Mix"; "What U Hear";
   "Virtual Audio Cable"; "VoiceMeeter"].

End Config.

(* ===================================================================== *)
(** * ai_handler.py: class AIResponseHandler *)
(* ===================================================================== *)

Module AI.

(** The handler's fields.  [response_cache] maps a cache key to the pair
    (answer, model id). *)
Record AIResponseHandler : Type := {
  response_cache : dict (string * string);
  request_count : Z;
  total_response_time : float
}.

(** [__init__] *)
Definition init : AIResponseHandler :=
  {| response_cache := []; request_count := 0; total_response_time := 0%float |}.

(** What [_try_model] posts: the model, the system message and the user
    message.  The endpoint, the headers and the sampling parameters are the
    same in every request. *)
Record request : Type := {
  req_model : string;
  req_system : string;
  req_user : string
}.

(** What [session.post] does: it raises, or it returns a response with a
    status code, a text, and a body that [json()] decodes ([Ok]) or
    fails to decode ([Raise]). *)
Inductive post_outcome : Type :=
| PostRaises (e : exn)
| PostReturns (status_code : Z) (text : string) (json : result pyval).

(** The world of the handler: the clock that [time.time()] reads, and the
    transport behind [session.post], which may answer the same request
    differently at each attempt; [sent] is the log of requests posted. *)
Record World : Type := {
  clock : nat -> float;
  ticks : nat;
  transport : nat -> request -> post_outcome;
  sent : list request
}.

Record State : Type := {
  self : AIResponseHandler;
  world : World
}.

Definition set_self (f : AIResponseHandler -> AIResponseHandler) (st : State) : State :=
  {| self := f (self st); world := world st |}.

Definition set_world (f : World -> World) (st : State) : State :=
  {| self := self st; world := f (world st) |}.

Local Open Scope eff_scope.

(** The clock has been read once more. *)
Definition tick (w : World) : World :=
  {| clock := clock w; ticks := S (ticks w);
     transport := transport w; sent := sent w |}.

(** One more request has been posted. *)
Definition log_request (req : request) (w : World) : World :=
  {| clock := clock w; ticks := ticks w;
     transport := transport w; sent := sent w ++ [req] |}.

(** The reading [time.time()] returns next, and the answer the transport
    gives to the next request. *)
Definition now (w : World) : float := clock w (ticks w).
Definition answer (w : World) (req : request) : post_outcome :=
  transport w (List.length (sent w)) req.

(** [time.time()] *)
Definition time_time : M State float :=
  st <- get ;;
  modify (set_world tick) ;;
  ret (now (world st)).

(** [self.session.post(...)]: the request is logged, then answered. *)
Definition session_post (req : request) : M State (Z * string * result pyval) :=
  st <- get ;;
  modify (set_world (log_request req)) ;;
  match answer (world st) req with
  | PostRaises e => raise e
  | PostReturns code text body => ret (code, text, body)
  end.

Definition nl : string := String (ascii_of_nat 10) "".
Definition indent : string := "            ".

(** [self.system_prompts] *)
Definition system_prompts : dict string :=
  [("data_science",
    "You are a senior data scientist preparing a candidate for a live technical interview. " ++ nl ++ indent ++
    "Provide brief, precise, and confident answers to data science interview questions, including Python, ML, SQL, and statistics. " ++ nl ++ indent ++
    "Keep responses under 150 words and focus on key points that demonstrate expertise.");
   ("general",
    "You are an expert technical interview coach. Provide concise, accurate answers to technical questions. " ++ nl ++ indent ++
    "Focus on demonstrating deep understanding while keeping responses brief and actionable.");
   ("coding",
    "You are a senior software engineer helping with coding interview preparation. " ++ nl ++ indent ++
    "Provide clear, efficient solutions with brief explanations. Focus on optimal approaches and common patterns.")].

(** [self.system_prompts.get(context, self.system_prompts["general"])] *)
Definition system_prompt (context : string) : string :=
  match dict_get context system_prompts with
  | Some p => p
  | None => match dict_get "general" system_prompts with
            | Some p => p
            | None => ""
            end
  end.

(** [_enhance_question] *)
Definition _enhance_question (question : string) : string :=
  let enhanced := strip question in
  if (String.length enhanced <? 20)%nat
  then "Please provide a comprehensive answer to: " ++ enhanced
  else enhanced.

Definition build_request (question model context : string) : request :=
  {| req_model := model;
     req_system := system_prompt context;
     req_user := _enhance_question question |}.

(** The 200 branch of [_try_model]:
    [if "choices" in result and len(result["choices"]) > 0:
         content = result["choices"][0]["message"]["content"].strip()]. *)
Definition read_choices (body : result pyval) : result (option string) :=
  (result <~ body ;;
   has <~ py_in "choices" result ;;
   if (has : bool) then
     choices <~ py_getitem result "choices" ;;
     n <~ py_len choices ;;
     if (0 <? n)%nat then
       first <~ py_first choices ;;
       message <~ py_getitem first "message" ;;
       content <~ py_getitem message "content" ;;
       content <~ py_strip content ;;
       Ok (Some content)
     else Ok None
   else Ok None)%res.

(** [_try_model]: every exception of the body ends in [(None, model)]. *)
Definition _try_model (question model context : string)
  : M State (option string * string) :=
  try_except
    ('(status_code, _, body) <- session_post (build_request question model context) ;;
     if status_code =? 200 then
       content <- lift (read_choices body) ;;
       ret (content, model)
     else
       ret (None, model))
    (fun e =>
       match e with
       | Timeout => ret (None, model)
       | RequestException => ret (None, model)
       | _ => ret (None, model)
       end).

Definition words_to_remove : list string :=
  ["can"; "you"; "please"; "what"; "is"; "the"; "how"; "do"; "does"].

(** [_get_cache_key] *)
Definition _get_cache_key (question context : string) : string :=
  let normalized := strip (lower question) in
  let words := split normalized in
  let key_words :=
    filter (fun w => negb (existsb (String.eqb w) words_to_remove)
                     && (2 <? String.length w)%nat) words in
  context ++ ":" ++ join "_" (firstn 5 key_words).

(** [_get_cached_response] *)
Definition _get_cached_response (cache_key : string)
  : M State (option (string * string)) :=
  st <- get ;;
  ret (dict_get cache_key (response_cache (self st))).

(** The dict after [_cache_response]: when it holds more than 50 items the
    first 10 keys are deleted, then the key is assigned. *)
Definition cache_insert (cache_key : string) (response_data : string * string)
    (cache : dict (string * string)) : result (dict (string * string)) :=
  (cache <~ (if (50 <? List.length cache)%nat
             then dict_del_all (firstn 10 (dict_keys cache)) cache
             else Ok cache) ;;
   Ok (dict_set cache_key response_data cache))%res.

(** [_cache_response] *)
Definition _cache_response (cache_key : string) (response_data : string * string)
  : M State unit :=
  st <- get ;;
  cache <- lift (cache_insert cache_key response_data (response_cache (self st))) ;;
  modify (set_self (fun h =>
    {| response_cache := cache;
       request_count := request_count h;
       total_response_time := total_response_time h |})).

Definition apology : string :=
  "I'm having trouble processing that question right now. Could you please rephrase it?".

(** [get_response] *)
Definition get_response (question context : string)
  : M State (string * string * float) :=
  start_time <- time_time ;;
  let cache_key := _get_cache_key question context in
  cached_response <- _get_cached_response cache_key ;;
  match cached_response with
  | Some cached =>
      now <- time_time ;;
      ret (fst cached, snd cached, (now - start_time)%float)
  | None =>
      '(response, model_used) <- _try_model question Config.PRIMARY_MODEL context ;;
      '(response, model_used) <-
         (if negb (truthy response)
          then _try_model question Config.FALLBACK_MODEL context
          else ret (response, model_used)) ;;
      let '(response, model_used) :=
        match response with
        | Some r => if is_empty r then (apology, "fallback") else (r, model_used)
        | None => (apology, "fallback")
        end in
      now <- time_time ;;
      let response_time := (now - start_time)%float in
      (if negb (is_empty response) && negb (String.eqb model_used "fallback")
       then _cache_response cache_key (response, model_used)
       else ret tt) ;;
      modify (set_self (fun h =>
        {| response_cache := response_cache h;
           request_count := request_count h + 1;
           total_response_time := (total_response_time h + response_time)%float |})) ;;
      ret (response, model_used, response_time)
  end.




Section Stats.

(** The builtin [round(x, 2)] on a float. *)
Variable round2 : float -> float.



End Stats.

(** [clear_cache] *)
Definition clear_cache (h : AIResponseHandler) : AIResponseHandler :=
  {| response_cache := [];
     request_count := request_count h;
     total_response_time := total_response_time h |}.

(** ** What a call amounts to *)

(** What one call of [_try_model] makes of the transport's answer. *)
Definition try_result (out : post_outcome) : option string :=
  match out with
  | PostRaises _ => None
  | PostReturns status_code _ body =>
      if status_code =? 200
      then match read_choices body with
           | Ok content => content
           | Raise _ => None
           end
      else None
  end.

(** The answer and the model id a miss ends with, from what the two models
    gave. *)
Definition settle (r1 r2 : option string) : string * string :=
  match r1, r2 with
  | Some a1, _ => if is_empty a1
                  then match r2 with
                       | Some a2 => if is_empty a2 then (apology, "fallback")
                                    else (a2, Config.FALLBACK_MODEL)
                       | None => (apology, "fallback")
                       end
                  else (a1, Config.PRIMARY_MODEL)
  | None, Some a2 => if is_empty a2 then (apology, "fallback")
                     else (a2, Config.FALLBACK_MODEL)
  | None, None => (apology, "fallback")
  end.

(** The cache once its 10 oldest items are dropped, when it holds more than
    50. *)
Definition evicted (cache : dict (string * string)) : dict (string * string) :=
  if (50 <? List.length cache)%nat then skipn 10 cache else cache.

Definition with_cache (cache : dict (string * string)) (h : AIResponseHandler) :=
  {| response_cache := cache; request_count := request_count h;
     total_response_time := total_response_time h |}.

Definition counted (t : float) (h : AIResponseHandler) :=
  {| response_cache := response_cache h; request_count := request_count h + 1;
     total_response_time := (total_response_time h + t)%float |}.

(** The time between the next two readings of the clock. *)
Definition elapsed (w : World) : float := (now (tick w) - now w)%float.

(** Every cached answer is a non-empty string. *)
Definition cache_ok (cache : dict (string * string)) : Prop :=
  Forall (fun item => is_empty (fst (snd item)) = false) cache.

(** A client that asks its questions in turn. *)
Fixpoint get_responses (calls : list (string * string))
  : M State (list (string * string * float)) :=
  match calls with
  | [] => ret []
  | (question, context) :: rest =>
      r <- get_response question context ;;
      rs <- get_responses rest ;;
      ret (r :: rs)
  end.

Definition key_of (call : string * string) : string :=
  _get_cache_key (fst call) (snd call).

(** The response came from a model, not from the apology branch. *)
Definition from_model (r : string * string * float) : Prop :=
  snd (fst r) <> "fallback".

Definition from_modelb (r : string * string * float) : bool :=
  negb (String.eqb (snd (fst r)) "fallback").

(** The keys of the cache after one insertion, and after several. *)
Definition keys_insert (keys : list string) (k : string) : list string :=
  ((if (50 <? List.length keys)%nat then skipn 10 keys else keys) ++ [k])%list.

Definition keys_after (keys news : list string) : list string :=
  fold_left keys_insert news keys.

Definition responses_of {A S} (run : result (list A) * S) : list A :=
  match fst run with
  | Ok rs => rs
  | Raise _ => []
  end.

Fixpoint distinct (l : list string) : bool :=
  match l with
  | [] => true
  | x :: r => negb (existsb (String.eqb x) r) && distinct r
  end.

(** ** Worlds and questions for the examples *)

(** A body with one choice whose message has the content [content]. *)
Definition choices_body (content : string) : pyval :=
  PDict [("choices", PList [PDict [("message", PDict [("content", PStr content)])]])].

Definition seconds (n : nat) : float := float_of_Z (Z.of_nat n).

(** Every request is answered by HTTP 200 with the content "answer". *)
Definition answering_world : World :=
  {| clock := seconds; ticks := 0;
     transport := fun _ _ => PostReturns 200 "" (Ok (choices_body "answer"));
     sent := [] |}.

(** The primary model answers HTTP 500, the secondary HTTP 200 with "X". *)
Definition primary_down_world : World :=
  {| clock := seconds; ticks := 0;
     transport := fun _ req =>
       if String.eqb (req_model req) Config.PRIMARY_MODEL
       then PostReturns 500 "Server error" (Raise RequestException)
       else PostReturns 200 "" (Ok (choices_body "X"));
     sent := [] |}.

(** Nothing answers: the first post times out, the second is refused. *)
Definition offline_world : World :=
  {| clock := seconds; ticks := 0;
     transport := fun n _ =>
       match n with
       | O => PostRaises Timeout
       | _ => PostReturns 503 "" (Raise RequestException)
       end;
     sent := [] |}.

Definition fresh (w : World) : State := {| self := init; world := w |}.

(** The questions "topic0", "topic1", ... asked in the context "general". *)
Definition topics (n : nat) : list (string * string) :=
  map (fun i => ("topic" ++ str_of_int (Z.of_nat i), "general")) (seq 0 n).

Definition after_topics (n : nat) : State :=
  snd (get_responses (topics n) (fresh answering_world)).

Definition asked_once : State :=
  snd (get_response "What is AI?" "general" (fresh answering_world)).

(** ** The words of a cache key, the requests of a log *)

(** The test of the comprehension of [_get_cache_key], and its
    [key_words]. *)
Definition significant (w : string) : bool :=
  negb (existsb (String.eqb w) words_to_remove) && (2 <? String.length w)%nat.

Definition key_words (question : string) : list string :=
  filter significant (split (strip (lower question))).

(** The requests of a log that went to the model [model]. *)
Definition posted_to (model : string) (log : list request) : list request :=
  filter (fun req => String.eqb (req_model req) model) log.

(** The state once [clear_cache] has run. *)
Definition cleared (st : State) : State := set_self clear_cache st.

End AI.

(* ===================================================================== *)
(** * audio_manager.py: class AudioManager *)
(* ===================================================================== *)

Module Audio.

(** A sample is a [numpy.int16]: an integer of [-32768, 32767]. *)
Definition int16 (x : Z) : Prop := -32768 <= x <= 32767.

(** Arithmetic on [int16] arrays wraps around. *)
Definition wrap16 (z : Z) : Z := (z + 32768) mod 65536 - 32768.

(** [int(CONFIG.audio.SAMPLE_RATE * 30)], the [maxlen] of the deque. *)
Definition BUFFER_MAXLEN : Z := Config.SAMPLE_RATE * 30.

(** What PyAudio says of a device; a field may be missing. *)
Record device_info : Type := {
  name : option string;
  maxInputChannels : option Z;
  index : option Z
}.

(** The calls made to PyAudio and to a stream, in order. *)
Inductive pa_call : Type :=
| GetDeviceCount
| GetDeviceInfoByIndex (i : Z)
| GetDefaultInputDeviceInfo
| Open (input_device_index : Z)
| StartStream (stream : nat)
| StopStream (stream : nat)
| Close (stream : nat).

(** The answers of PyAudio. *)
Record PyAudio : Type := {
  device_count : result Z;
  device_info_by_index : Z -> result device_info;
  default_input_device_info : result device_info;
  open : Z -> result nat;
  start_stream : nat -> result unit;
  stop_stream : nat -> result unit;
  close : nat -> result unit
}.

(** The fields of the manager; a callback is named by a number. *)
Record AudioManager : Type := {
  stream : option nat;
  device_index : option Z;
  is_recording : bool;
  audio_buffer : list Z;
  callbacks : list nat
}.

(** The manager, and the calls it has made so far. *)
Record State : Type := {
  self : AudioManager;
  calls : list pa_call
}.

(** [__init__] *)
Definition init : AudioManager :=
  {| stream := None; device_index := None; is_recording := false;
     audio_buffer := []; callbacks := [] |}.

Definition set_stream (v : option nat) (st : State) : State :=
  {| self := {| stream := v; device_index := device_index (self st);
                is_recording := is_recording (self st);
                audio_buffer := audio_buffer (self st);
                callbacks := callbacks (self st) |};
     calls := calls st |}.

Definition set_device_index (v : option Z) (st : State) : State :=
  {| self := {| stream := stream (self st); device_index := v;
                is_recording := is_recording (self st);
                audio_buffer := audio_buffer (self st);
                callbacks := callbacks (self st) |};
     calls := calls st |}.

Definition set_is_recording (v : bool) (st : State) : State :=
  {| self := {| stream := stream (self st);
                device_index := device_index (self st);
                is_recording := v;
                audio_buffer := audio_buffer (self st);
                callbacks := callbacks (self st) |};
     calls := calls st |}.

Definition set_audio_buffer (v : list Z) (st : State) : State :=
  {| self := {| stream := stream (self st);
                device_index := device_index (self st);
                is_recording := is_recording (self st);
                audio_buffer := v;
                callbacks := callbacks (self st) |};
     calls := calls st |}.

Definition set_callbacks (v : list nat) (st : State) : State :=
  {| self := {| stream := stream (self st);
                device_index := device_index (self st);
                is_recording := is_recording (self st);
                audio_buffer := audio_buffer (self st);
                callbacks := v |};
     calls := calls st |}.

Local Open Scope eff_scope.

(** A call to PyAudio: logged, then answered. *)
Definition call {A} (c : pa_call) (answer : result A) : M State A :=
  modify (fun st => {| self := self st; calls := calls st ++ [c] |}) ;;
  lift answer.

Section Devices.

(** The builtin [str.upper]. *)
Variable upper : string -> string.

Variable pa : PyAudio.

(** The body of the inner loop of [find_virtual_audio_device]: does one
    of the markers select this device? *)
Definition is_virtual_input (info : device_info) : bool :=
  let device_name := upper (match name info with Some n => n | None => "" end) in
  existsb
    (fun virtual_device =>
       is_substring (upper virtual_device) device_name
       && (0 <? match maxInputChannels info with Some c => c | None => 0 end))
    Config.VIRTUAL_AUDIO_DEVICES.

(** [for i in range(...)] over the indices still to visit. *)
Fixpoint scan_devices (indices : list Z) : M State (option Z) :=
  match indices with
  | [] => ret None
  | i :: rest =>
      info <- call (GetDeviceInfoByIndex i) (device_info_by_index pa i) ;;
      if is_virtual_input info then ret (Some i) else scan_devices rest
  end.

Definition range (n : Z) : list Z := map Z.of_nat (seq 0 (Z.to_nat n)).

(** [find_virtual_audio_device] *)
Definition find_virtual_audio_device : M State (option Z) :=
  found <- try_except
             (n <- call GetDeviceCount (device_count pa) ;;
              scan_devices (range n))
             (fun _ => ret None) ;;
  match found with
  | Some i => ret (Some i)
  | None =>
      try_except
        (default_device <- call GetDefaultInputDeviceInfo
                                (default_input_device_info pa) ;;
         match name default_device, index default_device with
         | Some _, Some i => ret (Some i)
         | _, _ => raise KeyError
         end)
        (fun _ => ret None)
  end.

(** [start_recording] *)
Definition start_recording (callback : nat) : M State bool :=
  st <- get ;;
  if is_recording (self st) then ret false
  else
    device <- find_virtual_audio_device ;;
    modify (set_device_index device) ;;
    match device with
    | None => ret false
    | Some i =>
        try_except
          (s <- call (Open i) (open pa i) ;;
           modify (set_stream (Some s)) ;;
           modify (fun st => set_callbacks (callbacks (self st) ++ [callback]) st) ;;
           modify (set_is_recording true) ;;
           call (StartStream s) (start_stream pa s) ;;
           ret true)
          (fun _ => ret false)
    end.

(** [stop_recording] *)
Definition stop_recording : M State unit :=
  st <- get ;;
  if negb (is_recording (self st)) then ret tt
  else
    try_except
      (match stream (self st) with
       | Some s =>
           call (StopStream s) (stop_stream pa s) ;;
           call (Close s) (close pa s)
       | None => ret tt
       end ;;
       modify (set_is_recording false) ;;
       modify (set_callbacks []))
      (fun _ => ret tt).

End Devices.

(** [numpy.frombuffer(in_data, dtype=numpy.int16)]: two bytes a sample, low
    byte first; a byte left over is a [ValueError]. *)
Fixpoint frombuffer_int16 (in_data : list Byte.byte) : result (list Z) :=
  match in_data with
  | [] => Ok []
  | [_] => Raise ValueError
  | lo :: hi :: rest =>
      (samples <~ frombuffer_int16 rest ;;
       Ok (wrap16 (Z.of_N (Byte.to_N lo) + 256 * Z.of_N (Byte.to_N hi))
           :: samples))%res
  end.

(** [deque.extend] on a deque of [maxlen] items: what does not fit falls
    off the left end. *)
Definition deque_extend (maxlen : Z) (buffer items : list Z) : list Z :=
  let all := (buffer ++ items)%list in
  skipn (List.length all - Z.to_nat maxlen) all.

(** [_audio_callback] *)
Definition _audio_callback (in_data : list Byte.byte) : M State unit :=
  audio_data <- lift (frombuffer_int16 in_data) ;;
  modify (fun st =>
    set_audio_buffer (deque_extend BUFFER_MAXLEN (audio_buffer (self st)) audio_data) st).

(** [chunk**2] on an [int16] array. *)
Definition square (chunk : list Z) : list Z := map (fun x => wrap16 (x * x)) chunk.

Definition sum (l : list Z) : Z := fold_right Z.add 0 l.

(** [numpy.mean] of an integer array: the sum is taken in binary64, where
    it is exact for a deque of this size, and divided by the count; the
    mean of no sample is [nan]. *)
Definition mean (l : list Z) : float :=
  (float_of_Z (sum l) / float_of_Z (Z.of_nat (List.length l)))%float.

(** [numpy.sqrt(numpy.mean(chunk**2))] *)
Definition rms (chunk : list Z) : float := PrimFloat.sqrt (mean (square chunk)).

(** [chunk.astype(numpy.float32) / 32768.0]: each quotient is exact, in
    binary32 as in binary64. *)
Definition normalize (chunk : list Z) : list float :=
  map (fun x => (float_of_Z x / 32768)%float) chunk.

(** [int(CONFIG.audio.SAMPLE_RATE * duration)] *)
Definition samples_needed (duration : float) : result Z :=
  int_of_float (float_of_Z Config.SAMPLE_RATE * duration)%float.

(** [get_audio_chunk] *)
Definition get_audio_chunk (duration : float) : M State (option (list float)) :=
  samples_needed <- lift (samples_needed duration) ;;
  st <- get ;;
  if Z.of_nat (List.length (audio_buffer (self st))) <? samples_needed
  then ret None
  else
    let chunk := slice_from (audio_buffer (self st)) (- samples_needed) in
    if (rms chunk <? Config.SILENCE_THRESHOLD)%float
    then ret None
    else ret (Some (normalize chunk)).

(** ** Checks over a range of integers *)

(** [P z], [P (z + 1)], ... hold, [count] of them. *)
Fixpoint all_from (P : Z -> bool) (count : nat) (z : Z) : bool :=
  match count with
  | O => true
  | S count' => P z && all_from P count' (z + 1)
  end.

(** The same over machine integers. *)
Fixpoint all_ints (P : int -> bool) (count : nat) (i : int) : bool :=
  match count with
  | O => true
  | S count' => P i && all_ints P count' (i + 1)%uint63
  end.

(** The sum of the squares of the samples, in the integers. *)
Definition sum_squares (chunk : list Z) : Z := sum (map (fun x => x * x) chunk).

(** A chunk of [n] samples whose squares sum to [s] does not pass the
    silence gate. *)
Definition quiet (s n : int) : bool :=
  (PrimFloat.sqrt (PrimFloat.of_uint63 s / PrimFloat.of_uint63 n)
   <? Config.SILENCE_THRESHOLD)%float.

(** [quiet s n] for every [n] with [10000 * s < n <= BUFFER_MAXLEN], that
    is for every chunk the deque can hold whose mean square is below
    0.0001, the square of 0.01.  The sums [s] that allow such an [n] are
    0, ..., 47. *)
Definition quiet_row (s : Z) : bool :=
  all_ints (quiet (Uint63.of_Z s))
           (Z.to_nat (BUFFER_MAXLEN - 10000 * s))
           (Uint63.of_Z (10000 * s + 1)).

(** The sample [x], normalized, lies in [-1, 1]. *)
Definition normalized_in_range (x : Z) : bool :=
  ((-1 <=? float_of_Z x / 32768) && (float_of_Z x / 32768 <=? 1))%float.

(** ** Managers for the examples *)

Definition with_buffer (buffer : list Z) : State :=
  {| self := {| stream := None; device_index := None; is_recording := false;
                audio_buffer := buffer; callbacks := [] |};
     calls := [] |}.

(** A manager that is recording on device 2 through stream 7. *)
Definition recording : State :=
  {| self := {| stream := Some 7%nat; device_index := Some 2; is_recording := true;
                audio_buffer := [12; -7; 300]; callbacks := [0%nat] |};
     calls := [GetDeviceCount; GetDeviceInfoByIndex 0; GetDeviceInfoByIndex 1;
               GetDeviceInfoByIndex 2; Open 2; StartStream 7%nat] |}.

(** A PyAudio with one input device, which opens as stream 1. *)
Definition one_device : PyAudio :=
  {| device_count := Ok 1;
     device_info_by_index := fun i =>
       Ok {| name := Some "CABLE Output (VB-Audio Virtual)";
             maxInputChannels := Some 1; index := Some i |};
     default_input_device_info := Raise OSError;
     open := fun _ => Ok 1%nat;
     start_stream := fun _ => Ok tt;
     stop_stream := fun _ => Ok tt;
     close := fun _ => Ok tt |}.

(** ** The rest of the manager *)

(** The state after further calls to PyAudio. *)
Definition after_calls (cs : list pa_call) (st : State) : State :=
  {| self := self st; calls := (calls st ++ cs)%list |}.

(** [{}], a device info without a field. *)
Definition no_info : device_info :=
  {| name := None; maxInputChannels := None; index := None |}.

(** [get_device_info] *)
Definition get_device_info (pa : PyAudio) : M State device_info :=
  st <- get ;;
  match device_index (self st) with
  | Some i =>
      try_except (call (GetDeviceInfoByIndex i) (device_info_by_index pa i))
                 (fun _ => ret no_info)
  | None => ret no_info
  end.

(** The index the second [try] of [find_virtual_audio_device] returns:
    that of the default input device, when PyAudio has one and its info
    carries a name and an index. *)
Definition default_index (pa : PyAudio) : option Z :=
  match default_input_device_info pa with
  | Ok default_device =>
      match name default_device, index default_device with
      | Some _, Some i => Some i
      | _, _ => None
      end
  | Raise _ => None
  end.

(** [array.tobytes()] on an [int16] array: two bytes a sample, low byte
    first, in two's complement. *)
Definition byte_of (z : Z) : Byte.byte :=
  match Byte.of_N (Z.to_N (z mod 256)) with
  | Some b => b
  | None => Byte.x00
  end.

Definition tobytes (samples : list Z) : list Byte.byte :=
  flat_map (fun x => [byte_of x; byte_of (x / 256)]) samples.

(** The file [wave.open(filepath, 'wb')] and the four calls on it write. *)
Record wav_file : Type := {
  filepath : string;
  nchannels : Z;
  sampwidth : Z;
  framerate : Z;
  frames : list Byte.byte
}.

(** [os.path.join(directory, filename)]: an absolute [filename] stands
    alone. *)
Definition path_join (directory filename : string) : string :=
  if prefix "/" filename then filename else directory ++ "/" ++ filename.

(** [CONFIG.TEMP_AUDIO_PATH] *)
Definition TEMP_AUDIO_PATH : string := "./temp".

Section Saving.

(** What [astype(numpy.int16)] makes of a sample whose product with 32768
    is [nan] or, once truncated, is no [int16]: the cast of C, which the
    platform decides. *)
Variable cast_out_of_range : float -> Z.

(** The [with wave.open(...)] block: it raises, or the file is written. *)
Variable wave_write : wav_file -> result unit.

(** One sample of [(audio_data * 32768.0).astype(numpy.int16)]: the
    product is exact in binary32 as in binary64, and the cast truncates
    toward zero. *)
Definition to_int16 (x : float) : Z :=
  match int_of_float (x * 32768)%float with
  | Ok z => if (-32768 <=? z) && (z <=? 32767) then z else cast_out_of_range x
  | Raise _ => cast_out_of_range x
  end.

(** [save_audio_chunk]; the state is the list of the files written. *)
Definition save_audio_chunk (audio_data : list float) (filename : string)
  : M (list wav_file) bool :=
  try_except
    (let filepath := path_join TEMP_AUDIO_PATH filename in
     let audio_int16 := map to_int16 audio_data in
     let file := {| filepath := filepath;
                    nchannels := Config.CHANNELS;
                    sampwidth := 2;
                    framerate := Config.SAMPLE_RATE;
                    frames := tobytes audio_int16 |} in
     lift (wave_write file) ;;
     modify (fun files => files ++ [file])%list ;;
     ret true)
    (fun _ => ret false).

End Saving.

(** A PyAudio with a microphone at index 0 and a virtual cable at index
    1; streams open as number 5, and start and stop as told. *)
Definition microphone : device_info :=
  {| name := Some "Microphone (Realtek Audio)"; maxInputChannels := Some 2;
     index := Some 0 |}.

Definition cable : device_info :=
  {| name := Some "CABLE Output (VB-Audio Virtual Cable)";
     maxInputChannels := Some 2; index := Some 1 |}.

Definition two_devices (start stop : result unit) : PyAudio :=
  {| device_count := Ok 2;
     device_info_by_index := fun i => if i =? 0 then Ok microphone else Ok cable;
     default_input_device_info := Ok microphone;
     open := fun _ => Ok 5%nat;
     start_stream := fun _ => start;
     stop_stream := fun _ => stop;
     close := fun _ => Ok tt |}.

(** A PyAudio without any input device. *)
Definition no_device : PyAudio :=
  {| device_count := Ok 0;
     device_info_by_index := fun _ => Raise OSError;
     default_input_device_info := Raise OSError;
     open := fun _ => Raise OSError;
     start_stream := fun _ => Ok tt;
     stop_stream := fun _ => Ok tt;
     close := fun _ => Ok tt |}.

(** A sample survives normalization and the way back to [int16]. *)
Definition survives (x : int) : bool :=
  let z := Uint63.to_Z x - 32768 in
  match int_of_float (float_of_Z z / 32768 * 32768)%float with
  | Ok z' => z' =? z
  | Raise _ => false
  end.

End Audio.

(* ===================================================================== *)
(** * transcriber.py: class WhisperTranscriber *)
(* ===================================================================== *)

Module Transcriber.

(** [subprocess.CompletedProcess] *)
Record completed : Type := {
  returncode : Z;
  stdout : string;
  stderr : string
}.

(** What the transcriber does outside the process, in order. *)
Inductive action : Type :=
| LoadModel
| Probe (path : string)
| ModelTranscribe
| WriteWav (file : string)
| Run (cmd : list string)
| Remove (file : string).

(** The fields of the transcriber; the loaded model is named by a number. *)
Record WhisperTranscriber : Type := {
  model : option nat;
  whisper_cpp_path : option string;
  model_loaded : bool
}.

Record State : Type := {
  self : WhisperTranscriber;
  ticks : nat;
  actions : list action
}.

Definition set_self (h : WhisperTranscriber) (st : State) : State :=
  {| self := h; ticks := ticks st; actions := actions st |}.

(** The clock has been read once more. *)
Definition tick (st : State) : State :=
  {| self := self st; ticks := S (ticks st); actions := actions st |}.

Local Open Scope eff_scope.

Definition act {A} (a : action) (answer : result A) : M State A :=
  modify (fun st => {| self := self st; ticks := ticks st;
                       actions := actions st ++ [a] |}) ;;
  lift answer.

Definition MODEL_SIZE : string := "base.en".
Definition LANGUAGE : string := "en".
Definition TEMP_AUDIO_PATH : string := "./temp".

Section Engines.

(** The answers of the world: the clock, [whisper.load_model], the probes
    of [_check_whisper_cpp], [self.model.transcribe], the block that writes
    the wav file, [subprocess.run] and [os.remove]. *)
Variable clock : nat -> float.
Variable load_model : result nat.
Variable path_exists : string -> bool.
Variable command_answers : string -> bool.
Variable model_transcribe : list float -> result pyval.
Variable write_wav : string -> list float -> result unit.
Variable subprocess_run : list string -> result completed.
Variable os_remove : string -> result unit.

(** [time.time()] *)
Definition time_time : M State float :=
  st <- get ;;
  modify tick ;;
  ret (clock (ticks st)).

Definition possible_paths : list string :=
  ["./whisper.cpp/main.exe"; "./whisper.cpp/main"; "whisper-cpp"; "whisper"].

(** The loop of [_check_whisper_cpp] over the paths still to try. *)
Fixpoint check_paths (paths : list string) : M State bool :=
  match paths with
  | [] => ret false
  | path :: rest =>
      found <- act (Probe path) (Ok (path_exists path || command_answers path)) ;;
      if (found : bool) then
        modify (fun st => set_self {| model := model (self st);
                                      whisper_cpp_path := Some path;
                                      model_loaded := model_loaded (self st) |} st) ;;
        ret true
      else check_paths rest
  end.

(** [_check_whisper_cpp] *)
Definition _check_whisper_cpp : M State bool := check_paths possible_paths.

(** [_initialize_whisper] *)
Definition _initialize_whisper : M State unit :=
  try_except
    (m <- act LoadModel load_model ;;
     modify (fun st => set_self {| model := Some m;
                                   whisper_cpp_path := whisper_cpp_path (self st);
                                   model_loaded := model_loaded (self st) |} st) ;;
     modify (fun st => set_self {| model := model (self st);
                                   whisper_cpp_path := whisper_cpp_path (self st);
                                   model_loaded := true |} st))
    (fun _ => _check_whisper_cpp ;; ret tt).

(** [__init__] *)
Definition init : State :=
  {| self := {| model := None; whisper_cpp_path := None; model_loaded := false |};
     ticks := 0; actions := [] |}.

(** The loop of [_calculate_confidence]: the clamped confidences of the
    segments that carry an [avg_logprob]. *)
Fixpoint confidences_of (segments : list pyval) : result (list float) :=
  match segments with
  | [] => Ok []
  | segment :: rest =>
      (has <~ py_in "avg_logprob" segment ;;
       if (has : bool) then
         v <~ py_getitem segment "avg_logprob" ;;
         x <~ py_add_one v ;;
         let confidence := py_min 1 (py_max 0 x) in
         more <~ confidences_of rest ;;
         Ok (confidence :: more)
       else confidences_of rest)%res
  end.

(** [sum(confidences)] *)
Definition fsum (l : list float) : float :=
  fold_left PrimFloat.add l 0%float.

(** [_calculate_confidence]; the divisor is a length, which converts to a
    float without an overflow. *)
Definition _calculate_confidence (segments : pyval) : result float :=
  if negb (py_bool segments) then Ok 0%float
  else
    (items <~ py_iter segments ;;
     confidences <~ confidences_of items ;;
     match confidences with
     | [] => Ok 0%float
     | _ => Ok (fsum confidences / float_of_Z (Z.of_nat (List.length confidences)))%float
     end)%res.

(** The [try] block of [_transcribe_with_whisper_python].  The chunk is a
    flat array of binary32 samples already, so the two conversions at its
    head do nothing. *)
Definition whisper_python_body (audio_data : list float) (start_time : float)
  : M State (string * float) :=
  result <- act ModelTranscribe (model_transcribe audio_data) ;;
  text <- lift (py_get result "text" (PStr "")) ;;
  transcript <- lift (py_strip text) ;;
  segments <- lift (py_get result "segments" (PList [])) ;;
  confidence <- lift (_calculate_confidence segments) ;;
  _ <- time_time ;;
  ret (transcript, confidence).

(** [_transcribe_with_whisper_python] *)
Definition _transcribe_with_whisper_python (audio_data : list float)
    (start_time : float) : M State (string * float) :=
  try_except (whisper_python_body audio_data start_time)
             (fun _ => ret ("", 0%float)).

(** [os.path.join(CONFIG.TEMP_AUDIO_PATH, f"temp_audio_{stamp}.wav")] *)
Definition temp_file_name (stamp : Z) : string :=
  TEMP_AUDIO_PATH ++ "/" ++ "temp_audio_" ++ str_of_int stamp ++ ".wav".

(** The command line of whisper.cpp. *)
Definition whisper_cpp_command (path : option string) (temp_file : string)
  : list string :=
  let model_path := "./whisper.cpp/models/ggml-" ++ MODEL_SIZE ++ ".bin" in
  [match path with Some p => p | None => "" end;
   "-m"; model_path; "-f"; temp_file; "-nt"; "-l"; LANGUAGE].

(** The [try] block of [_transcribe_with_whisper_cpp]. *)
Definition whisper_cpp_body (audio_data : list float) (start_time : float)
  : M State (string * float) :=
  st <- get ;;
  now <- time_time ;;
  stamp <- lift (int_of_float now) ;;
  let temp_file := temp_file_name stamp in
  act (WriteWav temp_file) (write_wav temp_file audio_data) ;;
  let cmd := whisper_cpp_command (whisper_cpp_path (self st)) temp_file in
  result <- act (Run cmd) (subprocess_run cmd) ;;
  try_except (act (Remove temp_file) (os_remove temp_file)) (fun _ => ret tt) ;;
  if returncode result =? 0 then
    let transcript := strip (stdout result) in
    _ <- time_time ;;
    ret (transcript, 0.8%float)
  else
    ret ("", 0%float).

(** [_transcribe_with_whisper_cpp] *)
Definition _transcribe_with_whisper_cpp (audio_data : list float)
    (start_time : float) : M State (string * float) :=
  try_except (whisper_cpp_body audio_data start_time)
    (fun e =>
       match e with
       | TimeoutExpired => ret ("", 0%float)
       | _ => ret ("", 0%float)
       end).

(** [self.model_loaded and self.model] *)
Definition primary_ready (h : WhisperTranscriber) : bool :=
  model_loaded h && match model h with Some _ => true | None => false end.

(** [transcribe_audio] *)
Definition transcribe_audio (audio_data : list float) : M State (string * float) :=
  start_time <- time_time ;;
  st <- get ;;
  if primary_ready (self st)
  then _transcribe_with_whisper_python audio_data start_time
  else if truthy (whisper_cpp_path (self st))
  then _transcribe_with_whisper_cpp audio_data start_time
  else ret ("", 0%float).

(** [is_ready] *)
Definition is_ready (h : WhisperTranscriber) : bool :=
  model_loaded h || match whisper_cpp_path h with Some _ => true | None => false end.

End Engines.

(** ** Transcribers and worlds for the examples *)

Definition with_engine (m : option nat) (path : option string) (loaded : bool) : State :=
  {| self := {| model := m; whisper_cpp_path := path; model_loaded := loaded |};
     ticks := 0; actions := [] |}.

Definition seconds (n : nat) : float := float_of_Z (Z.of_nat n).

(** A speech model that raises, a wav writer that works, a subprocess that
    times out, and one that ends with exit code 1. *)
Definition model_fails (audio : list float) : result pyval := Raise OtherException.
Definition wav_written (file : string) (audio : list float) : result unit := Ok tt.
Definition run_times_out (cmd : list string) : result completed := Raise TimeoutExpired.
Definition run_exits_1 (cmd : list string) : result completed :=
  Ok {| returncode := 1; stdout := "partial"; stderr := "error" |}.
Definition removed (file : string) : result unit := Ok tt.

(** The paths the loop of [_check_whisper_cpp] probes: up to the first
    one that is available. *)
Fixpoint probed (available : string -> bool) (paths : list string) : list string :=
  match paths with
  | [] => []
  | path :: rest => path :: (if available path then [] else probed available rest)
  end.

(** The state after [n] more readings of the clock and further actions. *)
Definition after_actions (n : nat) (acts : list action) (st : State) : State :=
  {| self := self st; ticks := (n + ticks st)%nat;
     actions := (actions st ++ acts)%list |}.

(** An [os.remove] that fails, and a subprocess that prints a transcript. *)
Definition remove_fails (file : string) : result unit := Raise OSError.
Definition run_prints (text : string) (cmd : list string) : result completed :=
  Ok {| returncode := 0; stdout := text; stderr := "" |}.

(** What the primary engine answers for a chunk: the trimmed text and the
    confidence the model's result gives, or ("", 0.0) when anything in the
    block raises. *)
Definition python_answer (model_transcribe : list float -> result pyval)
    (audio_data : list float) : string * float :=
  match (result <~ model_transcribe audio_data ;;
         text <~ py_get result "text" (PStr "") ;;
         transcript <~ py_strip text ;;
         segments <~ py_get result "segments" (PList []) ;;
         confidence <~ _calculate_confidence segments ;;
         Ok (transcript, confidence))%res with
  | Ok answer => answer
  | Raise _ => ("", 0%float)
  end.

(** A speech model that hears a question. *)
Definition model_hears (text : string) (audio : list float) : result pyval :=
  Ok (PDict [("text", PStr text);
             ("segments", PList [PDict [("avg_logprob", PFloat (-0.5)%float)]])]).

End Transcriber.

(* ===================================================================== *)
(** * main.py: class AudioProcessingThread *)
(* ===================================================================== *)

Module Main.

Inductive message : Type :=
| TranscriberNotReady        (* "Transcriber not ready" *)
| FailedToStart              (* "Failed to start audio recording" *)
| TranscriptionError (e : exn).

(** The Qt signals of the thread. *)
Inductive signal : Type :=
| TranscriptionReady (text : string) (confidence : float)
| ErrorOccurred (msg : message)
| StatusChanged (status : string).

Record AudioProcessingThread : Type := {
  audio_manager : Audio.State;
  transcriber : Transcriber.State;
  running : bool;
  processing : bool;
  emitted : list signal
}.

Definition set_audio_manager (a : Audio.State) (t : AudioProcessingThread) :=
  {| audio_manager := a; transcriber := transcriber t; running := running t;
     processing := processing t; emitted := emitted t |}.

Definition set_transcriber (w : Transcriber.State) (t : AudioProcessingThread) :=
  {| audio_manager := audio_manager t; transcriber := w; running := running t;
     processing := processing t; emitted := emitted t |}.

Definition set_running (b : bool) (t : AudioProcessingThread) :=
  {| audio_manager := audio_manager t; transcriber := transcriber t; running := b;
     processing := processing t; emitted := emitted t |}.

Definition set_processing (b : bool) (t : AudioProcessingThread) :=
  {| audio_manager := audio_manager t; transcriber := transcriber t;
     running := running t; processing := b; emitted := emitted t |}.

Local Open Scope eff_scope.

(** [self.<signal>.emit(...)] *)
Definition emit (s : signal) : M AudioProcessingThread unit :=
  modify (fun t =>
    {| audio_manager := audio_manager t; transcriber := transcriber t;
       running := running t; processing := processing t;
       emitted := emitted t ++ [s] |}).

(** A method of [self.audio_manager], of [self.transcriber]. *)
Definition in_audio {A} (c : M Audio.State A) : M AudioProcessingThread A :=
  fun t => let (r, a) := c (audio_manager t) in (r, set_audio_manager a t).

Definition in_transcriber {A} (c : M Transcriber.State A) : M AudioProcessingThread A :=
  fun t => let (r, w) := c (transcriber t) in (r, set_transcriber w t).

(** [try: body  finally: cleanup] *)
Definition try_finally {S A} (body : M S A) (cleanup : M S unit) : M S A :=
  fun s => let (r, s') := body s in
           match cleanup s' with
           | (Ok _, s'') => (r, s'')
           | (Raise e, s'') => (Raise e, s'')
           end.

(** What the other threads do between two tests of [while self.running]:
    the capture thread delivers blocks to [_audio_callback], and the
    application may call [stop]. *)
Record interval : Type := {
  captured : list (list Byte.byte);
  stop_called : bool
}.

(** The callback the thread registers, [self._audio_callback]. *)
Definition thread_callback : nat := 0%nat.

Section Thread.

Variable upper : string -> string.
Variable pa : Audio.PyAudio.
Variable clock : nat -> float.
Variable model_transcribe : list float -> result pyval.
Variable write_wav : string -> list float -> result unit.
Variable subprocess_run : list string -> result Transcriber.completed.
Variable os_remove : string -> result unit.

Definition transcribe_audio :=
  Transcriber.transcribe_audio clock model_transcribe write_wav subprocess_run os_remove.

(** [stop] *)
Definition stop : M AudioProcessingThread unit :=
  modify (set_running false) ;;
  in_audio (Audio.stop_recording pa).

(** The branch of the loop body that is taken with a chunk in hand. *)
Definition process_chunk (chunk : list float) : M AudioProcessingThread unit :=
  modify (set_processing true) ;;
  emit (StatusChanged "processing") ;;
  try_finally
    (try_except
       ('(transcript, confidence) <- in_transcriber (transcribe_audio chunk) ;;
        if negb (is_empty transcript)
           && (3 <? String.length (strip transcript))%nat
        then emit (TranscriptionReady transcript confidence)
        else emit (StatusChanged "listening"))
       (fun e => emit (ErrorOccurred (TranscriptionError e))))
    (modify (set_processing false)).

(** One pass through the body of [while self.running]. *)
Definition poll : M AudioProcessingThread unit :=
  t <- get ;;
  if negb (processing t) then
    audio_chunk <- in_audio (Audio.get_audio_chunk Config.CHUNK_DURATION) ;;
    match audio_chunk with
    | Some chunk =>
        if (0 <? List.length chunk)%nat then process_chunk chunk else ret tt
    | None => ret tt
    end
  else ret tt.

(** The capture thread's deliveries; an exception in the callback stays in
    the capture thread. *)
Fixpoint deliver (blocks : list (list Byte.byte)) : M AudioProcessingThread unit :=
  match blocks with
  | [] => ret tt
  | in_data :: rest =>
      try_except (in_audio (Audio._audio_callback in_data)) (fun _ => ret tt) ;;
      deliver rest
  end.

Definition between_polls (i : interval) : M AudioProcessingThread unit :=
  deliver (captured i) ;;
  if stop_called i then stop else ret tt.

(** [while self.running: ...], observed over the intervals of a schedule;
    [true] when the loop was left because [running] is false. *)
Fixpoint loop (schedule : list interval) : M AudioProcessingThread bool :=
  match schedule with
  | [] => ret false
  | i :: rest =>
      between_polls i ;;
      t <- get ;;
      if running t then poll ;; loop rest else ret true
  end.

(** [run] *)
Definition run (schedule : list interval) : M AudioProcessingThread unit :=
  modify (set_running true) ;;
  t <- get ;;
  if negb (Transcriber.is_ready (Transcriber.self (transcriber t))) then
    emit (ErrorOccurred TranscriberNotReady)
  else
    started <- in_audio (Audio.start_recording upper pa thread_callback) ;;
    if negb started then
      emit (ErrorOccurred FailedToStart)
    else
      emit (StatusChanged "listening") ;;
      left <- loop schedule ;;
      if (left : bool) then in_audio (Audio.stop_recording pa) else ret tt.

End Thread.

(** A transcription event carries a text of more than 3 characters once
    trimmed. *)
Definition meaningful (s : signal) : Prop :=
  match s with
  | TranscriptionReady text _ => (3 < String.length (strip text))%nat
  | _ => True
  end.

(** The thread [t'] has emitted what [t] had, and then only status, error
    and meaningful transcription signals. *)
Definition extends (t t' : AudioProcessingThread) : Prop :=
  exists new, emitted t' = (emitted t ++ new)%list /\ Forall meaningful new.

(** A statement sequence that emits nothing else, from any state. *)
Definition safe {A} (c : M AudioProcessingThread A) : Prop :=
  forall t, extends t (snd (c t)).

(** The signals a chunk gives rise to, from its transcript. *)
Definition signals_of (text : string) (confidence : float) : list signal :=
  [StatusChanged "processing";
   if (3 <? String.length (strip text))%nat
   then TranscriptionReady text confidence
   else StatusChanged "listening"].

(** The thread with the signals [new] emitted after those it had. *)
Definition with_emitted (new : list signal) (t : AudioProcessingThread) :=
  {| audio_manager := audio_manager t; transcriber := transcriber t;
     running := running t; processing := processing t;
     emitted := (emitted t ++ new)%list |}.

(** ** A thread for the examples: 3 seconds of a loud tone in the buffer,
    and a primary engine. *)
Definition tone : list Z := repeat 1000 (Z.to_nat 48000).

Definition listening : AudioProcessingThread :=
  {| audio_manager := Audio.with_buffer tone;
     transcriber := Transcriber.with_engine (Some 1%nat) None true;
     running := true; processing := false;
     emitted := [StatusChanged "listening"] |}.

(** A thread that has not started: no audio, no engine. *)
Definition idle : AudioProcessingThread :=
  {| audio_manager := Audio.with_buffer [];
     transcriber := Transcriber.init;
     running := false; processing := false; emitted := [] |}.

(** An interval in which the application calls [stop]. *)
Definition stop_now : interval := {| captured := []; stop_called := true |}.

(** An interval in which nothing happens. *)
Definition quiet : interval := {| captured := []; stop_called := false |}.

(** A thread before [run]: 3 seconds of the tone in the buffer, a primary
    engine, nothing emitted; and one whose manager is recording. *)
Definition waiting : AudioProcessingThread :=
  {| audio_manager := Audio.with_buffer tone;
     transcriber := Transcriber.with_engine (Some 1%nat) None true;
     running := false; processing := false; emitted := [] |}.

Definition capturing : AudioProcessingThread :=
  {| audio_manager := Audio.recording;
     transcriber := Transcriber.with_engine (Some 1%nat) None true;
     running := true; processing := false;
     emitted := [StatusChanged "listening"] |}.

End Main.

(* ===================================================================== *)
(** * hotkey_manager.py: class HotkeyManager *)
(* ===================================================================== *)

Module Hotkeys.

Section Manager.

(** The state the callbacks act on, beside the manager's own. *)
Context {S : Type}.

Record HotkeyManager : Type := {
  callbacks : dict (M S unit);
  is_listening : bool;
  last_press_time : dict float;
  debounce_time : float;
  hotkeys : dict string
}.

(** [__init__] *)
Definition init : HotkeyManager :=
  {| callbacks := [];
     is_listening := false;
     last_press_time := [];
     debounce_time := 0.5%float;
     hotkeys := [("toggle_overlay", "ctrl+shift+h");
                 ("toggle_listening", "ctrl+shift+l");
                 ("copy_last_answer", "ctrl+shift+c");
                 ("clear_overlay", "ctrl+shift+x");
                 ("toggle_tts", "ctrl+shift+t");
                 ("emergency_hide", "ctrl+shift+esc")] |}.

(** [register_callback] *)
Definition register_callback (action : string) (callback : M S unit)
    (hk : HotkeyManager) : HotkeyManager :=
  {| callbacks := dict_set action callback (callbacks hk);
     is_listening := is_listening hk;
     last_press_time := last_press_time hk;
     debounce_time := debounce_time hk;
     hotkeys := hotkeys hk |}.

Definition pressed (action : string) (current_time : float) (hk : HotkeyManager)
  : HotkeyManager :=
  {| callbacks := callbacks hk;
     is_listening := is_listening hk;
     last_press_time := dict_set action current_time (last_press_time hk);
     debounce_time := debounce_time hk;
     hotkeys := hotkeys hk |}.

Local Open Scope eff_scope.

(** A callback, run on the state it acts on. *)
Definition in_callback {A} (c : M S A) : M (HotkeyManager * S) A :=
  fun st => let (r, s) := c (snd st) in (r, (fst st, s)).

(** [_handle_hotkey]; [current_time] is what [time.time()] reads at the
    press. *)
Definition _handle_hotkey (current_time : float) (action : string)
  : M (HotkeyManager * S) unit :=
  st <- get ;;
  let hk := fst st in
  if match dict_get action (last_press_time hk) with
     | Some last => (current_time - last <? debounce_time hk)%float
     | None => false
     end
  then ret tt
  else
    modify (fun st => (pressed action current_time (fst st), snd st)) ;;
    match dict_get action (callbacks hk) with
    | Some callback => try_except (in_callback callback) (fun _ => ret tt)
    | None => ret tt
    end.

End Manager.

Arguments HotkeyManager S : clear implicits.

End Hotkeys.

(* ===================================================================== *)
(** * main.py: class StealthAIApplication; overlay.py: class OverlayWidget *)
(* ===================================================================== *)

Module App.

(** What the application asks of Qt, of the speech engine, of the Q&A log
    and of the clipboard, in order. *)
Inductive event : Type :=
| UpdateText (text : string)           (* the Qt side of [overlay.update_text] *)
| SetStatus (status color : string)    (* [overlay.set_status] *)
| MessageBox (transcript : string) (confidence : float)
                                       (* the popup of [handle_transcription] *)
| Speak (text : string)                (* [tts_handler.speak] *)
| LogQA (question answer model_used : string) (response_time : float)
| ClipboardCopy (text : string)        (* [pyperclip.copy] *)
| CopyFeedback.                        (* the tick on the copy button *)

(** The fields of the application that the methods below use, with
    [overlay.last_answer] and the flag [CONFIG.ENABLE_TTS]. *)
Record StealthAIApplication : Type := {
  ai_handler : AI.State;
  overlay_last_answer : string;
  last_question : string;
  last_answer : string;
  ENABLE_TTS : bool;
  events : list event
}.

Definition set_ai_handler (a : AI.State) (app : StealthAIApplication) :=
  {| ai_handler := a; overlay_last_answer := overlay_last_answer app;
     last_question := last_question app; last_answer := last_answer app;
     ENABLE_TTS := ENABLE_TTS app; events := events app |}.

Definition set_overlay_last_answer (text : string) (app : StealthAIApplication) :=
  {| ai_handler := ai_handler app; overlay_last_answer := text;
     last_question := last_question app; last_answer := last_answer app;
     ENABLE_TTS := ENABLE_TTS app; events := events app |}.

Definition set_last_question (text : string) (app : StealthAIApplication) :=
  {| ai_handler := ai_handler app; overlay_last_answer := overlay_last_answer app;
     last_question := text; last_answer := last_answer app;
     ENABLE_TTS := ENABLE_TTS app; events := events app |}.

Definition set_last_answer (text : string) (app : StealthAIApplication) :=
  {| ai_handler := ai_handler app; overlay_last_answer := overlay_last_answer app;
     last_question := last_question app; last_answer := text;
     ENABLE_TTS := ENABLE_TTS app; events := events app |}.

Definition logged (new : list event) (app : StealthAIApplication) :=
  {| ai_handler := ai_handler app; overlay_last_answer := overlay_last_answer app;
     last_question := last_question app; last_answer := last_answer app;
     ENABLE_TTS := ENABLE_TTS app; events := (events app ++ new)%list |}.

Local Open Scope eff_scope.

(** A method of [self.ai_handler]. *)
Definition in_ai {A} (c : M AI.State A) : M StealthAIApplication A :=
  fun app => let (r, a) := c (ai_handler app) in (r, set_ai_handler a app).

(** [threading.Thread(target=...).start()]: the target is run to its end
    at once; an exception ends the thread and goes no further. *)
Definition spawn (target : M StealthAIApplication unit) : M StealthAIApplication unit :=
  try_except target (fun _ => ret tt).

Definition sorry_text : string := "AI: Sorry, I couldn't generate a response.".
Definition error_text : string := "AI: Error processing your question.".

(** [f"Q: {question}\n\nAI: {response}"] *)
Definition display_text (question response : string) : string :=
  "Q: " ++ question ++ AI.nl ++ AI.nl ++ "AI: " ++ response.

Section Collaborators.

(** What a call to a collaborator does: it returns, or it raises. *)
Variable outcome : event -> result unit.

Definition do (e : event) : M StealthAIApplication unit :=
  modify (logged [e]) ;;
  lift (outcome e).

(** [overlay.update_text]: the text is kept in [last_answer] first. *)
Definition overlay_update_text (text : string) : M StealthAIApplication unit :=
  modify (set_overlay_last_answer text) ;;
  do (UpdateText text).

(** [overlay.copy_to_clipboard], a method without a parameter, called with
    the arguments [args]. *)
Definition overlay_copy_to_clipboard (args : list string)
  : M StealthAIApplication unit :=
  match args with
  | [] =>
      app <- get ;;
      if negb (is_empty (overlay_last_answer app)) then
        try_except
          (let text_to_copy := overlay_last_answer app in
           let text_to_copy :=
             if prefix "AI: " text_to_copy
             then substring 4 (String.length text_to_copy - 4) text_to_copy
             else text_to_copy in
           do (ClipboardCopy text_to_copy) ;;
           do CopyFeedback)
          (fun _ => ret tt)
      else ret tt
  | _ :: _ => raise TypeError
  end.

(** [get_ai_response] *)
Definition get_ai_response (question : string) : M StealthAIApplication unit :=
  Main.try_finally
    (try_except
       ('(response, model_used, response_time) <-
          in_ai (AI.get_response question "data_science") ;;
        if negb (is_empty response) then
          modify (set_last_answer response) ;;
          overlay_update_text (display_text question response) ;;
          app <- get ;;
          (if ENABLE_TTS app then do (Speak response) else ret tt) ;;
          do (LogQA question response model_used response_time)
        else
          overlay_update_text sorry_text)
       (fun _ => overlay_update_text error_text))
    (do (SetStatus "listening" "#ffff00")).

(** [copy_last_answer] *)
Definition copy_last_answer : M StealthAIApplication unit :=
  app <- get ;;
  if negb (is_empty (last_answer app))
  then overlay_copy_to_clipboard [last_answer app]
  else ret tt.

(** [handle_transcription], the slot of [transcription_ready]: the last
    statement starts [get_ai_response] on the transcript in a thread of
    its own. *)
Definition handle_transcription (transcript : string) (confidence : float)
  : M StealthAIApplication unit :=
  modify (set_last_question transcript) ;;
  overlay_update_text ("Q: " ++ transcript ++ AI.nl ++ AI.nl ++ "AI: Processing...") ;;
  do (SetStatus "processing" "#ff8800") ;;
  do (MessageBox transcript confidence) ;;
  spawn (get_ai_response transcript).

(** [str(e)] for an exception. *)
Variable describe : exn -> string.

(** The string an [error_occurred] signal carries. *)
Definition message_text (msg : Main.message) : string :=
  match msg with
  | Main.TranscriberNotReady => "Transcriber not ready"
  | Main.FailedToStart => "Failed to start audio recording"
  | Main.TranscriptionError e => "Transcription error: " ++ describe e
  end.

(** [handle_error], the slot of [error_occurred] *)
Definition handle_error (msg : Main.message) : M StealthAIApplication unit :=
  do (SetStatus "error" "#ff0000") ;;
  overlay_update_text ("Error: " ++ message_text msg).

Definition status_colors : dict string :=
  [("listening", "#ffff00"); ("processing", "#ff8800");
   ("ready", "#00ff00"); ("error", "#ff0000")].

(** [handle_status_change], the slot of [status_changed] *)
Definition handle_status_change (status : string) : M StealthAIApplication unit :=
  let color := match dict_get status status_colors with
               | Some c => c
               | None => "#ffffff"
               end in
  do (SetStatus status color).

(** The connections [start_listening] makes: the slot a signal of the
    thread runs. *)
Definition on_signal (s : Main.signal) : M StealthAIApplication unit :=
  match s with
  | Main.TranscriptionReady text confidence => handle_transcription text confidence
  | Main.ErrorOccurred msg => handle_error msg
  | Main.StatusChanged status => handle_status_change status
  end.

(** The slots of the signals of a list, in the order of emission; an
    exception that leaves a slot ends the application. *)
Fixpoint on_signals (signals : list Main.signal) : M StealthAIApplication unit :=
  match signals with
  | [] => ret tt
  | s :: rest => on_signal s ;; on_signals rest
  end.

End Collaborators.

(** A statement sequence that, from any state, only adds events, each of
    them satisfying [ok]. *)
Definition adds (ok : event -> Prop) {A} (c : M StealthAIApplication A) : Prop :=
  forall app,
    exists new, events (snd (c app)) = (events app ++ new)%list /\ Forall ok new.

(** A statement sequence that, from any state, leaves the AI handler and
    the last question as they are. *)
Definition asks_nothing {A} (c : M StealthAIApplication A) : Prop :=
  forall app,
    ai_handler (snd (c app)) = ai_handler app
    /\ last_question (snd (c app)) = last_question app.

(** Collaborators that always return. *)
Definition obliging (e : event) : result unit := Ok tt.

(** The application at its start, on a world of the AI handler. *)
Definition started (w : AI.World) : StealthAIApplication :=
  {| ai_handler := AI.fresh w; overlay_last_answer := "";
     last_question := ""; last_answer := ""; ENABLE_TTS := true; events := [] |}.

End App.

(* ===================================================================== *)
(** * Facts and claims *)
(* ===================================================================== *)
Section DictFacts.
Context {V : Type}.
Implicit Types (d : dict V) (k : string) (v : V).

Lemma dict_get_None k d : dict_get k d = None <-> ~ In k (dict_keys d).
Proof.
  induction d as [|[k' v'] d IH]; simpl.
  - tauto.
  - destruct (String.eqb_spec k k') as [->|Hne].
    + split; [discriminate | intros H; exfalso; apply H; now left].
    + rewrite IH. split.
      * intros H [E|E]; [now apply Hne | now apply H].
      * intros H E. apply H. now right.
Qed.

Lemma dict_set_new k v d :
  dict_get k d = None -> dict_set k v d = (d ++ [(k, v)])%list.
Proof.
  induction d as [|[k' v'] d IH]; simpl; intros H.
  - reflexivity.
  - destruct (String.eqb k k'); [discriminate|].
    now rewrite IH.
Qed.

Lemma dict_get_set_same k v d : dict_get k (dict_set k v d) = Some v.
Proof.
  induction d as [|[k' v'] d IH]; simpl.
  - now rewrite String.eqb_refl.
  - destruct (String.eqb k k') eqn:E; simpl; rewrite E; auto.
Qed.

Lemma dict_del_head k v d : dict_del k ((k, v) :: d) = Ok d.
Proof. simpl. now rewrite String.eqb_refl. Qed.

Lemma dict_del_all_firstn n d :
  dict_del_all (firstn n (dict_keys d)) d = Ok (skipn n d).
Proof.
  revert d. induction n as [|n IH]; intros d.
  - reflexivity.
  - destruct d as [|[k v] d]; [reflexivity|].
    cbn [dict_keys map fst firstn dict_del_all skipn].
    rewrite dict_del_head. cbn [rbind]. apply IH.
Qed.

End DictFacts.

Lemma bind_Ok {S A B} (c : M S A) (k : A -> M S B) s a s' :
  c s = (Ok a, s') -> bind c k s = k a s'.
Proof. unfold bind. now intros ->. Qed.

Section AIFacts.
Import AI.

Lemma time_time_run st :
  time_time st = (Ok (now (world st)), set_world tick st).
Proof. reflexivity. Qed.

Lemma try_model_run question model context st :
  let req := build_request question model context in
  _try_model question model context st =
  (Ok (try_result (answer (world st) req), model), set_world (log_request req) st).
Proof.
  cbv zeta. unfold _try_model, try_except, session_post, bind, get, modify, try_result.
  cbn [fst snd].
  destruct (answer (world st) (build_request question model context))
    as [e | code text body]; cbn.
  - now destruct e.
  - destruct (code =? 200); [|reflexivity].
    unfold lift. destruct (read_choices body) as [c|e]; [reflexivity | now destruct e].
Qed.

Lemma cache_insert_run key data cache :
  cache_insert key data cache = Ok (dict_set key data (evicted cache)).
Proof.
  unfold cache_insert, evicted.
  destruct (50 <? List.length cache)%nat; [|reflexivity].
  now rewrite dict_del_all_firstn.
Qed.

Lemma cache_response_run key data st :
  _cache_response key data st =
  (Ok tt, set_self (with_cache (dict_set key data (evicted (response_cache (self st))))) st).
Proof.
  unfold _cache_response, bind, get, lift, modify.
  now rewrite cache_insert_run.
Qed.

Lemma primary_not_fallback : String.eqb Config.PRIMARY_MODEL "fallback" = false.
Proof. reflexivity. Qed.
Lemma secondary_not_fallback : String.eqb Config.FALLBACK_MODEL "fallback" = false.
Proof. reflexivity. Qed.

Lemma get_response_hit question context st cached :
  dict_get (_get_cache_key question context) (response_cache (self st)) = Some cached ->
  get_response question context st =
  (Ok (fst cached, snd cached, elapsed (world st)),
   set_world tick (set_world tick st)).
Proof.
  intros H. unfold get_response.
  rewrite (bind_Ok _ _ _ _ _ (time_time_run st)).
  unfold _get_cached_response at 1. unfold bind at 1. unfold bind at 1.
  cbn [get ret set_world self]. rewrite H.
  rewrite (bind_Ok _ _ _ _ _ (time_time_run _)). reflexivity.
Qed.

Lemma get_response_miss question context st :
  let key := _get_cache_key question context in
  let w := world st in
  let h := self st in
  let req1 := build_request question Config.PRIMARY_MODEL context in
  let req2 := build_request question Config.FALLBACK_MODEL context in
  let r1 := try_result (answer w req1) in
  let r2 := try_result (answer (log_request req1 w) req2) in
  let am := settle r1 r2 in
  let t := elapsed w in
  dict_get key (response_cache h) = None ->
  get_response question context st =
  (Ok (fst am, snd am, t),
   {| self := counted t
                (if String.eqb (snd am) "fallback" then h
                 else with_cache (dict_set key am (evicted (response_cache h))) h);
      world := tick (if truthy r1 then log_request req1 (tick w)
                     else log_request req2 (log_request req1 (tick w))) |}).
Proof.
  cbv zeta. intros H. unfold get_response.
  rewrite (bind_Ok _ _ _ _ _ (time_time_run st)).
  unfold _get_cached_response at 1. unfold bind at 1. unfold bind at 1.
  cbn [get ret set_world self]. rewrite H.
  rewrite (bind_Ok _ _ _ _ _ (try_model_run _ _ _ _)).
  destruct st as [h w]. cbn [self world set_world] in *.
  change (answer (tick w)) with (answer w).
  set (req1 := build_request question Config.PRIMARY_MODEL context).
  set (req2 := build_request question Config.FALLBACK_MODEL context).
  destruct (try_result (answer w req1)) as [a1|] eqn:E1; cbn [truthy negb].
  1: destruct (is_empty a1) eqn:Ea1; cbn [negb].
  2: { unfold settle; rewrite Ea1.
       unfold bind at 1. cbn [ret]. rewrite Ea1.
       rewrite (bind_Ok _ _ _ _ _ (time_time_run _)).
       cbn [set_world self world]. rewrite Ea1, primary_not_fallback. cbn [negb andb].
       unfold bind at 1. rewrite cache_response_run. reflexivity. }
  all: rewrite (bind_Ok _ _ _ _ _ (try_model_run _ _ _ _));
       cbn [set_world self world];
       change (answer (log_request req1 (tick w))) with (answer (log_request req1 w));
       fold req2;
       unfold settle; rewrite ?Ea1;
       destruct (try_result (answer (log_request req1 w) req2)) as [a2|] eqn:E2;
       [destruct (is_empty a2) eqn:Ea2|];
       rewrite (bind_Ok _ _ _ _ _ (time_time_run _));
       cbn [set_world self world fst snd]; rewrite ?Ea2, ?secondary_not_fallback;
       cbn [negb andb]; try reflexivity;
       unfold bind at 1; rewrite cache_response_run; reflexivity.
Qed.

End AIFacts.

Lemma In_skipn {A} (x : A) n l : In x (skipn n l) -> In x l.
Proof.
  revert l. induction n as [|n IH]; intros [|y l]; simpl; auto.
Qed.

Lemma NoDup_app_disjoint {A} (l1 l2 : list A) a :
  NoDup (l1 ++ l2) -> In a l1 -> ~ In a l2.
Proof.
  induction l1 as [|x l1 IH]; cbn [app In]; intros Hnd [].
  - subst x. inversion Hnd as [|? ? Hx _]; subst. intros H2. apply Hx.
    apply in_or_app. now right.
  - inversion Hnd; subst. now apply IH.
Qed.

Lemma NoDup_skipn {A} n (l : list A) : NoDup l -> NoDup (skipn n l).
Proof.
  revert l. induction n as [|n IH]; intros [|y l]; simpl; auto.
  intros H. apply IH. now inversion H.
Qed.

Section CacheFacts.
Import AI.

Lemma get_response_total question context st :
  exists a m t st', get_response question context st = (Ok (a, m, t), st').
Proof.
  destruct (dict_get (_get_cache_key question context) (response_cache (self st)))
    as [cached|] eqn:E.
  - rewrite (get_response_hit _ _ _ _ E). eauto.
  - rewrite (get_response_miss _ _ _ E). eauto.
Qed.

Lemma dict_keys_evicted (cache : dict (string * string)) :
  dict_keys (evicted cache) =
  if (50 <? List.length (dict_keys cache))%nat
  then skipn 10 (dict_keys cache) else dict_keys cache.
Proof.
  unfold evicted, dict_keys. rewrite length_map.
  destruct (50 <? List.length cache)%nat; [|reflexivity].
  symmetry. apply skipn_map.
Qed.

Lemma In_keys_evicted k (cache : dict (string * string)) :
  In k (dict_keys (evicted cache)) -> In k (dict_keys cache).
Proof.
  rewrite dict_keys_evicted.
  destruct (50 <? _)%nat; [apply In_skipn | auto].
Qed.

(** A miss that a model answers appends its key, after the eviction. *)
Lemma get_response_keys question context st r st' :
  ~ In (_get_cache_key question context) (dict_keys (response_cache (self st))) ->
  get_response question context st = (Ok r, st') ->
  from_model r ->
  dict_keys (response_cache (self st')) =
  keys_insert (dict_keys (response_cache (self st))) (_get_cache_key question context).
Proof.
  intros Hnew Hrun Hreal.
  assert (Hmiss : dict_get (_get_cache_key question context)
                    (response_cache (self st)) = None)
    by now apply dict_get_None.
  rewrite (get_response_miss _ _ _ Hmiss) in Hrun.
  set (am := settle _ _) in Hrun.
  injection Hrun as <- <-. unfold from_model in Hreal. cbn [fst snd] in Hreal.
  cbn [self counted response_cache].
  destruct (String.eqb_spec (snd am) "fallback") as [E|_]; [contradiction|].
  cbn [with_cache response_cache].
  rewrite dict_set_new.
  - unfold dict_keys at 1. rewrite map_app. fold (dict_keys (evicted (response_cache (self st)))).
    rewrite dict_keys_evicted. reflexivity.
  - apply dict_get_None. intros H. apply Hnew. now apply In_keys_evicted.
Qed.

Lemma In_keys_insert k keys k' :
  In k (keys_insert keys k') -> In k keys \/ k = k'.
Proof.
  unfold keys_insert. rewrite in_app_iff. cbn [In].
  destruct (50 <? _)%nat; intros [H|[H|[]]]; auto.
  left. eapply In_skipn; eauto.
Qed.

Lemma get_responses_keys calls : forall st rs st',
  NoDup (map key_of calls) ->
  (forall k, In k (map key_of calls) -> ~ In k (dict_keys (response_cache (self st)))) ->
  get_responses calls st = (Ok rs, st') ->
  Forall from_model rs ->
  dict_keys (response_cache (self st')) =
  keys_after (dict_keys (response_cache (self st))) (map key_of calls).
Proof.
  induction calls as [|[question context] rest IH]; intros st rs st' Hnd Hnew Hrun Hreal.
  - injection Hrun as <- <-. reflexivity.
  - cbn [get_responses] in Hrun.
    destruct (get_response_total question context st) as (a & m & t & st1 & E1).
    rewrite (bind_Ok _ _ _ _ _ E1) in Hrun.
    unfold bind in Hrun.
    destruct (get_responses rest st1) as [[rs1|e] st2] eqn:E2; [|discriminate].
    injection Hrun as <- <-.
    inversion Hreal as [|? ? Hr Hrs]; subst.
    inversion Hnd as [|? ? Hk Hnd']; subst.
    assert (Hkeys : dict_keys (response_cache (self st1)) =
                    keys_insert (dict_keys (response_cache (self st)))
                                (key_of (question, context)))
      by exact (get_response_keys _ _ _ _ _ (Hnew _ (or_introl eq_refl)) E1 Hr).
    cbn [map]. unfold keys_after. cbn [fold_left]. rewrite <- Hkeys.
    fold (keys_after (dict_keys (response_cache (self st1))) (map key_of rest)).
    apply (IH st1 rs1 st2 Hnd'); auto.
    intros k Hin Hin'. rewrite Hkeys in Hin'.
    apply In_keys_insert in Hin' as [Hin'|Heq].
    + apply (Hnew k); [now right | exact Hin'].
    + subst k. now apply Hk.
Qed.

Lemma keys_after_small news :
  (List.length news <= 51)%nat -> keys_after [] news = news.
Proof.
  induction news as [|k news IH] using rev_ind; intros Hlen.
  - reflexivity.
  - rewrite length_app in Hlen. cbn in Hlen.
    unfold keys_after in *. rewrite fold_left_app. cbn [fold_left].
    rewrite IH by lia. unfold keys_insert.
    destruct (Nat.ltb_spec 50 (List.length news)); [lia | reflexivity].
Qed.

Lemma keys_after_52 news :
  List.length news = 52%nat -> keys_after [] news = skipn 10 news.
Proof.
  destruct news as [|k news] using rev_ind; intros Hlen; [discriminate|].
  rewrite length_app in Hlen. cbn in Hlen.
  unfold keys_after. rewrite fold_left_app. cbn [fold_left].
  fold (keys_after [] news). rewrite keys_after_small by lia.
  unfold keys_insert.
  destruct (Nat.ltb_spec 50 (List.length news)); [|lia].
  rewrite skipn_app. replace (10 - List.length news)%nat with 0%nat by lia.
  reflexivity.
Qed.

End CacheFacts.

Section ClientFacts.
Import AI.

Lemma distinct_NoDup l : distinct l = true -> NoDup l.
Proof.
  induction l as [|x l IH]; cbn [distinct]; intros H.
  - constructor.
  - apply andb_prop in H as [Hx Hl]. constructor; auto.
    intros Hin. apply negb_true_iff in Hx.
    assert (existsb (String.eqb x) l = true); [|congruence].
    apply existsb_exists. exists x. split; [assumption | apply String.eqb_refl].
Qed.

Lemma from_modelb_Forall rs : forallb from_modelb rs = true -> Forall from_model rs.
Proof.
  rewrite forallb_forall, Forall_forall. intros H r Hin.
  specialize (H r Hin). unfold from_modelb in H. unfold from_model.
  apply negb_true_iff in H. now apply String.eqb_neq.
Qed.

Lemma get_responses_total calls : forall st,
  get_responses calls st = (Ok (responses_of (get_responses calls st)), snd (get_responses calls st)).
Proof.
  induction calls as [|[q c] rest IH]; intros st.
  - reflexivity.
  - cbn [get_responses].
    destruct (get_response_total q c st) as (a & m & t & st1 & E).
    rewrite (bind_Ok _ _ _ _ _ E). unfold bind. rewrite (IH st1). reflexivity.
Qed.

End ClientFacts.

Section CacheClaims.
Import AI.

(** C1, as amended.  From an empty cache, when every call has a cache key
    of its own and is answered by a model: after 51 calls the cache holds
    all 51 keys, in the order of the calls, and nothing was evicted; after
    52 calls it holds 42 keys, the 10 earliest are gone and the others are
    all there. *)
Theorem cache_evicts_at_the_52nd_insertion
    (calls : list (string * string)) (w : World) rs st' :
  NoDup (map key_of calls) ->
  get_responses calls {| self := init; world := w |} = (Ok rs, st') ->
  Forall from_model rs ->
  (List.length calls = 51%nat ->
     dict_keys (response_cache (self st')) = map key_of calls
     /\ List.length (response_cache (self st')) = 51%nat) /\
  (List.length calls = 52%nat ->
     dict_keys (response_cache (self st')) = skipn 10 (map key_of calls)
     /\ List.length (response_cache (self st')) = 42%nat
     /\ (forall k, In k (firstn 10 (map key_of calls)) ->
                   dict_get k (response_cache (self st')) = None)
     /\ (forall k, In k (skipn 10 (map key_of calls)) ->
                   dict_get k (response_cache (self st')) <> None)).
Proof.
  intros Hnd Hrun Hreal.
  assert (Hkeys : dict_keys (response_cache (self st')) = keys_after [] (map key_of calls)).
  { apply (get_responses_keys calls {| self := init; world := w |} rs st' Hnd); auto. }
  assert (Hlen : forall d : dict (string * string),
             List.length d = List.length (dict_keys d))
    by (intros d; unfold dict_keys; now rewrite length_map).
  split; intros Hn.
  - rewrite keys_after_small in Hkeys by (rewrite length_map; lia).
    split; [exact Hkeys|]. rewrite Hlen, Hkeys, length_map. exact Hn.
  - rewrite keys_after_52 in Hkeys by (now rewrite length_map).
    split; [exact Hkeys|]. split; [|split].
    + rewrite Hlen, Hkeys, length_skipn, length_map. lia.
    + intros k Hin. apply dict_get_None. rewrite Hkeys. intros Hin'.
      rewrite <- (firstn_skipn 10 (map key_of calls)) in Hnd.
      exact (NoDup_app_disjoint _ _ k Hnd Hin Hin').
    + intros k Hin Hnone. apply dict_get_None in Hnone. apply Hnone.
      now rewrite Hkeys.
Qed.

End CacheClaims.

Section AIClaims.
Import AI.

Lemma cache_evicts_at_the_52nd_insertion_witness :
  NoDup (map key_of (topics 52))
  /\ Forall from_model (responses_of (get_responses (topics 52) (fresh answering_world)))
  /\ dict_keys (response_cache (self (after_topics 52))) = skipn 10 (map key_of (topics 52))
  /\ List.length (response_cache (self (after_topics 52))) = 42%nat.
Proof.
  assert (Hnd : NoDup (map key_of (topics 52)))
    by (apply distinct_NoDup; vm_compute; reflexivity).
  assert (Hreal : Forall from_model
            (responses_of (get_responses (topics 52) (fresh answering_world))))
    by (apply from_modelb_Forall; vm_compute; reflexivity).
  split; [exact Hnd|]. split; [exact Hreal|].
  destruct (cache_evicts_at_the_52nd_insertion (topics 52) answering_world _ _
              Hnd (get_responses_total _ _) Hreal) as [_ H].
  destruct (H eq_refl) as (Hkeys & Hlen & _).
  split; [exact Hkeys | exact Hlen].
Defined.

(** C1 as stated fails: 51 calls with 51 distinct keys, each answered by the
    primary model, leave 51 entries in the cache, the earliest among them. *)
Lemma cache_holds_51_entries :
  List.length (topics 51) = 51%nat
  /\ NoDup (map key_of (topics 51))
  /\ Forall from_model (responses_of (get_responses (topics 51) (fresh answering_world)))
  /\ ~ (List.length (response_cache (self (after_topics 51))) <= 41)%nat
  /\ dict_get (key_of ("topic0", "general")) (response_cache (self (after_topics 51)))
     = Some ("answer", Config.PRIMARY_MODEL).
Proof.
  split; [reflexivity|].
  split; [apply distinct_NoDup; vm_compute; reflexivity|].
  split; [apply from_modelb_Forall; vm_compute; reflexivity|].
  split.
  - assert (E : List.length (response_cache (self (after_topics 51))) = 51%nat)
      by (vm_compute; reflexivity).
    rewrite E. lia.
  - vm_compute. reflexivity.
Qed.

(** C2, as amended.  A call that misses the cache adds 1 to the request
    counter and its elapsed time to the cumulative time, whether a model or
    the apology answered; a call that hits the cache returns at once and
    leaves both counters as they were. *)
Theorem counters_follow_the_misses question context st :
  exists a m t st',
    get_response question context st = (Ok (a, m, t), st') /\
    match dict_get (_get_cache_key question context) (response_cache (self st)) with
    | None =>
        request_count (self st') = request_count (self st) + 1
        /\ total_response_time (self st') = (total_response_time (self st) + t)%float
    | Some cached =>
        a = fst cached /\ m = snd cached
        /\ request_count (self st') = request_count (self st)
        /\ total_response_time (self st') = total_response_time (self st)
    end.
Proof.
  destruct (dict_get (_get_cache_key question context) (response_cache (self st)))
    as [cached|] eqn:E.
  - rewrite (get_response_hit _ _ _ _ E).
    do 4 eexists. split; [reflexivity|]. cbn. auto.
  - rewrite (get_response_miss _ _ _ E).
    do 4 eexists. split; [reflexivity|].
    cbn [self counted request_count total_response_time].
    destruct (String.eqb _ "fallback"); cbn; auto.
Qed.

(** C2 as stated fails: the second of two equal calls is answered from the
    cache, and the request counter, 1 after the first call, is not 2. *)
Lemma cache_hit_is_not_counted :
  fst (get_response "What is AI?" "general" asked_once)
    = Ok ("answer", Config.PRIMARY_MODEL, 1%float)
  /\ request_count (self asked_once) = 1
  /\ request_count (self (snd (get_response "What is AI?" "general" asked_once)))
     <> request_count (self asked_once) + 1.
Proof.
  split; [vm_compute; reflexivity|].
  split; [vm_compute; reflexivity|].
  vm_compute. discriminate.
Qed.

End AIClaims.

Section DictIn.
Context {V : Type}.

Lemma dict_get_In k (v : V) d : dict_get k d = Some v -> In (k, v) d.
Proof.
  induction d as [|[k' v'] d IH]; cbn [dict_get]; [discriminate|].
  destruct (String.eqb_spec k k') as [->|_].
  - intros [= ->]. now left.
  - intros H. right. auto.
Qed.

Lemma Forall_dict_set (P : string * V -> Prop) k v d :
  P (k, v) -> (forall k' v', P (k', v') -> P (k', v)) ->
  Forall P d -> Forall P (dict_set k v d).
Proof.
  intros Hkv Hv. induction d as [|[k' v'] d IH]; cbn [dict_set]; intros H.
  - now constructor.
  - inversion H as [|? ? H1 H2]; subst.
    destruct (String.eqb k k'); constructor; eauto.
Qed.

End DictIn.

Lemma is_empty_false s : is_empty s = false <-> s <> "".
Proof. destruct s; cbn; split; intros; congruence. Qed.

Section FallbackClaims.
Import AI.

Lemma settle_nonempty r1 r2 : is_empty (fst (settle r1 r2)) = false.
Proof.
  unfold settle.
  destruct r1 as [a1|], r2 as [a2|];
    repeat match goal with
           | |- context [if is_empty ?a then _ else _] => destruct (is_empty a) eqn:?
           end; cbn [fst]; auto.
Qed.

Lemma settle_fail r1 r2 :
  truthy r1 = false -> truthy r2 = false -> settle r1 r2 = (apology, "fallback").
Proof.
  unfold settle, truthy.
  destruct r1 as [a1|], r2 as [a2|]; intros H1 H2;
    repeat match goal with
           | H : negb (is_empty ?a) = false |- _ =>
               apply negb_false_iff in H; rewrite H
           end; reflexivity.
Qed.

Lemma settle_primary a1 r2 :
  is_empty a1 = false -> settle (Some a1) r2 = (a1, Config.PRIMARY_MODEL).
Proof. unfold settle. now intros ->. Qed.

Lemma settle_secondary r1 a2 :
  truthy r1 = false -> is_empty a2 = false ->
  settle r1 (Some a2) = (a2, Config.FALLBACK_MODEL).
Proof.
  unfold settle, truthy. destruct r1 as [a1|]; intros H1 H2; rewrite ?H2; auto.
  apply negb_false_iff in H1. now rewrite H1.
Qed.

Lemma cache_ok_evicted cache : cache_ok cache -> cache_ok (evicted cache).
Proof.
  unfold cache_ok, evicted. intros H.
  destruct (50 <? List.length cache)%nat; [|assumption].
  rewrite Forall_forall in *. intros x Hin. apply H. eapply In_skipn; eauto.
Qed.

(** The invariant of the cache: [get_response] caches non-empty answers
    only, so the invariant holds in every state the handler reaches from
    its initial one. *)
Lemma cache_ok_preserved question context st :
  cache_ok (response_cache (self st)) ->
  cache_ok (response_cache (self (snd (get_response question context st)))).
Proof.
  intros Hok.
  destruct (dict_get (_get_cache_key question context) (response_cache (self st)))
    as [cached|] eqn:E.
  - now rewrite (get_response_hit _ _ _ _ E).
  - rewrite (get_response_miss _ _ _ E). cbn [snd self counted response_cache].
    destruct (String.eqb _ "fallback"); [exact Hok|].
    cbn [with_cache response_cache]. apply Forall_dict_set.
    + cbn [fst snd]. apply settle_nonempty.
    + intros; cbn [fst snd]. apply settle_nonempty.
    + now apply cache_ok_evicted.
Qed.

Lemma cache_ok_reached calls : forall st,
  cache_ok (response_cache (self st)) ->
  cache_ok (response_cache (self (snd (get_responses calls st)))).
Proof.
  induction calls as [|[question context] rest IH]; intros st Hok; [exact Hok|].
  cbn [get_responses].
  pose proof (cache_ok_preserved question context st Hok) as H1.
  destruct (get_response_total question context st) as (a & m & t & st1 & E1).
  rewrite E1 in H1. cbn [snd] in H1.
  rewrite (bind_Ok _ _ _ _ _ E1). unfold bind.
  specialize (IH st1 H1).
  destruct (get_responses rest st1) as [[rs|e] st2]; exact IH.
Qed.

(** A call that misses the cache posts to the primary model first. *)
Lemma miss_posts_to_primary question context st :
  dict_get (_get_cache_key question context) (response_cache (self st)) = None ->
  exists more,
    sent (world (snd (get_response question context st))) =
    (sent (world st) ++ build_request question Config.PRIMARY_MODEL context :: more)%list.
Proof.
  intros E. rewrite (get_response_miss _ _ _ E). cbn [snd world].
  match goal with
  | |- context [if truthy ?r then _ else _] => destruct (truthy r)
  end; cbn [tick log_request sent]; rewrite <- ?app_assoc; eexists; reflexivity.
Qed.

(** C3.  In a state whose cached answers are non-empty (every state the
    handler reaches), [get_response] returns, and its answer is a non-empty
    string, whatever the transport does; the cached answers stay non-empty.
    On a miss where neither model yields usable content the result is the
    apology with the model id "fallback", the cache is left as it was, and
    a later call with the same cache key posts to the primary model again. *)
Theorem apology_is_returned_and_never_cached question context st :
  let key := _get_cache_key question context in
  let req1 := build_request question Config.PRIMARY_MODEL context in
  let req2 := build_request question Config.FALLBACK_MODEL context in
  let r1 := try_result (answer (world st) req1) in
  let r2 := try_result (answer (log_request req1 (world st)) req2) in
  cache_ok (response_cache (self st)) ->
  exists a m t st',
    get_response question context st = (Ok (a, m, t), st')
    /\ a <> ""
    /\ cache_ok (response_cache (self st'))
    /\ (dict_get key (response_cache (self st)) = None ->
        truthy r1 = false -> truthy r2 = false ->
        a = apology /\ m = "fallback"
        /\ response_cache (self st') = response_cache (self st)
        /\ forall question',
             _get_cache_key question' context = key ->
             exists more,
               sent (world (snd (get_response question' context st'))) =
               (sent (world st')
                ++ build_request question' Config.PRIMARY_MODEL context :: more)%list).
Proof.
  cbv zeta. intros Hok.
  destruct (dict_get (_get_cache_key question context) (response_cache (self st)))
    as [cached|] eqn:E.
  - rewrite (get_response_hit _ _ _ _ E).
    do 4 eexists. split; [reflexivity|]. split; [|split; [exact Hok | discriminate]].
    apply dict_get_In in E. unfold cache_ok in Hok. rewrite Forall_forall in Hok.
    apply is_empty_false. exact (Hok _ E).
  - rewrite (get_response_miss _ _ _ E).
    set (r1 := try_result _). set (r2 := try_result _).
    do 4 eexists. split; [reflexivity|]. split; [|split].
    + apply is_empty_false, settle_nonempty.
    + pose proof (cache_ok_preserved question context st Hok) as Hkeep.
      now rewrite (get_response_miss _ _ _ E) in Hkeep.
    + intros _ H1 H2. rewrite (settle_fail _ _ H1 H2). cbn [fst snd String.eqb].
      split; [reflexivity|]. split; [reflexivity|].
      cbn [self counted response_cache]. split; [reflexivity|].
      intros question' Hkey. apply miss_posts_to_primary.
      rewrite Hkey. exact E.
Qed.

End FallbackClaims.

Section OrderClaims.
Import AI.

Lemma apology_is_returned_and_never_cached_witness :
  cache_ok (response_cache (self (fresh offline_world)))
  /\ (exists t, fst (get_response "What is AI?" "general" (fresh offline_world))
                = Ok (apology, "fallback", t))
  /\ response_cache (self (snd (get_response "What is AI?" "general" (fresh offline_world))))
     = [].
Proof.
  split; [constructor|].
  destruct (apology_is_returned_and_never_cached "What is AI?" "general"
              (fresh offline_world) (Forall_nil _))
    as (a & m & t & st' & Hrun & _ & _ & Hfail).
  destruct (Hfail eq_refl eq_refl eq_refl) as (Ha & Hm & Hcache & _).
  rewrite Hrun. cbn [fst snd]. subst a m.
  split; [now exists t | exact Hcache].
Defined.

Lemma read_choices_body content :
  read_choices (Ok (choices_body content)) = Ok (Some (strip content)).
Proof. reflexivity. Qed.

(** C4.  On a cache miss the primary model is asked first.  When it yields
    usable content the answer is that content under the primary model's id
    and nothing else is posted; the secondary model is asked only when the
    primary gave none, and then after it.  The primary gives none when the
    post raises (a timeout or any other exception), when the status is not
    200, when the body cannot be decoded, when reading the choices raises,
    and when there is no choice to read.  In particular, when the
    primary answers HTTP 500 and the secondary HTTP 200 with a content that
    is not blank, the answer is that content, trimmed, under the secondary
    model's id. *)
Theorem secondary_is_asked_after_primary_fails question context st :
  let key := _get_cache_key question context in
  let w := world st in
  let req1 := build_request question Config.PRIMARY_MODEL context in
  let req2 := build_request question Config.FALLBACK_MODEL context in
  let r1 := try_result (answer w req1) in
  dict_get key (response_cache (self st)) = None ->
  exists a m t st',
    get_response question context st = (Ok (a, m, t), st')
    /\ (truthy r1 = true ->
        r1 = Some a /\ m = Config.PRIMARY_MODEL
        /\ sent (world st') = (sent w ++ [req1])%list)
    /\ (truthy r1 = false ->
        sent (world st') = (sent w ++ [req1; req2])%list)
    /\ ((forall e, answer w req1 = PostRaises e -> truthy r1 = false)
        /\ (forall code text body,
              answer w req1 = PostReturns code text body -> code <> 200 ->
              truthy r1 = false)
        /\ (forall text e,
              answer w req1 = PostReturns 200 text (Raise e) -> truthy r1 = false)
        /\ (forall text body e,
              answer w req1 = PostReturns 200 text body ->
              read_choices body = Raise e -> truthy r1 = false)
        /\ (forall text body,
              answer w req1 = PostReturns 200 text body ->
              read_choices body = Ok None -> truthy r1 = false))
    /\ (forall text1 body1 text2 content,
          answer w req1 = PostReturns 500 text1 body1 ->
          answer (log_request req1 w) req2
            = PostReturns 200 text2 (Ok (choices_body content)) ->
          strip content <> "" ->
          a = strip content /\ m = Config.FALLBACK_MODEL).
Proof.
  cbv zeta. intros E. rewrite (get_response_miss _ _ _ E).
  set (req1 := build_request question Config.PRIMARY_MODEL context).
  set (req2 := build_request question Config.FALLBACK_MODEL context).
  set (r1 := try_result (answer (world st) req1)).
  set (r2 := try_result (answer (log_request req1 (world st)) req2)).
  do 4 eexists. split; [reflexivity|]. split; [|split; [|split]].
  - intros H. rewrite H. cbn [world tick log_request sent].
    destruct r1 as [a1|]; [|discriminate]. cbn [truthy] in H.
    apply negb_true_iff in H. rewrite (settle_primary _ _ H). auto.
  - intros H. rewrite H. cbn [world tick log_request sent].
    now rewrite <- app_assoc.
  - split; [|split; [|split; [|split]]].
    + intros e H. subst r1. now rewrite H.
    + intros code text body H Hcode. subst r1. rewrite H. cbn [try_result].
      destruct (Z.eqb_spec code 200); [contradiction | reflexivity].
    + intros text e H. subst r1. now rewrite H.
    + intros text body e H Hbody. subst r1. rewrite H. cbn [try_result Z.eqb Pos.eqb].
      now rewrite Hbody.
    + intros text body H Hbody. subst r1. rewrite H. cbn [try_result Z.eqb Pos.eqb].
      now rewrite Hbody.
  - intros text1 body1 text2 content H1 H2 Hc.
    assert (Hr1 : truthy r1 = false) by (subst r1; now rewrite H1).
    assert (Hr2 : r2 = Some (strip content))
      by (subst r2; rewrite H2; cbn [try_result Z.eqb Pos.eqb];
          now rewrite read_choices_body).
    rewrite Hr2, (settle_secondary _ _ Hr1) by now apply is_empty_false.
    auto.
Qed.

Lemma secondary_is_asked_after_primary_fails_witness :
  dict_get (_get_cache_key "Test question" "general")
    (response_cache (self (fresh primary_down_world))) = None
  /\ (exists t, fst (get_response "Test question" "general" (fresh primary_down_world))
                = Ok ("X", Config.FALLBACK_MODEL, t)).
Proof.
  split; [reflexivity|].
  destruct (secondary_is_asked_after_primary_fails "Test question" "general"
              (fresh primary_down_world) eq_refl)
    as (a & m & t & st' & Hrun & _ & _ & _ & Hx).
  destruct (Hx "Server error" (Raise RequestException) "" "X" eq_refl eq_refl)
    as [Ha Hm]; [discriminate|].
  rewrite Hrun. cbn [fst]. exists t. now rewrite Ha, Hm.
Defined.




End OrderClaims.

(* ===================================================================== *)
(** * The chunk extractor *)
(* ===================================================================== *)

Section RangeFacts.
Import Audio.

Lemma all_from_spec P count : forall z,
  all_from P count z = true ->
  forall x, z <= x < z + Z.of_nat count -> P x = true.
Proof.
  induction count as [|count IH]; intros z H x Hx.
  - cbn in Hx. lia.
  - cbn [all_from] in H. apply andb_prop in H as [Hz Hrest].
    destruct (Z.eq_dec x z) as [->|Hne]; [exact Hz|].
    apply (IH (z + 1) Hrest). lia.
Qed.

Lemma of_Z_succ z : Uint63.of_Z (z + 1) = (Uint63.of_Z z + 1)%uint63.
Proof.
  apply Uint63.to_Z_inj.
  rewrite Uint63.add_spec, !Uint63.of_Z_spec, Uint63.to_Z_1.
  now rewrite Zplus_mod_idemp_l.
Qed.

Lemma all_ints_spec P count : forall z,
  all_ints P count (Uint63.of_Z z) = true ->
  forall x, z <= x < z + Z.of_nat count -> P (Uint63.of_Z x) = true.
Proof.
  induction count as [|count IH]; intros z H x Hx.
  - cbn in Hx. lia.
  - cbn [all_ints] in H. apply andb_prop in H as [Hz Hrest].
    destruct (Z.eq_dec x z) as [->|Hne]; [exact Hz|].
    rewrite <- of_Z_succ in Hrest.
    apply (IH (z + 1) Hrest). lia.
Qed.

Lemma quiet_table_holds : all_from quiet_row 48 0 = true.
Proof. vm_compute. reflexivity. Qed.

(** Below 2^63 the conversion is the machine's. *)
Lemma float_of_Z_small z :
  0 <= z < 9223372036854775808 ->
  float_of_Z z = PrimFloat.of_uint63 (Uint63.of_Z z).
Proof.
  intros H. unfold float_of_Z.
  destruct (Z.leb_spec 0 z); [|lia].
  destruct (Z.ltb_spec z 9223372036854775808); [reflexivity | lia].
Qed.

(** A mean square below 0.0001 is below the gate, in binary64 too. *)
Lemma quiet_mean s n :
  0 <= s -> 10000 * s < n <= BUFFER_MAXLEN ->
  (PrimFloat.sqrt (float_of_Z s / float_of_Z n) <? Config.SILENCE_THRESHOLD)%float = true.
Proof.
  intros Hs Hn.
  assert (Hmax : BUFFER_MAXLEN = 480000) by reflexivity.
  rewrite !float_of_Z_small by lia.
  assert (Hrow : quiet_row s = true).
  { apply (all_from_spec quiet_row 48 0 quiet_table_holds). lia. }
  apply (all_ints_spec (quiet (Uint63.of_Z s)) _ (10000 * s + 1) Hrow).
  rewrite Z2Nat.id by lia. lia.
Qed.

Lemma normalized_in_range_int16 :
  all_from normalized_in_range (Z.to_nat 65536) (-32768) = true.
Proof. vm_compute. reflexivity. Qed.

End RangeFacts.

Section ChunkFacts.
Import Audio.

Lemma slice_from_recent {A} (l : list A) n :
  1 <= n <= Z.of_nat (List.length l) ->
  slice_from l (- n) = skipn (List.length l - Z.to_nat n) l.
Proof.
  intros Hn. unfold slice_from.
  destruct (Z.ltb_spec (- n) 0); [|lia].
  f_equal. lia.
Qed.

Lemma slice_from_zero {A} (l : list A) : slice_from l (- 0) = l.
Proof.
  unfold slice_from. cbn [Z.opp Z.ltb Z.compare].
  rewrite Z.min_l by lia. reflexivity.
Qed.

(** What [get_audio_chunk] computes, once the sample count is known; the
    manager is left as it was. *)
Lemma get_audio_chunk_run duration st n :
  samples_needed duration = Ok n ->
  get_audio_chunk duration st =
  (Ok (if Z.of_nat (List.length (audio_buffer (self st))) <? n then None
       else let chunk := slice_from (audio_buffer (self st)) (- n) in
            if (rms chunk <? Config.SILENCE_THRESHOLD)%float then None
            else Some (normalize chunk)),
   st).
Proof.
  intros Hn. unfold get_audio_chunk, bind, lift, get. rewrite Hn. cbv zeta.
  destruct (_ <? n); [reflexivity|].
  destruct (_ <? _)%float; reflexivity.
Qed.

Lemma sum_squares_nonneg chunk : 0 <= sum_squares chunk.
Proof.
  unfold sum_squares. induction chunk as [|x chunk IH]; [cbn; lia|].
  change (sum (map (fun x => x * x) (x :: chunk)))
    with (x * x + sum (map (fun x => x * x) chunk)).
  nia.
Qed.

(** Squares that sum to less than 2^15 do not wrap. *)
Lemma square_exact chunk :
  sum_squares chunk <= 32767 -> sum (square chunk) = sum_squares chunk.
Proof.
  unfold sum_squares, square. induction chunk as [|x chunk IH]; [reflexivity|].
  change (sum (map (fun x => x * x) (x :: chunk)))
    with (x * x + sum (map (fun x => x * x) chunk)).
  change (sum (map (fun x => wrap16 (x * x)) (x :: chunk)))
    with (wrap16 (x * x) + sum (map (fun x => wrap16 (x * x)) chunk)).
  intros H. pose proof (sum_squares_nonneg chunk) as Hc. unfold sum_squares in Hc.
  rewrite IH by nia. f_equal.
  unfold wrap16. rewrite Z.mod_small by nia. lia.
Qed.

Lemma sum_squares_zeros chunk :
  Forall (fun x => x = 0) chunk -> sum_squares chunk = 0.
Proof.
  unfold sum_squares. induction 1 as [|x chunk Hx _ IH]; [reflexivity|].
  subst x.
  change (sum (map (fun x => x * x) (0 :: chunk)))
    with (0 * 0 + sum (map (fun x => x * x) chunk)).
  rewrite IH. reflexivity.
Qed.

(** A chunk the deque can hold whose root mean square is below 0.01 does
    not pass the gate: the squares do not wrap, and the binary64 mean and
    square root stay below the threshold. *)
Lemma rms_quiet chunk :
  Z.of_nat (List.length chunk) <= BUFFER_MAXLEN ->
  10000 * sum_squares chunk < Z.of_nat (List.length chunk) ->
  (rms chunk <? Config.SILENCE_THRESHOLD)%float = true.
Proof.
  intros Hlen Hq. pose proof (sum_squares_nonneg chunk) as Hs.
  assert (Hmax : BUFFER_MAXLEN = 480000) by reflexivity.
  unfold rms, mean. rewrite square_exact by lia.
  unfold square. rewrite length_map.
  apply quiet_mean; lia.
Qed.

(** C5, as amended.  For every duration.  When [SAMPLE_RATE * duration] is
    [nan] or infinite, [int()] raises and so does [get_audio_chunk].
    Otherwise let [n] be that product truncated toward zero: with fewer
    than [n] samples in the buffer [get_audio_chunk] returns [None]; with
    at least [n] it still returns [None] whenever the root mean square the
    code computes over the selected samples is below the silence
    threshold; it does so whenever the root mean square of the [n >= 1]
    most recent samples is below 0.01, that is when 10000 times the sum of
    their squares is less than [n], and so in particular when they are all
    0.  The manager is left unchanged in each case. *)
Theorem shortage_and_silence_return_nothing duration st :
  let buffer := audio_buffer (self st) in
  match int_of_float (float_of_Z Config.SAMPLE_RATE * duration)%float with
  | Raise e => get_audio_chunk duration st = (Raise e, st)
  | Ok n =>
      let recent := skipn (List.length buffer - Z.to_nat n) buffer in
      (Z.of_nat (List.length buffer) < n ->
       get_audio_chunk duration st = (Ok None, st))
      /\ (n <= Z.of_nat (List.length buffer) ->
          (rms (slice_from buffer (- n)) <? Config.SILENCE_THRESHOLD)%float = true ->
          get_audio_chunk duration st = (Ok None, st))
      /\ (1 <= n <= Z.of_nat (List.length buffer) ->
          Z.of_nat (List.length buffer) <= BUFFER_MAXLEN ->
          10000 * sum_squares recent < n ->
          get_audio_chunk duration st = (Ok None, st))
      /\ (1 <= n <= Z.of_nat (List.length buffer) ->
          Z.of_nat (List.length buffer) <= BUFFER_MAXLEN ->
          Forall (fun x => x = 0) recent ->
          get_audio_chunk duration st = (Ok None, st))
  end.
Proof.
  cbv zeta. fold (samples_needed duration).
  destruct (samples_needed duration) as [n|e] eqn:Hn.
  2: { unfold get_audio_chunk, bind, lift. now rewrite Hn. }
  rewrite (get_audio_chunk_run _ _ _ Hn). cbv zeta.
  assert (Hquiet :
    1 <= n <= Z.of_nat (List.length (audio_buffer (self st))) ->
    Z.of_nat (List.length (audio_buffer (self st))) <= BUFFER_MAXLEN ->
    10000 * sum_squares (skipn (List.length (audio_buffer (self st)) - Z.to_nat n)
                               (audio_buffer (self st))) < n ->
    (Ok (if Z.of_nat (List.length (audio_buffer (self st))) <? n then None
         else if (rms (slice_from (audio_buffer (self st)) (- n))
                  <? Config.SILENCE_THRESHOLD)%float
              then None
              else Some (normalize (slice_from (audio_buffer (self st)) (- n)))), st)
    = (Ok None, st)).
  { intros Hlen Hmax Hq.
    destruct (Z.ltb_spec (Z.of_nat (List.length (audio_buffer (self st)))) n); [lia|].
    rewrite slice_from_recent by lia.
    rewrite rms_quiet; [reflexivity | |]; rewrite length_skipn; lia. }
  split; [|split; [|split]].
  - intros H. destruct (Z.ltb_spec (Z.of_nat (List.length (audio_buffer (self st)))) n);
      [reflexivity | lia].
  - intros _ H. rewrite H. now destruct (_ <? n).
  - exact Hquiet.
  - intros Hlen Hmax Hz. apply Hquiet; auto.
    rewrite (sum_squares_zeros _ Hz). lia.
Qed.

End ChunkFacts.

Section ChunkClaims.
Import Audio.

Lemma shortage_and_silence_return_nothing_witness :
  samples_needed 0.001 = Ok 16
  /\ get_audio_chunk 0.001 (with_buffer (repeat 0 32))
     = (Ok None, with_buffer (repeat 0 32))
  /\ get_audio_chunk 0.001 (with_buffer (repeat 1000 15))
     = (Ok None, with_buffer (repeat 1000 15))
  /\ get_audio_chunk PrimFloat.nan (with_buffer (repeat 1000 15))
     = (Raise ValueError, with_buffer (repeat 1000 15)).
Proof.
  assert (Hn : int_of_float (float_of_Z Config.SAMPLE_RATE * 0.001)%float = Ok 16)
    by (vm_compute; reflexivity).
  split; [exact Hn|].
  pose proof (shortage_and_silence_return_nothing 0.001 (with_buffer (repeat 0 32)))
    as Hquiet.
  pose proof (shortage_and_silence_return_nothing 0.001 (with_buffer (repeat 1000 15)))
    as Hshort.
  pose proof (shortage_and_silence_return_nothing PrimFloat.nan
                (with_buffer (repeat 1000 15))) as Hnan.
  cbv zeta in Hquiet, Hshort, Hnan. rewrite Hn in Hquiet, Hshort.
  destruct Hquiet as (_ & _ & _ & Hzeros). destruct Hshort as (Hfew & _).
  split; [|split].
  - apply Hzeros.
    + cbn. lia.
    + cbn. unfold BUFFER_MAXLEN, Config.SAMPLE_RATE. lia.
    + cbn. repeat constructor.
  - apply Hfew. cbn. lia.
  - exact Hnan.
Defined.

(** C5 as stated fails.  A duration of 0.0001 s asks for 1.6 samples, which
    [int()] truncates to 1: a buffer with one loud sample holds fewer than
    [duration * SAMPLE_RATE] samples, and yet a chunk is returned.  And for
    an infinite duration the call raises instead of returning [None]. *)
Lemma truncated_count_serves_a_short_buffer :
  (float_of_Z (Z.of_nat (List.length [100]))
   <? 0.0001 * float_of_Z Config.SAMPLE_RATE)%float = true
  /\ samples_needed 0.0001 = Ok 1
  /\ get_audio_chunk 0.0001 (with_buffer [100])
     = (Ok (Some [0.0030517578125%float]), with_buffer [100])
  /\ get_audio_chunk PrimFloat.infinity (with_buffer [100])
     = (Raise OverflowError, with_buffer [100]).
Proof. repeat split; vm_compute; reflexivity. Qed.

(** With a sample count of 0 the slice [list(buffer)[-0:]] is the whole
    buffer, not its last 0 samples. *)
Lemma get_audio_chunk_of_no_sample duration st :
  samples_needed duration = Ok 0 ->
  get_audio_chunk duration st =
  (Ok (if (rms (audio_buffer (self st)) <? Config.SILENCE_THRESHOLD)%float
       then None else Some (normalize (audio_buffer (self st)))),
   st).
Proof.
  intros Hn. rewrite (get_audio_chunk_run _ _ _ Hn). cbv zeta.
  destruct (Z.ltb_spec (Z.of_nat (List.length (audio_buffer (self st)))) 0); [lia|].
  now rewrite slice_from_zero.
Qed.

(** C6 at the failing input: for a duration of 0 seconds the sample count
    is 0, the buffer holds at least 0 samples and the gate passes, yet the
    chunk returned is the whole buffer, 3 samples long. *)
Lemma zero_duration_returns_the_whole_buffer :
  samples_needed 0 = Ok 0
  /\ get_audio_chunk 0 (with_buffer [1000; -2000; 3000])
     = (Ok (Some [0.030517578125; -0.06103515625; 0.091552734375]%float),
        with_buffer [1000; -2000; 3000]).
Proof. split; vm_compute; reflexivity. Qed.

Lemma normalize_in_range chunk :
  Forall int16 chunk ->
  Forall (fun y => (-1 <=? y)%float = true /\ (y <=? 1)%float = true) (normalize chunk).
Proof.
  unfold normalize. intros H. rewrite Forall_map.
  rewrite Forall_forall in *. intros x Hin. specialize (H x Hin).
  apply andb_prop.
  apply (all_from_spec normalized_in_range _ _ normalized_in_range_int16).
  unfold int16 in H. lia.
Qed.

Lemma Forall_skipn {A} (P : A -> Prop) n l : Forall P l -> Forall P (skipn n l).
Proof.
  rewrite !Forall_forall. intros H x Hin. apply H. eapply In_skipn; eauto.
Qed.

(** X1.  For a sample count [n >= 1]: when the buffer holds at least [n] samples
    and the gate passes, the chunk is the [n] most recent samples, each
    divided by 32768; it has [n] elements, all in [-1, 1]; the manager is
    left as it was. *)
Theorem recent_samples_are_returned duration st n :
  samples_needed duration = Ok n ->
  1 <= n <= Z.of_nat (List.length (audio_buffer (self st))) ->
  Forall int16 (audio_buffer (self st)) ->
  let recent := skipn (List.length (audio_buffer (self st)) - Z.to_nat n)
                      (audio_buffer (self st)) in
  (rms recent <? Config.SILENCE_THRESHOLD)%float = false ->
  get_audio_chunk duration st = (Ok (Some (normalize recent)), st)
  /\ Z.of_nat (List.length (normalize recent)) = n
  /\ Forall (fun y => (-1 <=? y)%float = true /\ (y <=? 1)%float = true)
            (normalize recent).
Proof.
  cbv zeta. intros Hn Hlen Hint Hgate.
  rewrite (get_audio_chunk_run _ _ _ Hn). cbv zeta.
  destruct (Z.ltb_spec (Z.of_nat (List.length (audio_buffer (self st)))) n); [lia|].
  rewrite slice_from_recent by lia. rewrite Hgate.
  split; [reflexivity|]. split.
  - unfold normalize. rewrite length_map, length_skipn. lia.
  - apply normalize_in_range. now apply Forall_skipn.
Qed.

(** C9.  While the manager is recording, [start_recording] returns [False]
    and nothing else happens: PyAudio is not called, and the stream, the
    device index, the recording flag, the callbacks and the buffer are the
    ones of before. *)
Theorem start_recording_twice_changes_nothing
    (upper : string -> string) (pa : PyAudio) (callback : nat) (st : State) :
  is_recording (self st) = true ->
  start_recording upper pa callback st = (Ok false, st).
Proof.
  intros H. unfold start_recording, bind, get. now rewrite H.
Qed.

Lemma start_recording_twice_changes_nothing_witness :
  is_recording (self recording) = true
  /\ start_recording ascii_upper one_device 1%nat recording = (Ok false, recording).
Proof.
  split; [reflexivity|].
  apply (start_recording_twice_changes_nothing ascii_upper one_device 1%nat recording).
  reflexivity.
Defined.

(** A first call on a fresh manager does start: the frame of C9 is not the
    whole of [start_recording]. *)
Lemma start_recording_starts :
  fst (start_recording ascii_upper one_device 1%nat (with_buffer [])) = Ok true
  /\ calls (snd (start_recording ascii_upper one_device 1%nat (with_buffer [])))
     = [GetDeviceCount; GetDeviceInfoByIndex 0; Open 0; StartStream 1%nat].
Proof. split; vm_compute; reflexivity. Qed.

End ChunkClaims.

(* ===================================================================== *)
(** * The transcriber *)
(* ===================================================================== *)

Lemma try_except_ret {S A} (body : M S A) (a : A) s :
  exists a' s', try_except body (fun _ => ret a) s = (Ok a', s').
Proof.
  unfold try_except, ret. destruct (body s) as [[a'|e] s']; eauto.
Qed.

Lemma try_except_raise {S A} (body : M S A) (handler : exn -> M S A) s e s' :
  body s = (Raise e, s') -> try_except body handler s = handler e s'.
Proof. unfold try_except. now intros ->. Qed.

Section TranscriberClaims.
Import Transcriber.

Variable clock : nat -> float.
Variable model_transcribe : list float -> result pyval.
Variable write_wav : string -> list float -> result unit.
Variable subprocess_run : list string -> result completed.
Variable os_remove : string -> result unit.

Let transcribe := transcribe_audio clock model_transcribe write_wav subprocess_run os_remove.
Let python_body := whisper_python_body clock model_transcribe.
Let cpp_body := whisper_cpp_body clock write_wav subprocess_run os_remove.

Lemma transcribe_primary audio st :
  primary_ready (self st) = true ->
  transcribe audio st =
  try_except (python_body audio (clock (ticks st))) (fun _ => ret ("", 0%float)) (tick st).
Proof.
  intros H. unfold transcribe, transcribe_audio, bind, time_time, get, modify. cbn.
  cbn [tick self]. rewrite H. reflexivity.
Qed.

Lemma transcribe_cpp audio st :
  primary_ready (self st) = false ->
  truthy (whisper_cpp_path (self st)) = true ->
  transcribe audio st =
  try_except (cpp_body audio (clock (ticks st))) (fun _ => ret ("", 0%float)) (tick st).
Proof.
  intros H1 H2. unfold transcribe, transcribe_audio, bind, time_time, get, modify. cbn.
  cbn [tick self]. rewrite H1, H2.
  unfold cpp_body, _transcribe_with_whisper_cpp, try_except.
  destruct (whisper_cpp_body _ _ _ _ _ _ _) as [[a|e] s']; [reflexivity | now destruct e].
Qed.

Lemma transcribe_unavailable audio st :
  primary_ready (self st) = false ->
  truthy (whisper_cpp_path (self st)) = false ->
  transcribe audio st = (Ok ("", 0%float), tick st).
Proof.
  intros H1 H2. unfold transcribe, transcribe_audio, bind, time_time, get, modify. cbn.
  cbn [tick self]. now rewrite H1, H2.
Qed.

(** The subprocess fails: the block raises what [subprocess.run] raised. *)
Lemma cpp_body_run_raises audio t0 st stamp e :
  int_of_float (clock (ticks st)) = Ok stamp ->
  write_wav (temp_file_name stamp) audio = Ok tt ->
  subprocess_run (whisper_cpp_command (whisper_cpp_path (self st)) (temp_file_name stamp))
    = Raise e ->
  exists st', cpp_body audio t0 st = (Raise e, st').
Proof.
  intros Hstamp Hwav Hrun.
  unfold cpp_body, whisper_cpp_body, bind, get, time_time, modify, lift, act. cbn -[temp_file_name whisper_cpp_command].
  rewrite Hstamp. cbn -[temp_file_name whisper_cpp_command]. rewrite Hwav. cbn -[temp_file_name whisper_cpp_command]. rewrite Hrun. eauto.
Qed.

(** The subprocess ends with a non-zero exit code: the block returns the
    sentinel. *)
Lemma cpp_body_run_exits audio t0 st stamp r :
  int_of_float (clock (ticks st)) = Ok stamp ->
  write_wav (temp_file_name stamp) audio = Ok tt ->
  subprocess_run (whisper_cpp_command (whisper_cpp_path (self st)) (temp_file_name stamp))
    = Ok r ->
  returncode r <> 0 ->
  exists st', cpp_body audio t0 st = (Ok ("", 0%float), st').
Proof.
  intros Hstamp Hwav Hrun Hcode.
  unfold cpp_body, whisper_cpp_body, bind, get, time_time, modify, lift, act, try_except.
  cbn -[temp_file_name whisper_cpp_command]. rewrite Hstamp. cbn -[temp_file_name whisper_cpp_command]. rewrite Hwav. cbn -[temp_file_name whisper_cpp_command]. rewrite Hrun. cbn -[temp_file_name whisper_cpp_command].
  destruct (Z.eqb_spec (returncode r) 0) as [E|_]; [contradiction|].
  destruct (os_remove (temp_file_name stamp)); cbn -[temp_file_name whisper_cpp_command];
    unfold ret; eauto.
Qed.

Lemma python_body_model_raises audio t0 st e :
  model_transcribe audio = Raise e ->
  exists st', python_body audio t0 st = (Raise e, st').
Proof.
  intros H. unfold python_body, whisper_python_body, bind, act, modify, lift. cbn.
  rewrite H. eauto.
Qed.

Lemma transcribe_audio_total audio st :
  exists text confidence st',
    transcribe audio st = (Ok (text, confidence), st').
Proof.
  destruct (primary_ready (self st)) eqn:Hp.
  - rewrite (transcribe_primary _ _ Hp).
    destruct (try_except_ret (python_body audio (clock (ticks st))) ("", 0%float) (tick st))
      as ([text confidence] & st' & E). eauto.
  - destruct (truthy (whisper_cpp_path (self st))) eqn:Hc.
    + rewrite (transcribe_cpp _ _ Hp Hc).
      destruct (try_except_ret (cpp_body audio (clock (ticks st))) ("", 0%float) (tick st))
        as ([text confidence] & st' & E). eauto.
    + rewrite (transcribe_unavailable _ _ Hp Hc). eauto.
Qed.

(** C8.  [transcribe_audio] returns for every chunk, in every state of the
    transcriber and whatever the speech model, the file system and the
    subprocess do: it never raises.  With the primary engine, an exception
    anywhere in the block (the model's among them) gives ("", 0.0).  With
    the fallback engine, an exception anywhere in the block gives
    ("", 0.0), and once the wav file is written so does a subprocess that
    raises (its timeout among the cases) or ends with a non-zero exit code.
    With no engine the result is ("", 0.0) as well. *)
Theorem transcribe_audio_never_raises audio st :
  (exists text confidence st',
     transcribe audio st = (Ok (text, confidence), st'))
  /\ (primary_ready (self st) = true ->
      (forall e st1,
         python_body audio (clock (ticks st)) (tick st) = (Raise e, st1) ->
         transcribe audio st = (Ok ("", 0%float), st1))
      /\ (forall e, model_transcribe audio = Raise e ->
                    fst (transcribe audio st) = Ok ("", 0%float)))
  /\ (primary_ready (self st) = false ->
      truthy (whisper_cpp_path (self st)) = true ->
      (forall e st1,
         cpp_body audio (clock (ticks st)) (tick st) = (Raise e, st1) ->
         transcribe audio st = (Ok ("", 0%float), st1))
      /\ (forall stamp,
            int_of_float (clock (S (ticks st))) = Ok stamp ->
            write_wav (temp_file_name stamp) audio = Ok tt ->
            let cmd := whisper_cpp_command (whisper_cpp_path (self st))
                                           (temp_file_name stamp) in
            (subprocess_run cmd = Raise TimeoutExpired ->
             fst (transcribe audio st) = Ok ("", 0%float))
            /\ (forall e, subprocess_run cmd = Raise e ->
                          fst (transcribe audio st) = Ok ("", 0%float))
            /\ (forall r, subprocess_run cmd = Ok r -> returncode r <> 0 ->
                          fst (transcribe audio st) = Ok ("", 0%float))))
  /\ (primary_ready (self st) = false ->
      truthy (whisper_cpp_path (self st)) = false ->
      transcribe audio st = (Ok ("", 0%float), tick st)).
Proof.
  split; [|split; [|split]].
  - apply transcribe_audio_total.
  - intros Hp. rewrite (transcribe_primary _ _ Hp). split.
    + intros e st1 H. now rewrite (try_except_raise _ _ _ _ _ H).
    + intros e H.
      destruct (python_body_model_raises audio (clock (ticks st)) (tick st) e H) as [st1 H1].
      now rewrite (try_except_raise _ _ _ _ _ H1).
  - intros Hp Hc. rewrite (transcribe_cpp _ _ Hp Hc). split.
    + intros e st1 H. now rewrite (try_except_raise _ _ _ _ _ H).
    + intros stamp Hstamp Hwav. cbv zeta.
      assert (Hraise : forall e,
        subprocess_run (whisper_cpp_command (whisper_cpp_path (self st))
                                            (temp_file_name stamp)) = Raise e ->
        fst (try_except (cpp_body audio (clock (ticks st)))
                        (fun _ => ret ("", 0%float)) (tick st)) = Ok ("", 0%float)).
      { intros e H.
        destruct (cpp_body_run_raises audio (clock (ticks st)) (tick st) stamp e
                    Hstamp Hwav H) as [st1 H1].
        now rewrite (try_except_raise _ _ _ _ _ H1). }
      split; [apply Hraise | split; [exact Hraise|]].
      intros r H Hcode.
      destruct (cpp_body_run_exits audio (clock (ticks st)) (tick st) stamp r
                  Hstamp Hwav H Hcode) as [st1 H1].
      unfold try_except. now rewrite H1.
  - intros Hp Hc. exact (transcribe_unavailable _ _ Hp Hc).
Qed.

End TranscriberClaims.

Section TranscriberExamples.
Import Transcriber.

(** C8 at three transcribers: a primary engine whose model raises, a
    fallback engine whose subprocess times out, and no engine at all. *)
Lemma transcribe_audio_never_raises_witness :
  fst (transcribe_audio seconds model_fails wav_written run_times_out removed
         [0.5%float] (with_engine (Some 1%nat) None true)) = Ok ("", 0%float)
  /\ fst (transcribe_audio seconds model_fails wav_written run_times_out removed
            [0.5%float] (with_engine None (Some "whisper-cpp") false)) = Ok ("", 0%float)
  /\ fst (transcribe_audio seconds model_fails wav_written run_exits_1 removed
            [0.5%float] (with_engine None (Some "whisper-cpp") false)) = Ok ("", 0%float)
  /\ fst (transcribe_audio seconds model_fails wav_written run_times_out removed
            [0.5%float] (with_engine None None false)) = Ok ("", 0%float).
Proof.
  split; [|split; [|split]].
  - destruct (transcribe_audio_never_raises seconds model_fails wav_written
                run_times_out removed [0.5%float] (with_engine (Some 1%nat) None true))
      as (_ & H & _).
    destruct (H eq_refl) as [_ Hm]. exact (Hm OtherException eq_refl).
  - destruct (transcribe_audio_never_raises seconds model_fails wav_written
                run_times_out removed [0.5%float]
                (with_engine None (Some "whisper-cpp") false))
      as (_ & _ & H & _).
    destruct (H eq_refl eq_refl) as [_ Hs].
    destruct (Hs 1 eq_refl eq_refl) as (Ht & _). exact (Ht eq_refl).
  - destruct (transcribe_audio_never_raises seconds model_fails wav_written
                run_exits_1 removed [0.5%float]
                (with_engine None (Some "whisper-cpp") false))
      as (_ & _ & H & _).
    destruct (H eq_refl eq_refl) as [_ Hs].
    destruct (Hs 1 eq_refl eq_refl) as (_ & _ & Hx).
    apply (Hx _ eq_refl). discriminate.
  - destruct (transcribe_audio_never_raises seconds model_fails wav_written
                run_times_out removed [0.5%float] (with_engine None None false))
      as (_ & _ & _ & H).
    now rewrite (H eq_refl eq_refl).
Defined.

(** The engines also succeed: the primary engine returns the trimmed text
    with the clamped confidence, the fallback engine the trimmed output
    with 0.8. *)
Lemma transcribe_audio_succeeds :
  fst (transcribe_audio seconds (model_hears " What is overfitting? ") wav_written
         run_times_out removed [0.5%float] (with_engine (Some 1%nat) None true))
  = Ok ("What is overfitting?", 0.5%float).
Proof. vm_compute. reflexivity. Qed.

End TranscriberExamples.

(* ===================================================================== *)
(** * The polling loop *)
(* ===================================================================== *)

Lemma strip_empty s : is_empty s = true -> strip s = "".
Proof. destruct s; [reflexivity | discriminate]. Qed.

Lemma meaningful_test text :
  negb (is_empty text) && (3 <? String.length (strip text))%nat
  = (3 <? String.length (strip text))%nat.
Proof.
  destruct (is_empty text) eqn:E; [|reflexivity].
  now rewrite (strip_empty _ E).
Qed.

Section LoopClaims.
Import Main.

Variable upper : string -> string.
Variable pa : Audio.PyAudio.
Variable clock : nat -> float.
Variable model_transcribe : list float -> result pyval.
Variable write_wav : string -> list float -> result unit.
Variable subprocess_run : list string -> result Transcriber.completed.
Variable os_remove : string -> result unit.

Let transcribe :=
  Transcriber.transcribe_audio clock model_transcribe write_wav subprocess_run os_remove.
Let process := process_chunk clock model_transcribe write_wav subprocess_run os_remove.
Let poll_once := poll clock model_transcribe write_wav subprocess_run os_remove.

(** A chunk whose transcription returns [(text, confidence)]. *)
Lemma process_chunk_run chunk t text confidence w :
  transcribe chunk (transcriber t) = (Ok (text, confidence), w) ->
  process chunk t =
  (Ok tt,
   {| audio_manager := audio_manager t; transcriber := w; running := running t;
      processing := false;
      emitted := (emitted t ++ signals_of text confidence)%list |}).
Proof.
  intros H. unfold transcribe in H.
  unfold process, process_chunk, try_finally, try_except, bind, emit, modify,
    in_transcriber, transcribe_audio.
  cbn [set_processing audio_manager transcriber running processing emitted].
  rewrite H. cbn [set_transcriber audio_manager transcriber running
    processing emitted].
  rewrite meaningful_test. unfold signals_of.
  destruct (3 <? String.length (strip text))%nat;
    cbn; rewrite <- app_assoc; reflexivity.
Qed.


(** ** Nothing but meaningful transcripts is ever signalled *)

Lemma extends_refl t : extends t t.
Proof. exists []. split; [now rewrite app_nil_r | constructor]. Qed.

Lemma extends_trans t1 t2 t3 : extends t1 t2 -> extends t2 t3 -> extends t1 t3.
Proof.
  intros (n1 & E1 & F1) (n2 & E2 & F2). exists (n1 ++ n2)%list. split.
  - now rewrite E2, E1, app_assoc.
  - apply Forall_app. now split.
Qed.

Lemma extends_same t t' : emitted t' = emitted t -> extends t t'.
Proof. intros E. exists []. split; [now rewrite app_nil_r | constructor]. Qed.

Lemma safe_ret {A} (a : A) : safe (ret a).
Proof. intros t. apply extends_refl. Qed.

Lemma safe_bind {A B} (c : M AudioProcessingThread A) (k : A -> M AudioProcessingThread B) :
  safe c -> (forall a, safe (k a)) -> safe (bind c k).
Proof.
  intros Hc Hk t. unfold bind. specialize (Hc t).
  destruct (c t) as [[a|e] t1]; cbn [snd] in *; [|exact Hc].
  exact (extends_trans _ _ _ Hc (Hk a t1)).
Qed.

Lemma safe_try_except {A} (body : M AudioProcessingThread A) handler :
  safe body -> (forall e, safe (handler e)) -> safe (try_except body handler).
Proof.
  intros Hb Hh t. unfold try_except. specialize (Hb t).
  destruct (body t) as [[a|e] t1]; cbn [snd] in *; [exact Hb|].
  exact (extends_trans _ _ _ Hb (Hh e t1)).
Qed.

Lemma safe_try_finally {A} (body : M AudioProcessingThread A) cleanup :
  safe body -> safe cleanup -> safe (try_finally body cleanup).
Proof.
  intros Hb Hc t. unfold try_finally. specialize (Hb t).
  destruct (body t) as [r t1]. specialize (Hc t1).
  destruct (cleanup t1) as [[u|e] t2]; cbn [snd] in *;
    exact (extends_trans _ _ _ Hb Hc).
Qed.

Lemma safe_get : safe get.
Proof. intros t. apply extends_refl. Qed.

Lemma safe_modify f : (forall t, emitted (f t) = emitted t) -> safe (modify f).
Proof. intros H t. apply extends_same, H. Qed.

Lemma safe_emit s : meaningful s -> safe (emit s).
Proof.
  intros H t. exists [s]. split; [reflexivity | now constructor].
Qed.

Lemma safe_in_audio {A} (c : M Audio.State A) : safe (in_audio c).
Proof.
  intros t. unfold in_audio. destruct (c (audio_manager t)). now apply extends_same.
Qed.

Lemma safe_in_transcriber {A} (c : M Transcriber.State A) : safe (in_transcriber c).
Proof.
  intros t. unfold in_transcriber. destruct (c (transcriber t)). now apply extends_same.
Qed.

Lemma safe_process_chunk chunk : safe (process chunk).
Proof.
  unfold process, process_chunk.
  apply safe_bind; [now apply safe_modify|]. intros _.
  apply safe_bind; [now apply safe_emit|]. intros _.
  apply safe_try_finally; [|now apply safe_modify].
  apply safe_try_except; [|intros e; now apply safe_emit].
  apply safe_bind; [apply safe_in_transcriber|]. intros [transcript confidence].
  rewrite meaningful_test.
  destruct (Nat.ltb_spec 3 (String.length (strip transcript))).
  - now apply safe_emit.
  - now apply safe_emit.
Qed.

Lemma safe_poll : safe poll_once.
Proof.
  unfold poll_once, poll.
  apply safe_bind; [apply safe_get|]. intros t.
  destruct (negb (processing t)); [|apply safe_ret].
  apply safe_bind; [apply safe_in_audio|]. intros [chunk|]; [|apply safe_ret].
  destruct (0 <? List.length chunk)%nat; [apply safe_process_chunk | apply safe_ret].
Qed.

Lemma safe_deliver blocks : safe (deliver blocks).
Proof.
  induction blocks as [|b blocks IH]; cbn [deliver]; [apply safe_ret|].
  apply safe_bind; [|intros _; exact IH].
  apply safe_try_except; [apply safe_in_audio | intros _; apply safe_ret].
Qed.

Lemma safe_stop : safe (stop pa).
Proof.
  unfold stop. apply safe_bind; [now apply safe_modify | intros _; apply safe_in_audio].
Qed.

Lemma safe_loop schedule : safe (loop pa clock model_transcribe write_wav subprocess_run
                                      os_remove schedule).
Proof.
  induction schedule as [|i schedule IH]; cbn [loop]; [apply safe_ret|].
  apply safe_bind.
  - unfold between_polls. apply safe_bind; [apply safe_deliver|]. intros _.
    destruct (stop_called i); [apply safe_stop | apply safe_ret].
  - intros _. apply safe_bind; [apply safe_get|]. intros t.
    destruct (running t); [|apply safe_ret].
    apply safe_bind; [apply safe_poll | intros _; exact IH].
Qed.

Lemma safe_run schedule : safe (run upper pa clock model_transcribe write_wav subprocess_run
                                    os_remove schedule).
Proof.
  unfold run.
  apply safe_bind; [now apply safe_modify|]. intros _.
  apply safe_bind; [apply safe_get|]. intros t.
  destruct (negb _); [now apply safe_emit|].
  apply safe_bind; [apply safe_in_audio|]. intros started.
  destruct (negb started); [now apply safe_emit|].
  apply safe_bind; [now apply safe_emit|]. intros _.
  apply safe_bind; [apply safe_loop|]. intros left.
  destruct left; [apply safe_in_audio | apply safe_ret].
Qed.

(** The chunk duration of the configuration asks for 48000 samples. *)
Lemma chunk_samples : Audio.samples_needed Config.CHUNK_DURATION = Ok 48000.
Proof. vm_compute. reflexivity. Qed.

(** One pass with a chunk in hand. *)
Lemma poll_run t chunk a text confidence w :
  processing t = false ->
  Audio.get_audio_chunk Config.CHUNK_DURATION (audio_manager t) = (Ok (Some chunk), a) ->
  chunk <> [] ->
  transcribe chunk (transcriber t) = (Ok (text, confidence), w) ->
  poll_once t =
  (Ok tt,
   {| audio_manager := a; transcriber := w; running := running t;
      processing := false;
      emitted := (emitted t ++ signals_of text confidence)%list |}).
Proof.
  intros Hp Hchunk Hne Htr.
  unfold poll_once, poll, bind, get, in_audio. rewrite Hp. cbn [negb].
  rewrite Hchunk. destruct chunk as [|x chunk]; [contradiction|].
  cbn [List.length Nat.ltb Nat.leb].
  fold process.
  apply (process_chunk_run (x :: chunk) (set_audio_manager a t) text confidence w).
  exact Htr.
Qed.

End LoopClaims.

Section LoopExamples.
Import Main.

Lemma run_result {S A} (p : result A * S) (a : A) :
  fst p = Ok a -> p = (Ok a, snd p).
Proof. destruct p as [r s]. cbn. now intros ->. Qed.

Lemma sum_repeat y n : Audio.sum (repeat y n) = Z.of_nat n * y.
Proof.
  induction n as [|n IH]; [reflexivity|].
  change (Audio.sum (repeat y (S n))) with (y + Audio.sum (repeat y n)).
  rewrite IH. lia.
Qed.

Lemma square_repeat x n :
  Audio.square (repeat x n) = repeat (Audio.wrap16 (x * x)) n.
Proof. unfold Audio.square. now rewrite map_repeat. Qed.

Lemma tone_length : Z.of_nat (List.length tone) = 48000.
Proof. unfold tone. rewrite repeat_length. lia. Qed.

(** The tone fills a chunk of 3 seconds, and it is no silence. *)
Lemma tone_slice : slice_from tone (- 48000) = tone.
Proof.
  pose proof tone_length as Hlen.
  change (- 48000) with (Z.opp 48000).
  rewrite slice_from_recent by lia.
  replace (List.length tone - Z.to_nat 48000)%nat with 0%nat by lia.
  reflexivity.
Qed.

Lemma tone_is_loud :
  (Audio.rms (slice_from tone (- 48000)) <? Config.SILENCE_THRESHOLD)%float = false.
Proof.
  rewrite tone_slice. unfold Audio.rms, Audio.mean, tone.
  rewrite square_repeat, sum_repeat, !repeat_length, Z2Nat.id by lia.
  vm_compute. reflexivity.
Qed.

(** A manager whose buffer is the tone gives it as the chunk of a pass. *)
Lemma tone_is_extracted_from a :
  Audio.audio_buffer (Audio.self a) = tone ->
  Audio.get_audio_chunk Config.CHUNK_DURATION a
  = (Ok (Some (Audio.normalize tone)), a).
Proof.
  intros Hbuffer.
  rewrite (get_audio_chunk_run _ _ _ chunk_samples). cbv zeta.
  rewrite Hbuffer, tone_length. change (48000 <? 48000) with false. cbv iota.
  change (Z.opp 48000) with (- 48000). rewrite tone_is_loud, tone_slice. reflexivity.
Qed.

Lemma tone_is_extracted :
  Audio.get_audio_chunk Config.CHUNK_DURATION (audio_manager listening)
  = (Ok (Some (Audio.normalize tone)), audio_manager listening).
Proof. now apply tone_is_extracted_from. Qed.

Lemma tone_chunk_not_empty : Audio.normalize tone <> [].
Proof.
  intros H. apply (f_equal (@List.length float)) in H.
  unfold Audio.normalize, tone in H. rewrite length_map, repeat_length in H.
  cbn [List.length] in H. lia.
Qed.

End LoopExamples.

(* ===================================================================== *)
(** * The model on the inputs of the repository's tests *)
(* ===================================================================== *)

Section Examples.

(** [test_get_response_cache_and_fallback] asks "What is AI?" in the
    context "general". *)
Example cache_key_of_the_test_question :
  AI._get_cache_key "What is AI?" "general" = "general:ai?".
Proof. reflexivity. Qed.

Example cache_key_keeps_five_words :
  AI._get_cache_key "  Can you please explain how the Gradient   Descent algorithm works in ML models"
                    "data_science"
  = "data_science:explain_gradient_descent_algorithm_works".
Proof. vm_compute. reflexivity. Qed.

Example short_question_is_wrapped :
  AI._enhance_question "  What is AI? "
  = "Please provide a comprehensive answer to: What is AI?".
Proof. vm_compute. reflexivity. Qed.

(** The first call is answered by the primary model and cached; the second
    is answered from the cache, as the test expects. *)
Example second_call_is_served_from_the_cache :
  fst (AI.get_response "What is AI?" "general" AI.asked_once)
  = Ok ("answer", Config.PRIMARY_MODEL, 1%float)
  /\ AI.sent (AI.world (snd (AI.get_response "What is AI?" "general" AI.asked_once)))
     = AI.sent (AI.world AI.asked_once).
Proof. split; vm_compute; reflexivity. Qed.

(** [test_get_audio_chunk_returns_none_for_silence]: 10000 zeros, 0.1 s. *)
Example silence_of_the_test :
  fst (Audio.get_audio_chunk 0.1 (Audio.with_buffer (repeat 0 (Z.to_nat 10000))))
  = Ok None.
Proof. vm_compute. reflexivity. Qed.

(** [test_find_virtual_audio_device]: the device whose name carries a
    marker is selected. *)
Example virtual_device_is_found :
  fst (Audio.find_virtual_audio_device ascii_upper Audio.one_device (Audio.with_buffer []))
  = Ok (Some 0).
Proof. vm_compute. reflexivity. Qed.

(** [test_transcribe_with_whisper_cpp_success]: exit code 0 gives the
    trimmed output with the confidence 0.8. *)
Example whisper_cpp_succeeds :
  fst (Transcriber.transcribe_audio Transcriber.seconds Transcriber.model_fails
         Transcriber.wav_written
         (fun _ => Ok {| Transcriber.returncode := 0;
                         Transcriber.stdout := "Test transcript";
                         Transcriber.stderr := "" |})
         Transcriber.removed [0.5%float]
         (Transcriber.with_engine None (Some "whisper-cpp") false))
  = Ok ("Test transcript", 0.8%float).
Proof. vm_compute. reflexivity. Qed.

(** The confidence is the mean of the clamped [avg_logprob + 1.0] of the
    segments that carry one: here of 0.5, 0 and 1. *)
Example confidence_is_the_clamped_mean :
  Transcriber._calculate_confidence
    (PList [PDict [("avg_logprob", PFloat (-0.5)%float)];
            PDict [("avg_logprob", PFloat (-3)%float)];
            PDict [("id", PInt 2)];
            PDict [("avg_logprob", PFloat 0.5%float)]])
  = Ok 0.5%float.
Proof. vm_compute. reflexivity. Qed.

(** Two bytes a sample, low byte first, two's complement. *)
Example samples_from_bytes :
  Audio.frombuffer_int16 [Byte.xff; Byte.xff; Byte.x00; Byte.x80; Byte.x01; Byte.x00]
  = Ok [-1; -32768; 1].
Proof. reflexivity. Qed.

(** The squares of [chunk**2] are taken in [int16]: a chunk of samples of
    value 256 has the root mean square 0 for the gate, and is dropped as
    silence. *)
Example wrapped_squares_read_as_silence :
  Audio.rms (repeat 256 16) = 0%float
  /\ fst (Audio.get_audio_chunk 0.001 (Audio.with_buffer (repeat 256 16))) = Ok None.
Proof. split; vm_compute; reflexivity. Qed.

End Examples.

Section ChunkExamples.
Import Audio.

(** [recent_samples_are_returned] at a buffer of 20 samples, of which a
    duration of 1 ms takes the last 16. *)
Lemma recent_samples_are_returned_witness :
  samples_needed 0.001 = Ok 16
  /\ fst (get_audio_chunk 0.001 (with_buffer (repeat 1000 4 ++ repeat (-2000) 16)%list))
     = Ok (Some (normalize (repeat (-2000) 16)))
  /\ List.length (normalize (repeat (-2000) 16)) = 16%nat.
Proof.
  assert (Hn : samples_needed 0.001 = Ok 16) by (vm_compute; reflexivity).
  split; [exact Hn|].
  destruct (recent_samples_are_returned 0.001
              (with_buffer (repeat 1000 4 ++ repeat (-2000) 16)%list) 16 Hn)
    as (Hrun & _ & _).
  - cbn. lia.
  - cbn. unfold int16. repeat constructor; lia.
  - vm_compute. reflexivity.
  - split; [|reflexivity]. rewrite Hrun. reflexivity.
Defined.

End ChunkExamples.

(* ===================================================================== *)
(** * More of ai_handler.py *)
(* ===================================================================== *)

Section StringFacts.

Lemma lower_char_idempotent c : lower_char (lower_char c) = lower_char c.
Proof.
  destruct c as [[] [] [] [] [] [] [] []]; vm_compute; reflexivity.
Qed.

Lemma lower_idempotent s : lower (lower s) = lower s.
Proof.
  induction s as [|c s IH]; cbn [lower]; [reflexivity|].
  now rewrite lower_char_idempotent, IH.
Qed.

Lemma lower_app s1 s2 : lower (s1 ++ s2) = lower s1 ++ lower s2.
Proof.
  induction s1 as [|c s1 IH]; cbn [lower append]; [reflexivity|].
  now rewrite IH.
Qed.

Lemma split_from_lstrip s : split_from (lstrip s) "" = split_from s "".
Proof.
  induction s as [|c s IH]; [reflexivity|].
  cbn [lstrip split_from is_empty].
  destruct (is_space c) eqn:E; [exact IH|].
  cbn [split_from]. now rewrite E.
Qed.

Lemma split_from_rstrip s : forall cur,
  split_from (rstrip s) cur = split_from s cur.
Proof.
  induction s as [|c s IH]; intros cur; [reflexivity|].
  cbn [rstrip split_from].
  destruct (is_space c) eqn:E; cbn [andb].
  - destruct (is_empty (rstrip s)) eqn:Ee.
    + assert (Hr : rstrip s = "") by (destruct (rstrip s); [reflexivity | discriminate]).
      rewrite <- (IH ""), Hr. cbn [split_from is_empty].
      now destruct (is_empty cur).
    + cbn [split_from]. rewrite E, IH. reflexivity.
  - cbn [split_from]. rewrite E. apply IH.
Qed.

Lemma split_strip s : split (strip s) = split s.
Proof.
  unfold split, strip. now rewrite split_from_rstrip, split_from_lstrip.
Qed.

(** The words before a blank and the words after it. *)
Lemma split_from_blank s1 s2 c : forall cur,
  is_space c = true ->
  split_from (s1 ++ String c s2) cur = (split_from s1 cur ++ split s2)%list.
Proof.
  induction s1 as [|d s1 IH]; intros cur Hc.
  - cbn [append split_from]. rewrite Hc.
    destruct (is_empty cur); reflexivity.
  - cbn [append split_from].
    destruct (is_space d); [destruct (is_empty cur)|]; cbn [app]; rewrite IH; auto.
Qed.

End StringFacts.

Section KeyFacts.
Import AI.

Lemma cache_key_words question context :
  _get_cache_key question context = context ++ ":" ++ join "_" (firstn 5 (key_words question)).
Proof. reflexivity. Qed.

Lemma key_words_blank q more :
  key_words (q ++ " " ++ more) = (key_words q ++ key_words more)%list.
Proof.
  unfold key_words. rewrite !split_strip, lower_app.
  change (lower (" " ++ more)) with (String " "%char (lower more)).
  unfold split at 1. rewrite split_from_blank by reflexivity.
  now rewrite filter_app.
Qed.

End KeyFacts.

Section KeyExtras.
Import AI.

(** X3.  [_get_cache_key] sees a question through its words in lower
    case: two questions that differ only in the case of their letters and
    in the blanks around and between their words have the same key. *)
Theorem cache_key_ignores_case_and_blanks question1 question2 context :
  split (lower question1) = split (lower question2) ->
  _get_cache_key question1 context = _get_cache_key question2 context.
Proof.
  intros H. rewrite !cache_key_words. unfold key_words.
  now rewrite !split_strip, H.
Qed.

Lemma cache_key_ignores_case_and_blanks_witness :
  _get_cache_key "  What is   Gradient Descent? " "general"
  = _get_cache_key "what is gradient descent?" "general".
Proof.
  apply cache_key_ignores_case_and_blanks. vm_compute. reflexivity.
Defined.

(** X4.  Only the first five significant words of a question reach the
    key: once a question has five of them, whatever follows it after a
    blank leaves the key as it is. *)
Theorem cache_key_ignores_what_follows_five_words question more context :
  (5 <= List.length (key_words question))%nat ->
  _get_cache_key (question ++ " " ++ more) context = _get_cache_key question context.
Proof.
  intros H. rewrite !cache_key_words, key_words_blank.
  rewrite firstn_app.
  replace (5 - List.length (key_words question))%nat with 0%nat by lia.
  cbn [firstn]. now rewrite app_nil_r.
Qed.

(** X5.  A question without a significant word (each of its words is a
    stop word or has at most two characters) has the key of the empty
    question: all such questions share one cache entry in a context. *)
Theorem questions_without_significant_words_share_a_key question context :
  Forall (fun w => In w words_to_remove \/ (String.length w <= 2)%nat)
         (split (strip (lower question))) ->
  _get_cache_key question context = context ++ ":".
Proof.
  intros H. rewrite cache_key_words.
  assert (E : key_words question = []).
  { unfold key_words. induction H as [|w ws Hw _ IH]; [reflexivity|].
    cbn [filter]. rewrite IH.
    assert (Hs : significant w = false); [|now rewrite Hs].
    unfold significant. destruct Hw as [Hw|Hw].
    - assert (Hx : existsb (String.eqb w) words_to_remove = true); [|now rewrite Hx].
      apply existsb_exists. exists w. split; [exact Hw | apply String.eqb_refl].
    - destruct (Nat.ltb_spec 2 (String.length w)); [lia|]. apply andb_false_r. }
  now rewrite E.
Qed.

End KeyExtras.

Section CacheExtras.
Import AI.

Lemma cache_key_ignores_what_follows_five_words_witness :
  _get_cache_key ("explain gradient descent with momentum clearly" ++ " " ++ "and briefly")
                 "general"
  = _get_cache_key "explain gradient descent with momentum clearly" "general".
Proof.
  apply cache_key_ignores_what_follows_five_words. vm_compute. lia.
Defined.

Lemma questions_without_significant_words_share_a_key_witness :
  _get_cache_key "What is ML" "general" = "general" ++ ":"
  /\ _get_cache_key "How do you do it" "general" = "general" ++ ":".
Proof.
  split; apply questions_without_significant_words_share_a_key.
  - change (split (strip (lower "What is ML"))) with ["what"; "is"; "ml"].
    repeat (apply Forall_cons; [first [left; cbn; tauto | right; cbn; lia]|]).
    apply Forall_nil.
  - change (split (strip (lower "How do you do it"))) with ["how"; "do"; "you"; "do"; "it"].
    repeat (apply Forall_cons; [first [left; cbn; tauto | right; cbn; lia]|]).
    apply Forall_nil.
Defined.

Lemma evicted_length (cache : dict (string * string)) :
  (List.length cache <= 51 -> List.length (evicted cache) <= 50)%nat.
Proof.
  unfold evicted. destruct (Nat.ltb_spec 50 (List.length cache)).
  - rewrite length_skipn. lia.
  - lia.
Qed.

Lemma dict_set_length {V} k (v : V) d :
  (List.length (dict_set k v d) <= S (List.length d))%nat.
Proof.
  induction d as [|[k' v'] d IH]; cbn [dict_set List.length]; [lia|].
  destruct (String.eqb k k'); cbn [List.length]; lia.
Qed.

(** What a call leaves of the handler and of the log, hit or miss. *)
Lemma get_response_bounded question context st :
  (List.length (response_cache (self st)) <= 51)%nat ->
  (List.length (response_cache (self (snd (get_response question context st)))) <= 51)%nat.
Proof.
  intros H.
  destruct (dict_get (_get_cache_key question context) (response_cache (self st)))
    as [cached|] eqn:E.
  - rewrite (get_response_hit _ _ _ _ E). exact H.
  - rewrite (get_response_miss _ _ _ E). cbn [snd self counted response_cache].
    destruct (String.eqb _ "fallback"); [exact H|].
    cbn [with_cache response_cache].
    pose proof (evicted_length _ H).
    pose proof (dict_set_length (_get_cache_key question context)
                  (settle (try_result (answer (world st)
                      (build_request question Config.PRIMARY_MODEL context)))
                    (try_result (answer (log_request
                      (build_request question Config.PRIMARY_MODEL context) (world st))
                      (build_request question Config.FALLBACK_MODEL context))))
                  (evicted (response_cache (self st)))).
    lia.
Qed.

(** X6.  The cache never holds more than 51 entries: a cache within that
    bound stays within it through any sequence of calls, whatever the
    transport answers. *)
Theorem cache_never_exceeds_51_entries calls : forall st,
  (List.length (response_cache (self st)) <= 51)%nat ->
  (List.length (response_cache (self (snd (get_responses calls st)))) <= 51)%nat.
Proof.
  induction calls as [|[question context] rest IH]; intros st H; [exact H|].
  cbn [get_responses].
  destruct (get_response_total question context st) as (a & m & t & st1 & E1).
  rewrite (bind_Ok _ _ _ _ _ E1).
  pose proof (get_response_bounded question context st H) as H1.
  rewrite E1 in H1. cbn [snd] in H1.
  specialize (IH st1 H1).
  unfold bind. destruct (get_responses rest st1) as [[rs|e] st2]; exact IH.
Qed.

(** X7.  Insert, then look up: once a model has answered a question, any
    question with the same cache key gets the same answer and model id
    from the cache; that call posts nothing and leaves the handler as it
    is. *)
Theorem answered_question_is_served_from_the_cache
    question context st a m t st1 question' context' :
  get_response question context st = (Ok (a, m, t), st1) ->
  m <> "fallback" ->
  _get_cache_key question' context' = _get_cache_key question context ->
  exists t' st2,
    get_response question' context' st1 = (Ok (a, m, t'), st2)
    /\ self st2 = self st1
    /\ sent (world st2) = sent (world st1).
Proof.
  intros Hrun Hm Hkey.
  assert (Hin : dict_get (_get_cache_key question context) (response_cache (self st1))
                = Some (a, m)).
  { destruct (dict_get (_get_cache_key question context) (response_cache (self st)))
      as [cached|] eqn:E.
    - rewrite (get_response_hit _ _ _ _ E) in Hrun.
      injection Hrun as <- <- _ <-. cbn [set_world self].
      rewrite E. now destruct cached.
    - rewrite (get_response_miss _ _ _ E) in Hrun.
      set (am := settle _ _) in Hrun.
      injection Hrun as <- <- _ <-. cbn [self counted response_cache].
      destruct (String.eqb_spec (snd am) "fallback") as [F|_]; [contradiction|].
      cbn [with_cache response_cache]. rewrite dict_get_set_same.
      now destruct am. }
  rewrite <- Hkey in Hin.
  rewrite (get_response_hit _ _ _ _ Hin). cbn [fst snd].
  do 2 eexists. split; [reflexivity|]. split; reflexivity.
Qed.

Lemma answered_question_is_served_from_the_cache_witness :
  exists t' st2,
    get_response "what is ai?" "general" asked_once
    = (Ok ("answer", Config.PRIMARY_MODEL, t'), st2)
    /\ self st2 = self asked_once
    /\ sent (world st2) = sent (world asked_once).
Proof.
  apply (answered_question_is_served_from_the_cache
           "What is AI?" "general" (fresh answering_world)
           "answer" Config.PRIMARY_MODEL 1%float asked_once).
  - apply run_result. vm_compute. reflexivity.
  - discriminate.
  - vm_compute. reflexivity.
Defined.

Lemma cache_never_exceeds_51_entries_witness :
  (List.length (response_cache (self (after_topics 60))) <= 51)%nat.
Proof.
  apply (cache_never_exceeds_51_entries (topics 60) (fresh answering_world)).
  cbn. lia.
Defined.

Lemma posted_to_app model l1 l2 :
  posted_to model (l1 ++ l2) = (posted_to model l1 ++ posted_to model l2)%list.
Proof. apply filter_app. Qed.

(** One call: what it adds to the log and to the request counter. *)
Lemma get_response_posts question context st :
  exists new,
    sent (world (snd (get_response question context st))) = (sent (world st) ++ new)%list
    /\ request_count (self (snd (get_response question context st)))
       = request_count (self st) + Z.of_nat (List.length (posted_to Config.PRIMARY_MODEL new))
    /\ Forall (fun req => req_model req = Config.PRIMARY_MODEL
                          \/ req_model req = Config.FALLBACK_MODEL) new.
Proof.
  destruct (dict_get (_get_cache_key question context) (response_cache (self st)))
    as [cached|] eqn:E.
  - rewrite (get_response_hit _ _ _ _ E). exists []. cbn.
    rewrite app_nil_r. repeat split; [lia | constructor].
  - rewrite (get_response_miss _ _ _ E). cbn [snd self world counted request_count].
    set (req1 := build_request question Config.PRIMARY_MODEL context).
    set (req2 := build_request question Config.FALLBACK_MODEL context).
    assert (Hc : forall h : AIResponseHandler,
               request_count (if String.eqb (snd (settle (try_result (answer (world st) req1))
                                 (try_result (answer (log_request req1 (world st)) req2))))
                                 "fallback"
                              then h
                              else with_cache (dict_set (_get_cache_key question context)
                                     (settle (try_result (answer (world st) req1))
                                        (try_result (answer (log_request req1 (world st)) req2)))
                                     (evicted (response_cache h))) h)
               = request_count h)
      by (intros h; destruct (String.eqb _ "fallback"); reflexivity).
    rewrite Hc.
    destruct (truthy (try_result (answer (world st) req1))).
    + exists [req1]. cbn. repeat split; auto.
    + exists [req1; req2]. cbn. rewrite <- app_assoc. repeat split; auto.
Qed.

(** X8.  The request counter counts the posts to the primary model: over
    any sequence of calls it grows by the number of requests the handler
    has sent to [PRIMARY_MODEL], and every request goes to one of the two
    configured models. *)
Theorem request_count_counts_the_primary_posts calls : forall st,
  exists new,
    sent (world (snd (get_responses calls st))) = (sent (world st) ++ new)%list
    /\ request_count (self (snd (get_responses calls st)))
       = request_count (self st) + Z.of_nat (List.length (posted_to Config.PRIMARY_MODEL new))
    /\ Forall (fun req => req_model req = Config.PRIMARY_MODEL
                          \/ req_model req = Config.FALLBACK_MODEL) new.
Proof.
  induction calls as [|[question context] rest IH]; intros st.
  - exists []. cbn. rewrite app_nil_r. repeat split; [lia | constructor].
  - cbn [get_responses].
    destruct (get_response_total question context st) as (a & m & t & st1 & E1).
    rewrite (bind_Ok _ _ _ _ _ E1).
    destruct (get_response_posts question context st) as (new1 & Hs1 & Hc1 & Hm1).
    rewrite E1 in Hs1, Hc1. cbn [snd] in Hs1, Hc1.
    destruct (IH st1) as (new2 & Hs2 & Hc2 & Hm2).
    exists (new1 ++ new2)%list.
    assert (Hsnd : snd (bind (get_responses rest) (fun rs => ret ((a, m, t) :: rs)) st1)
                   = snd (get_responses rest st1))
      by (unfold bind; destruct (get_responses rest st1) as [[rs|e] st2]; reflexivity).
    rewrite Hsnd, Hs2, Hc2, Hs1, Hc1, posted_to_app, length_app, app_assoc.
    repeat split; [lia | now apply Forall_app].
Qed.

(** X9.  [_try_model] never raises: whatever the transport does, it posts
    exactly one request, to the model it was given, leaves the handler as
    it is and returns the model id with a content or [None]; a content
    comes only from an answer with status 200 whose body decodes. *)
Theorem try_model_never_raises question model context st :
  exists r st',
    _try_model question model context st = (Ok (r, model), st')
    /\ self st' = self st
    /\ sent (world st') = (sent (world st) ++ [build_request question model context])%list
    /\ (forall content, r = Some content ->
          exists text body,
            answer (world st) (build_request question model context)
            = PostReturns 200 text (Ok body)
            /\ read_choices (Ok body) = Ok (Some content)).
Proof.
  do 2 eexists. split; [apply try_model_run|].
  split; [reflexivity|]. split; [reflexivity|].
  intros content. unfold try_result.
  destruct (answer (world st) (build_request question model context))
    as [e | code text body]; [discriminate|].
  destruct (Z.eqb_spec code 200) as [->|_]; [|discriminate].
  destruct body as [body|e]; [|discriminate].
  destruct (read_choices (Ok body)) as [c|e] eqn:E; [|discriminate].
  intros ->. eauto.
Qed.

(** After [clear_cache] every question is a miss again: the next
    call posts to the primary model first, while the two counters are
    what they were before the cache was cleared. *)
Lemma clear_cache_forgets_the_answers_and_keeps_the_counters question context st :
  request_count (self (cleared st)) = request_count (self st)
  /\ total_response_time (self (cleared st)) = total_response_time (self st)
  /\ exists more,
       sent (world (snd (get_response question context (cleared st))))
       = (sent (world st)
          ++ build_request question Config.PRIMARY_MODEL context :: more)%list.
Proof.
  split; [reflexivity|]. split; [reflexivity|].
  assert (E : dict_get (_get_cache_key question context)
                (response_cache (self (cleared st))) = None) by reflexivity.
  rewrite (get_response_miss _ _ _ E). cbn [snd world cleared set_self].
  destruct (truthy _); cbn [tick log_request sent].
  - exists []. reflexivity.
  - eexists [_]. rewrite <- app_assoc. reflexivity.
Qed.

End CacheExtras.

(* ===================================================================== *)
(** * More of audio_manager.py *)
(* ===================================================================== *)

Section DeviceFacts.
Import Audio.

Variable upper : string -> string.
Variable pa : PyAudio.

Lemma call_run {A} c (answer : result A) st :
  call c answer st = (answer, after_calls [c] st).
Proof. reflexivity. Qed.

Lemma after_calls_app cs1 cs2 st :
  after_calls cs2 (after_calls cs1 st) = after_calls (cs1 ++ cs2) st.
Proof. unfold after_calls. cbn [self calls]. now rewrite app_assoc. Qed.

Lemma after_calls_nil st : after_calls [] st = st.
Proof. destruct st. unfold after_calls. cbn. now rewrite app_nil_r. Qed.

Lemma range_In j n : In j (range n) -> 0 <= j < n.
Proof.
  unfold range. rewrite in_map_iff. intros (k & <- & Hk).
  apply in_seq in Hk. lia.
Qed.

Lemma range_succ i : 0 <= i -> range (i + 1) = (range i ++ [i])%list.
Proof.
  intros H. unfold range.
  replace (Z.to_nat (i + 1)) with (Z.to_nat i + 1)%nat by lia.
  rewrite seq_app, map_app. cbn [seq map Nat.add].
  now rewrite Z2Nat.id by lia.
Qed.

Lemma range_split n i : 0 <= i < n -> exists post, range n = (range i ++ i :: post)%list.
Proof.
  intros H. unfold range.
  replace (Z.to_nat n) with (Z.to_nat i + S (Z.to_nat n - Z.to_nat i - 1))%nat by lia.
  rewrite seq_app, map_app. cbn [seq map Nat.add].
  rewrite Z2Nat.id by lia. eauto.
Qed.

(** The scan stops at the first device that is a virtual input. *)
Lemma scan_devices_first pre i post : forall st,
  (forall j, In j pre ->
     exists info, device_info_by_index pa j = Ok info
                  /\ is_virtual_input upper info = false) ->
  (exists info, device_info_by_index pa i = Ok info
                /\ is_virtual_input upper info = true) ->
  scan_devices upper pa (pre ++ i :: post) st
  = (Ok (Some i), after_calls (map GetDeviceInfoByIndex (pre ++ [i])) st).
Proof.
  induction pre as [|j pre IH]; intros st Hpre (info & Hi & Hv).
  - cbn [app scan_devices map].
    rewrite (bind_Ok _ _ _ _ _ (eq_trans (call_run _ _ _) (f_equal2 pair Hi eq_refl))).
    now rewrite Hv.
  - cbn [app scan_devices map].
    destruct (Hpre j (or_introl eq_refl)) as (infoj & Hj & Hvj).
    rewrite (bind_Ok _ _ _ _ _ (eq_trans (call_run _ _ _) (f_equal2 pair Hj eq_refl))).
    rewrite Hvj, IH; eauto.
    + now rewrite after_calls_app.
    + intros k Hk. apply Hpre. now right.
Qed.

(** What a scan returns is a virtual input; the manager is not touched. *)
Lemma scan_devices_sound l : forall st r st',
  scan_devices upper pa l st = (r, st') ->
  self st' = self st
  /\ forall i, r = Ok (Some i) ->
       exists info, device_info_by_index pa i = Ok info
                    /\ is_virtual_input upper info = true.
Proof.
  induction l as [|j l IH]; intros st r st' H.
  - injection H as <- <-. split; [reflexivity | discriminate].
  - cbn [scan_devices] in H. unfold bind at 1 in H. rewrite call_run in H.
    destruct (device_info_by_index pa j) as [info|e] eqn:Ej.
    + destruct (is_virtual_input upper info) eqn:Ev.
      * injection H as <- <-. split; [reflexivity|].
        intros i [= <-]. eauto.
      * apply IH in H as [Hs Hr]. split; [exact Hs | exact Hr].
    + injection H as <- <-. split; [reflexivity | discriminate].
Qed.

(** The second [try] of [find_virtual_audio_device]. *)
Lemma default_device_run st :
  try_except
    (bind (call GetDefaultInputDeviceInfo (default_input_device_info pa))
       (fun default_device =>
          match name default_device, index default_device with
          | Some _, Some i => ret (Some i)
          | _, _ => raise KeyError
          end))
    (fun _ => ret None) st
  = (Ok (default_index pa), after_calls [GetDefaultInputDeviceInfo] st).
Proof.
  unfold try_except, bind, default_index. rewrite call_run.
  destruct (default_input_device_info pa) as [d|e]; [|reflexivity].
  destruct (name d), (index d); reflexivity.
Qed.

Lemma find_virtual_audio_device_total st :
  exists r st',
    find_virtual_audio_device upper pa st = (Ok r, st')
    /\ self st' = self st
    /\ ((exists i info, r = Some i
                        /\ device_info_by_index pa i = Ok info
                        /\ is_virtual_input upper info = true)
        \/ r = default_index pa).
Proof.
  unfold find_virtual_audio_device. unfold bind at 1. unfold try_except at 1.
  unfold bind at 1. rewrite call_run.
  destruct (device_count pa) as [n|e].
  - destruct (scan_devices upper pa (range n) (after_calls [GetDeviceCount] st))
      as [[[i|]|e] st1] eqn:E; apply scan_devices_sound in E as [Hs Hr].
    + do 2 eexists. split; [reflexivity|]. split; [exact Hs|].
      left. destruct (Hr i eq_refl) as (info & Hi & Hv). eauto.
    + rewrite default_device_run. do 2 eexists. split; [reflexivity|].
      split; [exact Hs | now right].
    + cbn [ret]. rewrite default_device_run. do 2 eexists. split; [reflexivity|].
      split; [exact Hs | now right].
  - cbn [ret]. rewrite default_device_run. do 2 eexists. split; [reflexivity|].
    split; [reflexivity | now right].
Qed.

Lemma start_recording_total callback st :
  exists b st', start_recording upper pa callback st = (Ok b, st').
Proof.
  unfold start_recording. unfold bind at 1. cbn [get].
  destruct (is_recording (self st)); [unfold ret; eauto|].
  destruct (find_virtual_audio_device_total st) as (r & st1 & E & _).
  rewrite (bind_Ok _ _ _ _ _ E). unfold bind at 1. cbn [modify].
  destruct r as [i|]; [|unfold ret; eauto].
  unfold try_except. unfold bind at 1. rewrite call_run.
  destruct (open pa i) as [s|e]; [|unfold ret; eauto].
  unfold bind at 1. cbn [modify]. unfold bind at 1. cbn [modify].
  unfold bind at 1. cbn [modify]. unfold bind at 1. rewrite call_run.
  destruct (start_stream pa s) as [[]|e]; unfold bind, ret; eauto.
Qed.

Lemma stop_recording_total st :
  exists st', stop_recording pa st = (Ok tt, st').
Proof.
  unfold stop_recording. unfold bind at 1. cbn [get].
  destruct (negb (is_recording (self st))); [unfold ret; eauto|].
  unfold try_except.
  destruct (bind _ _ st) as [[[]|e] st1]; unfold ret; eauto.
Qed.

End DeviceFacts.

Section DeviceExtras.
Import Audio.

Ltac manager_simpl :=
  unfold ret, after_calls, set_is_recording, set_callbacks, set_stream,
    set_device_index;
  cbn [self calls stream device_index is_recording audio_buffer callbacks].

Variable upper : string -> string.
Variable pa : PyAudio.

(** X10.  No failure of PyAudio leaves the manager: whatever the library
    answers or raises, [find_virtual_audio_device], [start_recording],
    [stop_recording] and [get_device_info] return a value. *)
Theorem pyaudio_failures_stay_inside_the_manager callback st :
  (exists r st', find_virtual_audio_device upper pa st = (Ok r, st'))
  /\ (exists b st', start_recording upper pa callback st = (Ok b, st'))
  /\ (exists st', stop_recording pa st = (Ok tt, st'))
  /\ (exists info st', get_device_info pa st = (Ok info, st')).
Proof.
  split; [|split; [|split]].
  - destruct (find_virtual_audio_device_total upper pa st) as (r & st' & E & _). eauto.
  - apply start_recording_total.
  - apply stop_recording_total.
  - unfold get_device_info, bind, get.
    destruct (device_index (self st)) as [i|]; [|unfold ret; eauto].
    unfold try_except. rewrite call_run.
    destruct (device_info_by_index pa i); unfold ret; eauto.
Qed.

(** X11.  The device selected is the first virtual input, wherever it is
    in PyAudio's list: when the devices before index [i] are no virtual
    inputs and device [i] is one, [find_virtual_audio_device] returns [i];
    it has asked for the infos of the devices 0 to [i] only, and not for
    the default device. *)
Theorem first_virtual_input_is_selected st n i :
  device_count pa = Ok n ->
  0 <= i < n ->
  (forall j, 0 <= j < i ->
     exists info, device_info_by_index pa j = Ok info
                  /\ is_virtual_input upper info = false) ->
  (exists info, device_info_by_index pa i = Ok info
                /\ is_virtual_input upper info = true) ->
  find_virtual_audio_device upper pa st
  = (Ok (Some i),
     after_calls (GetDeviceCount :: map GetDeviceInfoByIndex (range (i + 1))) st).
Proof.
  intros Hn Hi Hpre Hdev.
  destruct (range_split n i Hi) as (post & Hsplit).
  unfold find_virtual_audio_device. unfold bind at 1. unfold try_except at 1.
  unfold bind at 1. rewrite call_run, Hn, Hsplit.
  rewrite (scan_devices_first upper pa (range i) i post); auto.
  - rewrite after_calls_app, range_succ by lia. reflexivity.
  - intros j Hj. apply Hpre. now apply range_In.
Qed.

(** X12.  What [find_virtual_audio_device] returns is sound: an index it
    returns is that of a device PyAudio describes as a virtual input, or
    it is the default input device's; without either it returns [None].
    The manager's fields are not touched. *)
Theorem selected_device_is_a_virtual_input_or_the_default st :
  exists r st',
    find_virtual_audio_device upper pa st = (Ok r, st')
    /\ self st' = self st
    /\ ((exists i info, r = Some i
                        /\ device_info_by_index pa i = Ok info
                        /\ is_virtual_input upper info = true)
        \/ r = default_index pa).
Proof. apply find_virtual_audio_device_total. Qed.

(** X13.  What [start_recording] comes to on a manager that is not
    recording, from the device that was found.  Without a device it returns
    [False].  When [open] raises it returns [False] and the manager is not
    marked as recording.  Once the stream [s] is open, the callback is
    appended, the manager is marked as recording and PyAudio is asked to
    start [s]; the call returns [True] when that works and [False] when it
    raises, and in both cases the manager stays marked as recording, so
    that the next [start_recording] returns [False] at once. *)
Theorem start_recording_outcome callback st st1 device :
  is_recording (self st) = false ->
  find_virtual_audio_device upper pa st = (Ok device, st1) ->
  start_recording upper pa callback st
  = match device with
    | None => (Ok false, set_device_index None st1)
    | Some i =>
        match open pa i with
        | Raise _ => (Ok false, after_calls [Open i] (set_device_index (Some i) st1))
        | Ok s =>
            (Ok match start_stream pa s with Ok _ => true | Raise _ => false end,
             {| self := {| stream := Some s; device_index := Some i;
                           is_recording := true;
                           audio_buffer := audio_buffer (self st1);
                           callbacks := (callbacks (self st1) ++ [callback])%list |};
                calls := (calls st1 ++ [Open i; StartStream s])%list |})
        end
    end.
Proof.
  intros Hrec Hfind.
  unfold start_recording. unfold bind at 1. cbn [get]. rewrite Hrec.
  rewrite (bind_Ok _ _ _ _ _ Hfind). unfold bind at 1. cbn [modify].
  destruct device as [i|]; [|reflexivity].
  unfold try_except. unfold bind at 1. rewrite call_run.
  destruct (open pa i) as [s|e]; [|reflexivity].
  unfold bind at 1. cbn [modify]. unfold bind at 1. cbn [modify].
  unfold bind at 1. cbn [modify]. unfold bind at 1. rewrite call_run.
  destruct (start_stream pa s) as [[]|e]; manager_simpl; now rewrite <- app_assoc.
Qed.

(** X14.  What [stop_recording] comes to on a recording manager with the
    stream [s].  When [stop_stream] raises, the stream is not closed and
    the manager stays marked as recording with its callbacks; so it does
    when [close] raises.  When both work, the recording flag and the
    callbacks are cleared and the buffer is kept, and a second
    [stop_recording] does nothing. *)
Theorem stop_recording_outcome st s :
  is_recording (self st) = true ->
  stream (self st) = Some s ->
  let stopped := {| self := {| stream := Some s; device_index := device_index (self st);
                               is_recording := false;
                               audio_buffer := audio_buffer (self st);
                               callbacks := [] |};
                    calls := (calls st ++ [StopStream s; Close s])%list |} in
  stop_recording pa st
  = (Ok tt,
     match stop_stream pa s with
     | Raise _ => after_calls [StopStream s] st
     | Ok _ => match close pa s with
               | Raise _ => after_calls [StopStream s; Close s] st
               | Ok _ => stopped
               end
     end)
  /\ stop_recording pa stopped = (Ok tt, stopped).
Proof.
  cbv zeta. intros Hrec Hs. split; [|reflexivity].
  unfold stop_recording. unfold bind at 1. cbn [get]. rewrite Hrec. cbn [negb].
  unfold try_except. rewrite Hs.
  unfold bind at 1. unfold bind at 1. rewrite call_run.
  destruct (stop_stream pa s) as [[]|e]; [|reflexivity].
  rewrite call_run.
  destruct (close pa s) as [[]|e].
  - unfold bind, modify. manager_simpl. now rewrite Hs, <- app_assoc.
  - manager_simpl. now rewrite <- app_assoc.
Qed.

End DeviceExtras.

Section DeviceExamples.
Import Audio.

Lemma first_virtual_input_is_selected_witness :
  find_virtual_audio_device ascii_upper (two_devices (Ok tt) (Ok tt)) (with_buffer [])
  = (Ok (Some 1),
     after_calls [GetDeviceCount; GetDeviceInfoByIndex 0; GetDeviceInfoByIndex 1]
                 (with_buffer [])).
Proof.
  apply (first_virtual_input_is_selected ascii_upper (two_devices (Ok tt) (Ok tt))
           (with_buffer []) 2 1).
  - reflexivity.
  - lia.
  - intros j Hj. assert (j = 0) as -> by lia.
    exists microphone. split; [reflexivity | vm_compute; reflexivity].
  - exists cable. split; [reflexivity | vm_compute; reflexivity].
Defined.

Lemma start_recording_outcome_witness :
  fst (start_recording ascii_upper (two_devices (Ok tt) (Ok tt)) 3%nat (with_buffer [7]))
  = Ok true
  /\ fst (start_recording ascii_upper (two_devices (Raise OSError) (Ok tt)) 3%nat
            (with_buffer [7]))
     = Ok false
  /\ is_recording
       (self (snd (start_recording ascii_upper (two_devices (Raise OSError) (Ok tt)) 3%nat
                     (with_buffer [7]))))
     = true.
Proof.
  assert (Hfind : forall start,
            find_virtual_audio_device ascii_upper (two_devices start (Ok tt))
              (with_buffer [7])
            = (Ok (Some 1),
               after_calls [GetDeviceCount; GetDeviceInfoByIndex 0;
                            GetDeviceInfoByIndex 1] (with_buffer [7])))
    by (intros start; vm_compute; reflexivity).
  rewrite (start_recording_outcome ascii_upper (two_devices (Ok tt) (Ok tt))
             3%nat (with_buffer [7]) _ _ eq_refl (Hfind (Ok tt))).
  rewrite (start_recording_outcome ascii_upper (two_devices (Raise OSError) (Ok tt))
             3%nat (with_buffer [7]) _ _ eq_refl (Hfind (Raise OSError))).
  repeat split.
Defined.

Lemma stop_recording_outcome_witness :
  fst (stop_recording (two_devices (Ok tt) (Ok tt)) recording) = Ok tt
  /\ is_recording (self (snd (stop_recording (two_devices (Ok tt) (Ok tt)) recording)))
     = false
  /\ is_recording
       (self (snd (stop_recording (two_devices (Ok tt) (Raise OSError)) recording)))
     = true.
Proof.
  destruct (stop_recording_outcome (two_devices (Ok tt) (Ok tt)) recording 7%nat
              eq_refl eq_refl) as [H _].
  destruct (stop_recording_outcome (two_devices (Ok tt) (Raise OSError)) recording 7%nat
              eq_refl eq_refl) as [H' _].
  rewrite H, H'. repeat split.
Defined.

End DeviceExamples.

Section BufferFacts.
Import Audio.

Lemma wrap16_int16 z : int16 (wrap16 z).
Proof.
  unfold int16, wrap16.
  pose proof (Z.mod_pos_bound (z + 32768) 65536 ltac:(lia)). lia.
Qed.

Lemma wrap16_of_int16 x : int16 x -> wrap16 x = x.
Proof.
  unfold int16, wrap16. intros H.
  rewrite Z.mod_small by lia. lia.
Qed.

(** A block of bytes decodes when its length is even, and only then. *)
Lemma frombuffer_int16_length in_data :
  (match frombuffer_int16 in_data with
   | Ok samples => Nat.even (List.length in_data) = true
                   /\ List.length in_data = (2 * List.length samples)%nat
                   /\ Forall int16 samples
   | Raise e => Nat.even (List.length in_data) = false /\ e = ValueError
   end)
  /\ forall b,
      match frombuffer_int16 (b :: in_data) with
      | Ok samples => Nat.even (S (List.length in_data)) = true
                      /\ S (List.length in_data) = (2 * List.length samples)%nat
                      /\ Forall int16 samples
      | Raise e => Nat.even (S (List.length in_data)) = false /\ e = ValueError
      end.
Proof.
  induction in_data as [|hi rest [IH1 IH2]].
  - split; [cbn; auto|]. intros b. cbn. auto.
  - split; [apply IH2|]. intros lo.
    change (frombuffer_int16 (lo :: hi :: rest))
      with (rbind (frombuffer_int16 rest)
              (fun samples =>
                 Ok (wrap16 (Z.of_N (Byte.to_N lo) + 256 * Z.of_N (Byte.to_N hi))
                     :: samples))).
    change (Nat.even (S (List.length (hi :: rest))))
      with (Nat.even (List.length rest)).
    destruct (frombuffer_int16 rest) as [samples|e]; cbn [rbind].
    + destruct IH1 as (He & Hl & Hs). split; [exact He|]. split.
      * cbn [List.length]. lia.
      * constructor; [apply wrap16_int16 | exact Hs].
    + exact IH1.
Qed.

Lemma deque_extend_length maxlen buffer items :
  0 <= maxlen ->
  Z.of_nat (List.length (deque_extend maxlen buffer items))
  = Z.min (Z.of_nat (List.length buffer + List.length items)) maxlen.
Proof.
  intros H. unfold deque_extend. rewrite length_skipn, length_app. lia.
Qed.

Lemma deque_extend_suffix maxlen buffer items :
  0 <= maxlen ->
  exists dropped,
    (buffer ++ items = dropped ++ deque_extend maxlen buffer items)%list
    /\ Z.of_nat (List.length dropped)
       = Z.max 0 (Z.of_nat (List.length buffer + List.length items) - maxlen).
Proof.
  intros H. unfold deque_extend.
  exists (firstn (List.length (buffer ++ items) - Z.to_nat maxlen) (buffer ++ items)).
  split; [now rewrite firstn_skipn|].
  rewrite length_firstn, length_app. lia.
Qed.

Lemma byte_of_to_N z : Z.of_N (Byte.to_N (byte_of z)) = z mod 256.
Proof.
  pose proof (Z.mod_pos_bound z 256 ltac:(lia)) as Hb.
  unfold byte_of.
  destruct (Byte.of_N (Z.to_N (z mod 256))) as [b|] eqn:E.
  - apply Stdlib.Strings.Byte.to_of_N in E. rewrite E. lia.
  - apply Stdlib.Strings.Byte.of_N_None_iff in E. lia.
Qed.

Lemma byte_of_of_N b z : z mod 256 = Z.of_N (Byte.to_N b) -> byte_of z = b.
Proof.
  intros H. unfold byte_of. rewrite H, N2Z.id.
  now rewrite Stdlib.Strings.Byte.of_to_N.
Qed.

Lemma decode_encode x :
  int16 x -> wrap16 (x mod 256 + 256 * ((x / 256) mod 256)) = x.
Proof.
  unfold int16, wrap16. intros H. Z.div_mod_to_equations. lia.
Qed.

Lemma encode_decode a b :
  0 <= a < 256 -> 0 <= b < 256 ->
  wrap16 (a + 256 * b) mod 256 = a /\ (wrap16 (a + 256 * b) / 256) mod 256 = b.
Proof.
  unfold wrap16. intros Ha Hb. Z.div_mod_to_equations. lia.
Qed.

Lemma frombuffer_tobytes samples :
  Forall int16 samples -> frombuffer_int16 (tobytes samples) = Ok samples.
Proof.
  induction 1 as [|x samples Hx _ IH]; [reflexivity|].
  cbn [tobytes flat_map app]. fold (tobytes samples).
  cbn [frombuffer_int16]. rewrite IH. cbn [rbind].
  rewrite !byte_of_to_N, decode_encode by exact Hx. reflexivity.
Qed.

Lemma tobytes_frombuffer in_data :
  (forall samples, frombuffer_int16 in_data = Ok samples -> tobytes samples = in_data)
  /\ forall b samples,
       frombuffer_int16 (b :: in_data) = Ok samples -> tobytes samples = b :: in_data.
Proof.
  induction in_data as [|hi rest [IH1 IH2]].
  - split; [intros samples [= <-]; reflexivity | intros b samples; discriminate].
  - split; [apply IH2|]. intros lo samples.
    cbn [frombuffer_int16].
    destruct (frombuffer_int16 rest) as [more|e]; [|discriminate].
    cbn [rbind]. intros [= <-].
    cbn [tobytes flat_map app]. fold (tobytes more).
    rewrite (IH1 more eq_refl).
    pose proof (Stdlib.Strings.Byte.to_N_bounded lo).
    pose proof (Stdlib.Strings.Byte.to_N_bounded hi).
    destruct (encode_decode (Z.of_N (Byte.to_N lo)) (Z.of_N (Byte.to_N hi)))
      as [Hlo Hhi]; [lia | lia |].
    rewrite (byte_of_of_N lo), (byte_of_of_N hi); auto.
Qed.

Lemma survives_table : all_ints survives (Z.to_nat 65536) (Uint63.of_Z 0) = true.
Proof. vm_compute. reflexivity. Qed.

Lemma int16_survives x :
  int16 x -> int_of_float (float_of_Z x / 32768 * 32768)%float = Ok x.
Proof.
  unfold int16. intros H.
  assert (Hs : survives (Uint63.of_Z (x + 32768)) = true).
  { apply (all_ints_spec survives _ 0 survives_table). rewrite Z2Nat.id; lia. }
  unfold survives in Hs.
  rewrite Uint63.of_Z_spec, Z.mod_small in Hs
    by (change Uint63.wB with 9223372036854775808; lia).
  replace (x + 32768 - 32768) with x in Hs by lia.
  destruct (int_of_float _) as [z|e]; [|discriminate].
  apply Z.eqb_eq in Hs. now subst.
Qed.

Lemma square_of_multiples chunk :
  Forall (fun x => x mod 256 = 0) chunk ->
  square chunk = repeat 0 (List.length chunk).
Proof.
  induction 1 as [|x chunk Hx _ IH]; [reflexivity|].
  cbn [square map List.length repeat]. fold (square chunk). rewrite IH. f_equal.
  unfold wrap16.
  assert (E : x * x = (x / 256) * (x / 256) * 65536).
  { rewrite (Z.div_mod x 256) at 1 2 by lia. rewrite Hx. ring. }
  rewrite E, Z.add_comm, Z_mod_plus_full. reflexivity.
Qed.

End BufferFacts.

Section BufferExtras.
Import Audio.

(** X2.  The squares of [chunk**2] are taken in [int16], where the square
    of a multiple of 256 wraps to 0: a chunk whose samples are all
    multiples of 256, however loud, has the root mean square 0 for the
    gate, and [get_audio_chunk] returns [None] for it. *)
Theorem multiples_of_256_read_as_silence duration st n :
  samples_needed duration = Ok n ->
  1 <= n <= Z.of_nat (List.length (audio_buffer (self st))) ->
  Z.of_nat (List.length (audio_buffer (self st))) <= BUFFER_MAXLEN ->
  Forall (fun x => x mod 256 = 0)
         (skipn (List.length (audio_buffer (self st)) - Z.to_nat n)
                (audio_buffer (self st))) ->
  get_audio_chunk duration st = (Ok None, st).
Proof.
  intros Hn Hlen Hmax Hmult.
  rewrite (get_audio_chunk_run _ _ _ Hn). cbv zeta.
  destruct (Z.ltb_spec (Z.of_nat (List.length (audio_buffer (self st)))) n); [lia|].
  rewrite slice_from_recent by lia.
  set (recent := skipn _ _) in *.
  assert (Hr : List.length recent = Z.to_nat n)
    by (unfold recent; rewrite length_skipn; lia).
  assert (Hq : (rms recent <? Config.SILENCE_THRESHOLD)%float = true).
  { unfold rms, mean. rewrite (square_of_multiples _ Hmult).
    rewrite repeat_length, sum_repeat, Z.mul_0_r, Hr.
    apply quiet_mean; lia. }
  now rewrite Hq.
Qed.

(** X15.  [_audio_callback] on a block of bytes.  A block of an even
    length is decoded into [int16] samples, half as many, whose bytes are
    the block; they are appended to the buffer, of which the deque keeps
    the latest 480000: the new buffer is the tail of the old buffer
    followed by the samples, and never longer than [BUFFER_MAXLEN].  A
    block of an odd length raises [ValueError] and the buffer keeps what
    it had. *)
Theorem audio_callback_keeps_the_latest_samples in_data st :
  if Nat.even (List.length in_data)
  then exists samples dropped,
         let buffer := deque_extend BUFFER_MAXLEN (audio_buffer (self st)) samples in
         frombuffer_int16 in_data = Ok samples
         /\ List.length in_data = (2 * List.length samples)%nat
         /\ Forall int16 samples
         /\ tobytes samples = in_data
         /\ _audio_callback in_data st = (Ok tt, set_audio_buffer buffer st)
         /\ (audio_buffer (self st) ++ samples = dropped ++ buffer)%list
         /\ Z.of_nat (List.length dropped)
            = Z.max 0 (Z.of_nat (List.length (audio_buffer (self st))
                                 + List.length samples) - 480000)
         /\ Z.of_nat (List.length buffer) <= 480000
  else _audio_callback in_data st = (Raise ValueError, st).
Proof.
  assert (Hmax : 0 <= BUFFER_MAXLEN) by discriminate.
  destruct (frombuffer_int16_length in_data) as [H _].
  destruct (frombuffer_int16 in_data) as [samples|e] eqn:E.
  - destruct H as (-> & Hl & Hs).
    destruct (deque_extend_suffix BUFFER_MAXLEN (audio_buffer (self st)) samples Hmax)
      as (dropped & Hd & Hdl).
    exists samples, dropped. cbv zeta.
    split; [reflexivity|]. split; [exact Hl|]. split; [exact Hs|].
    split; [exact (proj1 (tobytes_frombuffer in_data) samples E)|].
    split; [unfold _audio_callback, bind, lift; now rewrite E|].
    split; [exact Hd|]. split; [exact Hdl|].
    rewrite (deque_extend_length _ _ _ Hmax).
    change BUFFER_MAXLEN with 480000. lia.
  - destruct H as [-> ->]. unfold _audio_callback, bind, lift. now rewrite E.
Qed.

Variable cast_out_of_range : float -> Z.
Variable wave_write : wav_file -> result unit.

(** X16.  A chunk that [get_audio_chunk] has normalized is saved without
    loss: for [int16] samples, [save_audio_chunk] on the normalized chunk
    writes one mono 16-bit file at 16 kHz whose frames decode to the
    samples, and returns [True]; when the writing raises it returns
    [False] and no file is recorded.  It never raises. *)
Theorem saved_chunk_holds_the_samples samples filename files :
  Forall int16 samples ->
  let file := {| filepath := path_join TEMP_AUDIO_PATH filename;
                 nchannels := 1; sampwidth := 2; framerate := 16000;
                 frames := tobytes samples |} in
  save_audio_chunk cast_out_of_range wave_write (normalize samples) filename files
  = match wave_write file with
    | Ok _ => (Ok true, (files ++ [file])%list)
    | Raise _ => (Ok false, files)
    end
  /\ frombuffer_int16 (frames file) = Ok samples.
Proof.
  cbv zeta. intros Hs. split; [|now apply frombuffer_tobytes].
  assert (E : map (to_int16 cast_out_of_range) (normalize samples) = samples).
  { unfold normalize. rewrite map_map.
    induction Hs as [|x samples Hx _ IH]; [reflexivity|].
    cbn [map]. rewrite IH. f_equal.
    unfold to_int16. rewrite (int16_survives x Hx).
    unfold int16 in Hx.
    destruct (Z.leb_spec (-32768) x); [|lia].
    destruct (Z.leb_spec x 32767); [reflexivity | lia]. }
  unfold save_audio_chunk, try_except, bind, lift, modify, ret. rewrite E.
  change Config.CHANNELS with 1. change Config.SAMPLE_RATE with 16000.
  destruct (wave_write _) as [[]|e]; reflexivity.
Qed.

End BufferExtras.

Section BufferExamples.
Import Audio.

Lemma multiples_of_256_read_as_silence_witness :
  get_audio_chunk 0.001 (with_buffer (repeat 25600 16))
  = (Ok None, with_buffer (repeat 25600 16)).
Proof.
  apply (multiples_of_256_read_as_silence 0.001 (with_buffer (repeat 25600 16)) 16).
  - vm_compute. reflexivity.
  - cbn. lia.
  - vm_compute. discriminate.
  - cbn. repeat constructor.
Defined.

Lemma saved_chunk_holds_the_samples_witness :
  save_audio_chunk (fun _ => 0) (fun _ => Ok tt) (normalize [1000; -2000]) "q.wav" []
  = (Ok true, [{| filepath := "./temp/q.wav"; nchannels := 1; sampwidth := 2;
                  framerate := 16000; frames := tobytes [1000; -2000] |}]).
Proof.
  destruct (saved_chunk_holds_the_samples (fun _ => 0) (fun _ => Ok tt)
              [1000; -2000] "q.wav" []) as [H _].
  - unfold int16. repeat constructor; lia.
  - exact H.
Defined.

End BufferExamples.

(* ===================================================================== *)
(** * More of transcriber.py *)
(* ===================================================================== *)

Section EngineFacts.
Import Transcriber.

Variable path_exists : string -> bool.
Variable command_answers : string -> bool.

Let available (path : string) : bool := path_exists path || command_answers path.

(** The loop of [_check_whisper_cpp]: the first path that is available is
    stored, and the paths after it are not probed. *)
Lemma check_paths_run paths : forall st,
  check_paths path_exists command_answers paths st
  = (Ok (existsb available paths),
     {| self := match find available paths with
                | Some path => {| model := model (self st);
                                  whisper_cpp_path := Some path;
                                  model_loaded := model_loaded (self st) |}
                | None => self st
                end;
        ticks := ticks st;
        actions := (actions st ++ map Probe (probed available paths))%list |}).
Proof.
  induction paths as [|path rest IH]; intros st.
  - destruct st. cbn. now rewrite app_nil_r.
  - cbn [check_paths existsb find probed map].
    unfold bind at 1. unfold act at 1. unfold bind at 1. cbn [modify lift].
    fold (available path). destruct (available path) eqn:E.
    + reflexivity.
    + rewrite IH. cbn [self ticks actions orb]. now rewrite <- app_assoc.
Qed.

Lemma initialize_whisper_run load_model :
  _initialize_whisper load_model path_exists command_answers init
  = (Ok tt,
     {| self := match load_model with
                | Ok m => {| model := Some m; whisper_cpp_path := None;
                             model_loaded := true |}
                | Raise _ => {| model := None;
                                whisper_cpp_path := find available possible_paths;
                                model_loaded := false |}
                end;
        ticks := 0;
        actions := LoadModel :: match load_model with
                                | Ok _ => []
                                | Raise _ => map Probe (probed available possible_paths)
                                end |}).
Proof.
  unfold _initialize_whisper, try_except, _check_whisper_cpp, act.
  unfold bind, modify, lift.
  destruct load_model as [m|e]; [reflexivity|]. cbv beta iota.
  rewrite check_paths_run. cbn [self ticks actions init app ret].
  now destruct (find available possible_paths).
Qed.

(** A path that is found is a non-empty string, as the candidates are. *)
Lemma find_possible_path :
  match find available possible_paths with
  | Some path => truthy (Some path) = true
                 /\ existsb available possible_paths = true
  | None => existsb available possible_paths = false
  end.
Proof.
  assert (H : forall paths,
    (forall path, In path paths -> path <> "") ->
    match find available paths with
    | Some path => truthy (Some path) = true /\ existsb available paths = true
    | None => existsb available paths = false
    end).
  { induction paths as [|path rest IH]; intros Hne; [reflexivity|].
    cbn [find existsb]. destruct (available path) eqn:E.
    - split; [|reflexivity]. cbn.
      destruct path; [now destruct (Hne "" (or_introl eq_refl)) | reflexivity].
    - apply IH. intros q Hq. apply Hne. now right. }
  apply H. intros q Hq. cbn in Hq. intuition (subst; discriminate).
Qed.

End EngineFacts.

Section PrimaryFacts.
Import Transcriber.

Variable clock : nat -> float.
Variable model_transcribe : list float -> result pyval.
Variable write_wav : string -> list float -> result unit.
Variable subprocess_run : list string -> result completed.
Variable os_remove : string -> result unit.

(** The primary engine: its answer depends on the chunk alone, and the
    model's call is all that happens outside the process. *)
Lemma transcribe_primary_answer audio st :
  primary_ready (self st) = true ->
  exists n,
    transcribe_audio clock model_transcribe write_wav subprocess_run os_remove audio st
    = (Ok (python_answer model_transcribe audio), after_actions n [ModelTranscribe] st).
Proof.
  intros Hp. rewrite (transcribe_primary _ _ _ _ _ _ _ Hp).
  unfold try_except, whisper_python_body, python_answer.
  unfold bind at 1. unfold act at 1. unfold bind at 1. cbn [modify lift].
  destruct (model_transcribe audio) as [result|e]; [|exists 1%nat; reflexivity].
  unfold bind, lift. cbn [rbind].
  destruct (py_get result "text" (PStr "")) as [text|e]; [|exists 1%nat; reflexivity].
  cbn [rbind].
  destruct (py_strip text) as [transcript|e]; [|exists 1%nat; reflexivity].
  cbn [rbind].
  destruct (py_get result "segments" (PList [])) as [segments|e];
    [|exists 1%nat; reflexivity].
  cbn [rbind].
  destruct (_calculate_confidence segments) as [confidence|e];
    [|exists 1%nat; reflexivity].
  exists 2%nat. reflexivity.
Qed.

End PrimaryFacts.

Section EngineExtras.
Import Transcriber.

Variable clock : nat -> float.
Variable load_model : result nat.
Variable path_exists : string -> bool.
Variable command_answers : string -> bool.
Variable model_transcribe : list float -> result pyval.
Variable write_wav : string -> list float -> result unit.
Variable subprocess_run : list string -> result completed.
Variable os_remove : string -> result unit.

Let transcribe := transcribe_audio clock model_transcribe write_wav subprocess_run os_remove.

(** X17.  [__init__] settles the engine: when the speech model loads, it
    is the engine and no path is probed; when the loading raises, the
    candidate paths are probed in their order up to the first one that
    exists or answers as a command, which becomes the fallback engine.
    Afterwards [is_ready] says true exactly when one of the two is there,
    and it agrees with the tests [transcribe_audio] makes. *)
Theorem initialize_whisper_settles_the_engine :
  let available path := path_exists path || command_answers path in
  let run := _initialize_whisper load_model path_exists command_answers init in
  fst run = Ok tt
  /\ self (snd run)
     = match load_model with
       | Ok m => {| model := Some m; whisper_cpp_path := None; model_loaded := true |}
       | Raise _ => {| model := None;
                       whisper_cpp_path := find available possible_paths;
                       model_loaded := false |}
       end
  /\ actions (snd run)
     = LoadModel :: match load_model with
                    | Ok _ => []
                    | Raise _ => map Probe (probed available possible_paths)
                    end
  /\ is_ready (self (snd run))
     = match load_model with
       | Ok _ => true
       | Raise _ => existsb available possible_paths
       end
  /\ is_ready (self (snd run))
     = primary_ready (self (snd run)) || truthy (whisper_cpp_path (self (snd run))).
Proof.
  cbv zeta. rewrite initialize_whisper_run. cbn [fst snd self actions].
  split; [reflexivity|]. split; [reflexivity|]. split; [reflexivity|].
  destruct load_model as [m|e]; [split; reflexivity|].
  pose proof (find_possible_path path_exists command_answers) as Hfind.
  cbv beta in Hfind.
  destruct (find _ possible_paths) as [path|].
  - destruct Hfind as [Ht He].
    cbn [is_ready primary_ready model_loaded whisper_cpp_path orb andb].
    now rewrite He, Ht.
  - now rewrite Hfind.
Qed.

(** X18.  The primary engine works alone: with a loaded model,
    [transcribe_audio] asks the model once and does nothing else outside
    the process, whatever the model returns or raises: no wav file is
    written, no subprocess is run, nothing is removed, and the
    transcriber's fields are as before. *)
Theorem primary_engine_touches_no_file audio st :
  primary_ready (self st) = true ->
  exists r n, transcribe audio st = (Ok r, after_actions n [ModelTranscribe] st).
Proof.
  intros Hp.
  destruct (transcribe_primary_answer clock model_transcribe write_wav subprocess_run
              os_remove audio st Hp) as [n H].
  unfold transcribe. rewrite H. eauto.
Qed.

(** X19.  The fallback engine, when the wav file is written and the
    subprocess returns: the answer is the trimmed output with confidence
    0.8 for exit code 0 and ("", 0.0) otherwise; the temp file is written,
    the command is run on it and its removal is attempted once, in this
    order; and whether [os.remove] succeeds or raises changes nothing of
    this. *)
Theorem fallback_engine_runs_and_cleans_up audio st stamp r :
  primary_ready (self st) = false ->
  truthy (whisper_cpp_path (self st)) = true ->
  int_of_float (clock (S (ticks st))) = Ok stamp ->
  let temp_file := temp_file_name stamp in
  let cmd := whisper_cpp_command (whisper_cpp_path (self st)) temp_file in
  write_wav temp_file audio = Ok tt ->
  subprocess_run cmd = Ok r ->
  transcribe audio st
  = (Ok (if returncode r =? 0 then (strip (stdout r), 0.8%float) else ("", 0%float)),
     after_actions (if returncode r =? 0 then 3 else 2)
                   [WriteWav temp_file; Run cmd; Remove temp_file] st).
Proof.
  cbv zeta. intros Hp Hc Hstamp Hwav Hrun.
  unfold transcribe. rewrite (transcribe_cpp _ _ _ _ _ _ _ Hp Hc).
  unfold try_except, whisper_cpp_body.
  unfold bind at 1. cbn [get]. unfold bind at 1. unfold time_time at 1.
  unfold bind at 1. cbn [get]. unfold bind at 1. cbn [modify ret].
  cbn [tick ticks]. unfold bind at 1. unfold lift at 1. rewrite Hstamp.
  unfold bind at 1. unfold act at 1. unfold bind at 1. cbn [modify lift].
  cbn [tick self]. rewrite Hwav.
  unfold bind at 1. unfold act at 1. unfold bind at 1. cbn [modify lift].
  rewrite Hrun.
  unfold bind at 1. unfold try_except, act. unfold bind at 1. cbn [modify lift].
  unfold after_actions. cbn [self ticks actions].
  destruct (os_remove (temp_file_name stamp)) as [[]|e];
    destruct (returncode r =? 0);
    unfold bind, time_time, get, modify, ret; cbn [self ticks actions tick Nat.add];
    rewrite <- !app_assoc; reflexivity.
Qed.

(** X20.  The temp file outlives a failed run: when the wav file is
    written and [subprocess.run] raises (its timeout among the cases),
    [transcribe_audio] returns ("", 0.0) and [os.remove] is never called. *)
Theorem temp_file_is_left_behind_when_the_run_raises audio st stamp e :
  primary_ready (self st) = false ->
  truthy (whisper_cpp_path (self st)) = true ->
  int_of_float (clock (S (ticks st))) = Ok stamp ->
  let temp_file := temp_file_name stamp in
  let cmd := whisper_cpp_command (whisper_cpp_path (self st)) temp_file in
  write_wav temp_file audio = Ok tt ->
  subprocess_run cmd = Raise e ->
  transcribe audio st
  = (Ok ("", 0%float), after_actions 2 [WriteWav temp_file; Run cmd] st).
Proof.
  cbv zeta. intros Hp Hc Hstamp Hwav Hrun.
  unfold transcribe. rewrite (transcribe_cpp _ _ _ _ _ _ _ Hp Hc).
  unfold try_except, whisper_cpp_body.
  unfold bind at 1. cbn [get]. unfold bind at 1. unfold time_time at 1.
  unfold bind at 1. cbn [get]. unfold bind at 1. cbn [modify ret].
  cbn [tick ticks]. unfold bind at 1. unfold lift at 1. rewrite Hstamp.
  unfold bind at 1. unfold act at 1. unfold bind at 1. cbn [modify lift].
  cbn [tick self]. rewrite Hwav.
  unfold bind at 1. unfold act at 1. unfold bind at 1. cbn [modify lift].
  rewrite Hrun.
  unfold after_actions, ret. cbn [self ticks actions Nat.add].
  rewrite <- !app_assoc. reflexivity.
Qed.

End EngineExtras.

Section ConfidenceExtras.
Import Transcriber.

Lemma ltb_leb x y : (x <? y)%float = true -> (x <=? y)%float = true.
Proof.
  rewrite FloatAxioms.ltb_spec, FloatAxioms.leb_spec. unfold SFltb, SFleb.
  destruct (SFcompare (Prim2SF x) (Prim2SF y)) as [[]|]; auto.
Qed.

Lemma clamp_in_range x :
  (0 <=? py_min 1 (py_max 0 x))%float = true
  /\ (py_min 1 (py_max 0 x) <=? 1)%float = true.
Proof.
  unfold py_min, py_max.
  destruct (0 <? x)%float eqn:E0.
  - destruct (x <? 1)%float eqn:E1.
    + split; now apply ltb_leb.
    + split; reflexivity.
  - change (0 <? 1)%float with true. cbv iota. split; reflexivity.
Qed.

(** X21.  Every confidence that enters the mean of
    [_calculate_confidence] is clamped: it is a number of [0, 1], also
    when [avg_logprob + 1.0] is negative, above 1, infinite or [nan]. *)
Theorem segment_confidences_are_clamped segments : forall confidences,
  confidences_of segments = Ok confidences ->
  Forall (fun c => (0 <=? c)%float = true /\ (c <=? 1)%float = true) confidences.
Proof.
  induction segments as [|segment rest IH]; intros confidences H.
  - injection H as <-. constructor.
  - cbn [confidences_of] in H.
    destruct (py_in "avg_logprob" segment) as [[]|e]; cbn [rbind] in H;
      [|now apply IH|discriminate].
    destruct (py_getitem segment "avg_logprob") as [v|e]; cbn [rbind] in H;
      [|discriminate].
    destruct (py_add_one v) as [x|e]; cbn [rbind] in H; [|discriminate].
    destruct (confidences_of rest) as [more|e]; cbn [rbind] in H; [|discriminate].
    injection H as <-. constructor; [apply clamp_in_range | now apply IH].
Qed.

End ConfidenceExtras.

Section EngineExamples.
Import Transcriber.

Lemma primary_engine_touches_no_file_witness :
  exists r n,
    transcribe_audio seconds (model_hears "hello there") wav_written run_times_out
      remove_fails [0.5%float] (with_engine (Some 1%nat) None true)
    = (Ok r, after_actions n [ModelTranscribe] (with_engine (Some 1%nat) None true)).
Proof.
  apply (primary_engine_touches_no_file seconds (model_hears "hello there") wav_written
           run_times_out remove_fails [0.5%float] (with_engine (Some 1%nat) None true)).
  reflexivity.
Defined.

Lemma fallback_engine_runs_and_cleans_up_witness :
  fst (transcribe_audio seconds model_fails wav_written (run_prints " What is SQL? ")
         remove_fails [0.5%float] (with_engine None (Some "whisper-cpp") false))
  = Ok ("What is SQL?", 0.8%float).
Proof.
  rewrite (fallback_engine_runs_and_cleans_up seconds model_fails wav_written
             (run_prints " What is SQL? ") remove_fails [0.5%float]
             (with_engine None (Some "whisper-cpp") false) 1
             {| returncode := 0; stdout := " What is SQL? "; stderr := "" |}
             eq_refl eq_refl eq_refl eq_refl eq_refl).
  reflexivity.
Defined.

Lemma temp_file_is_left_behind_when_the_run_raises_witness :
  actions (snd (transcribe_audio seconds model_fails wav_written run_times_out removed
                  [0.5%float] (with_engine None (Some "whisper-cpp") false)))
  = [WriteWav (temp_file_name 1);
     Run (whisper_cpp_command (Some "whisper-cpp") (temp_file_name 1))].
Proof.
  rewrite (temp_file_is_left_behind_when_the_run_raises seconds model_fails wav_written
             run_times_out removed [0.5%float]
             (with_engine None (Some "whisper-cpp") false) 1 TimeoutExpired
             eq_refl eq_refl eq_refl eq_refl eq_refl).
  reflexivity.
Defined.

Lemma segment_confidences_are_clamped_witness :
  Forall (fun c => (0 <=? c)%float = true /\ (c <=? 1)%float = true)
         [0%float; 1%float; 0.5%float].
Proof.
  apply (segment_confidences_are_clamped
           [PDict [("avg_logprob", PFloat (-3)%float)];
            PDict [("avg_logprob", PFloat 0.25%float)];
            PDict [("no_speech_prob", PFloat 0.1%float)];
            PDict [("avg_logprob", PFloat (-0.5)%float)]]).
  vm_compute. reflexivity.
Defined.

End EngineExamples.

(* ===================================================================== *)
(** * More of main.py: the thread *)
(* ===================================================================== *)

Section ThreadFacts.
Import Main.

Variable upper : string -> string.
Variable pa : Audio.PyAudio.
Variable clock : nat -> float.
Variable model_transcribe : list float -> result pyval.
Variable write_wav : string -> list float -> result unit.
Variable subprocess_run : list string -> result Transcriber.completed.
Variable os_remove : string -> result unit.

Let poll_once := poll clock model_transcribe write_wav subprocess_run os_remove.

Lemma set_audio_manager_same t : set_audio_manager (audio_manager t) t = t.
Proof. now destruct t. Qed.

(** The chunk a pass of the loop gets: the manager is left as it is. *)
Lemma poll_chunk a :
  exists chunk, Audio.get_audio_chunk Config.CHUNK_DURATION a = (Ok chunk, a).
Proof. rewrite (get_audio_chunk_run _ _ _ chunk_samples). eauto. Qed.

(** The deliveries of the capture thread change the manager only. *)
Lemma deliver_run blocks : forall t,
  exists a, deliver blocks t = (Ok tt, set_audio_manager a t).
Proof.
  induction blocks as [|in_data rest IH]; intros t.
  - exists (audio_manager t). cbn [deliver]. unfold ret.
    now rewrite set_audio_manager_same.
  - cbn [deliver]. unfold bind at 1. unfold try_except, in_audio.
    destruct (Audio._audio_callback in_data (audio_manager t)) as [[[]|e] a1].
    + destruct (IH (set_audio_manager a1 t)) as [a2 H2]. rewrite H2.
      now exists a2.
    + cbn [ret]. destruct (IH (set_audio_manager a1 t)) as [a2 H2]. rewrite H2.
      now exists a2.
Qed.

Lemma stop_run t :
  exists a, stop pa t = (Ok tt, set_audio_manager a (set_running false t)).
Proof.
  unfold stop, bind, modify, in_audio.
  destruct (stop_recording_total pa (audio_manager (set_running false t))) as [a H].
  rewrite H. now exists a.
Qed.

End ThreadFacts.

Section ThreadExtras.
Import Main.

Variable upper : string -> string.
Variable pa : Audio.PyAudio.
Variable clock : nat -> float.
Variable model_transcribe : list float -> result pyval.
Variable write_wav : string -> list float -> result unit.
Variable subprocess_run : list string -> result Transcriber.completed.
Variable os_remove : string -> result unit.

Let transcribe :=
  Transcriber.transcribe_audio clock model_transcribe write_wav subprocess_run os_remove.
Let poll_once := poll clock model_transcribe write_wav subprocess_run os_remove.
Let loop_over := loop pa clock model_transcribe write_wav subprocess_run os_remove.
Let run_over := run upper pa clock model_transcribe write_wav subprocess_run os_remove.

(** X22.  [run] refuses to start.  Without an engine (the transcriber is
    not ready) it emits the error "Transcriber not ready" and returns: the
    audio manager and PyAudio are not touched.  With an engine, when
    [start_recording] returns [False], it emits the error "Failed to start
    audio recording" and returns: [stop_recording] is not called.  In both
    cases no status "listening" is emitted and nothing is polled, whatever
    the schedule. *)
Theorem run_refuses_to_start schedule t :
  let ready := Transcriber.is_ready (Transcriber.self (transcriber t)) in
  let start := Audio.start_recording upper pa thread_callback (audio_manager t) in
  ready = false \/ fst start = Ok false ->
  run_over schedule t
  = (Ok tt,
     if ready
     then with_emitted [ErrorOccurred FailedToStart]
            (set_audio_manager (snd start) (set_running true t))
     else with_emitted [ErrorOccurred TranscriberNotReady] (set_running true t)).
Proof.
  cbv zeta. intros H.
  unfold run_over, run, emit. unfold bind, modify, get, in_audio.
  change (transcriber (set_running true t)) with (transcriber t).
  destruct (Transcriber.is_ready (Transcriber.self (transcriber t))); [|reflexivity].
  destruct H as [H|H]; [discriminate|]. cbn [negb].
  change (audio_manager (set_running true t)) with (audio_manager t).
  destruct (Audio.start_recording upper pa thread_callback (audio_manager t))
    as [r a]. cbn [fst snd] in *. subst r. reflexivity.
Qed.

(** X23.  A pass of the loop never raises and does not consume the
    audio: it returns with the running flag, the processing flag and the
    audio manager, its buffer among the rest, as they were, and with the
    signals of before followed by those of this pass.  While a chunk is
    being processed, or while the buffer holds less than 3 seconds (48000
    samples), the pass is idle: nothing is emitted and the transcriber is
    not called. *)
Theorem poll_returns_and_keeps_the_buffer t :
  exists w new,
    poll_once t
    = (Ok tt,
       {| audio_manager := audio_manager t; transcriber := w; running := running t;
          processing := processing t; emitted := (emitted t ++ new)%list |})
    /\ (processing t = true
        \/ Z.of_nat (List.length (Audio.audio_buffer (Audio.self (audio_manager t))))
           < 48000 ->
        w = transcriber t /\ new = []).
Proof.
  assert (Hidle : forall t0 : AudioProcessingThread,
            t0 = {| audio_manager := audio_manager t0; transcriber := transcriber t0;
                    running := running t0; processing := processing t0;
                    emitted := (emitted t0 ++ [])%list |})
    by (intros []; cbn; now rewrite app_nil_r).
  destruct (processing t) eqn:Hp.
  { exists (transcriber t), []. split; [|auto].
    unfold poll_once, poll, bind, get. rewrite Hp. cbn [negb ret].
    rewrite (Hidle t) at 1. now rewrite Hp. }
  assert (Hnone : forall chunk,
            Audio.get_audio_chunk Config.CHUNK_DURATION (audio_manager t)
            = (Ok chunk, audio_manager t) ->
            match chunk with Some (_ :: _) => False | _ => True end ->
            poll_once t
            = (Ok tt,
               {| audio_manager := audio_manager t; transcriber := transcriber t;
                  running := running t; processing := false;
                  emitted := (emitted t ++ [])%list |})).
  { intros chunk Hchunk Hc.
    unfold poll_once, poll, bind, get, in_audio. rewrite Hp. cbn [negb].
    rewrite Hchunk. rewrite set_audio_manager_same.
    rewrite (Hidle t) at 1. rewrite Hp.
    destruct chunk as [[|x chunk]|]; [reflexivity | contradiction | reflexivity]. }
  destruct (poll_chunk (audio_manager t)) as [chunk Hchunk].
  destruct chunk as [[|x chunk]|].
  - exists (transcriber t), []. split; [now apply (Hnone (Some [])) | auto].
  - destruct (transcribe_audio_total clock model_transcribe write_wav subprocess_run
                os_remove (x :: chunk) (transcriber t))
      as (text & confidence & w & Htr).
    exists w, (signals_of text confidence). split.
    + apply (poll_run clock model_transcribe write_wav subprocess_run os_remove
               t (x :: chunk) (audio_manager t) text confidence w Hp Hchunk);
        [discriminate | exact Htr].
    + intros [H|H]; [discriminate|].
      rewrite (get_audio_chunk_run _ _ _ chunk_samples) in Hchunk.
      destruct (Z.ltb_spec (Z.of_nat (List.length
                  (Audio.audio_buffer (Audio.self (audio_manager t))))) 48000);
        [discriminate | lia].
  - exists (transcriber t), []. split; [now apply (Hnone None) | auto].
Qed.

(** X25.  The same audio is transcribed again at the next pass.  A pass
    does not consume the chunk it takes: with the primary engine, two
    passes in a row with no audio delivered in between submit the same
    chunk to the model twice and emit the same signals twice. *)
Theorem same_audio_is_transcribed_again_at_the_next_pass t chunk a :
  processing t = false ->
  Transcriber.primary_ready (Transcriber.self (transcriber t)) = true ->
  Audio.get_audio_chunk Config.CHUNK_DURATION (audio_manager t) = (Ok (Some chunk), a) ->
  chunk <> [] ->
  let answer := Transcriber.python_answer model_transcribe chunk in
  let signals := signals_of (fst answer) (snd answer) in
  exists t2,
    bind poll_once (fun _ => poll_once) t = (Ok tt, t2)
    /\ emitted t2 = (emitted t ++ signals ++ signals)%list
    /\ Transcriber.actions (transcriber t2)
       = (Transcriber.actions (transcriber t)
          ++ [Transcriber.ModelTranscribe; Transcriber.ModelTranscribe])%list.
Proof.
  cbv zeta. intros Hp Hready Hchunk Hne.
  assert (Ha : a = audio_manager t).
  { destruct (poll_chunk (audio_manager t)) as [c Hc]. congruence. }
  subst a.
  destruct (transcribe_primary_answer clock model_transcribe write_wav subprocess_run
              os_remove chunk (transcriber t) Hready) as [n1 H1].
  destruct (Transcriber.python_answer model_transcribe chunk) as [text confidence] eqn:Ea.
  pose proof (poll_run clock model_transcribe write_wav subprocess_run os_remove
                t chunk (audio_manager t) text confidence _ Hp Hchunk Hne H1) as Hpoll1.
  set (t1 := {| audio_manager := audio_manager t;
                transcriber := Transcriber.after_actions n1
                                 [Transcriber.ModelTranscribe] (transcriber t);
                running := running t; processing := false;
                emitted := (emitted t ++ signals_of text confidence)%list |}) in *.
  destruct (transcribe_primary_answer clock model_transcribe write_wav subprocess_run
              os_remove chunk (transcriber t1) Hready) as [n2 H2].
  rewrite Ea in H2.
  pose proof (poll_run clock model_transcribe write_wav subprocess_run os_remove
                t1 chunk (audio_manager t) text confidence _ eq_refl Hchunk Hne H2)
    as Hpoll2.
  eexists. split.
  - unfold bind. fold poll_once in Hpoll1, Hpoll2. rewrite Hpoll1. exact Hpoll2.
  - cbn [emitted transcriber t1 fst snd Transcriber.after_actions Transcriber.actions].
    rewrite <- !app_assoc. split; reflexivity.
Qed.

(** X26.  A stop request ends the loop: in an interval in which [stop] is
    called, the blocks captured are delivered first, then the running flag
    is cleared and [stop_recording] is called on the manager the
    deliveries have left, and the loop is left without another pass; the
    rest of the schedule is not run, nothing is emitted and the
    transcriber is not called. *)
Theorem stop_request_ends_the_loop i rest t :
  stop_called i = true ->
  let delivered := snd (deliver (captured i) t) in
  loop_over (i :: rest) t
  = (Ok true,
     {| audio_manager := snd (Audio.stop_recording pa (audio_manager delivered));
        transcriber := transcriber t; running := false;
        processing := processing t; emitted := emitted t |}).
Proof.
  intros Hstop. cbv zeta. unfold loop_over. cbn [loop]. unfold between_polls.
  rewrite Hstop.
  destruct (deliver_run (captured i) t) as [a1 H1]. rewrite H1. cbn [snd].
  unfold bind at 1. unfold bind at 1. rewrite H1.
  unfold stop, bind, modify, in_audio, get.
  cbn [set_running set_audio_manager audio_manager transcriber running processing
       emitted].
  destruct (stop_recording_total pa a1) as [a2 H2]. rewrite H2. reflexivity.
Qed.

End ThreadExtras.

Section ThreadExamples.
Import Main.

Lemma run_refuses_to_start_witness :
  run ascii_upper Audio.one_device Transcriber.seconds Transcriber.model_fails
      Transcriber.wav_written Transcriber.run_times_out Transcriber.removed
      [stop_now] idle
  = (Ok tt, with_emitted [ErrorOccurred TranscriberNotReady] (set_running true idle))
  /\ emitted (snd (run ascii_upper Audio.no_device Transcriber.seconds
                       Transcriber.model_fails Transcriber.wav_written
                       Transcriber.run_times_out Transcriber.removed
                       [stop_now] listening))
     = [StatusChanged "listening"; ErrorOccurred FailedToStart].
Proof.
  split.
  - apply (run_refuses_to_start ascii_upper Audio.one_device Transcriber.seconds
             Transcriber.model_fails Transcriber.wav_written Transcriber.run_times_out
             Transcriber.removed [stop_now] idle).
    left. reflexivity.
  - rewrite (run_refuses_to_start ascii_upper Audio.no_device Transcriber.seconds
               Transcriber.model_fails Transcriber.wav_written Transcriber.run_times_out
               Transcriber.removed [stop_now] listening).
    + reflexivity.
    + right. lazy. reflexivity.
Defined.

Lemma poll_returns_and_keeps_the_buffer_witness :
  poll Transcriber.seconds Transcriber.model_fails Transcriber.wav_written
       Transcriber.run_times_out Transcriber.removed idle
  = (Ok tt, idle).
Proof.
  destruct (poll_returns_and_keeps_the_buffer Transcriber.seconds Transcriber.model_fails
              Transcriber.wav_written Transcriber.run_times_out Transcriber.removed idle)
    as (w & new & Hrun & Hidle).
  destruct Hidle as [-> ->]; [right; cbn; lia|].
  exact Hrun.
Defined.

Lemma same_audio_is_transcribed_again_at_the_next_pass_witness :
  exists t2,
    bind (poll Transcriber.seconds (Transcriber.model_hears " What is overfitting? ")
               Transcriber.wav_written Transcriber.run_times_out Transcriber.removed)
         (fun _ =>
            poll Transcriber.seconds (Transcriber.model_hears " What is overfitting? ")
                 Transcriber.wav_written Transcriber.run_times_out Transcriber.removed)
         listening
    = (Ok tt, t2)
    /\ emitted t2
       = [StatusChanged "listening";
          StatusChanged "processing"; TranscriptionReady "What is overfitting?" 0.5;
          StatusChanged "processing"; TranscriptionReady "What is overfitting?" 0.5].
Proof.
  destruct (same_audio_is_transcribed_again_at_the_next_pass
              Transcriber.seconds (Transcriber.model_hears " What is overfitting? ")
              Transcriber.wav_written Transcriber.run_times_out Transcriber.removed
              listening (Audio.normalize tone) (audio_manager listening)
              eq_refl eq_refl tone_is_extracted tone_chunk_not_empty)
    as (t2 & Hrun & Hemitted & _).
  exists t2. split; [exact Hrun|]. rewrite Hemitted. lazy. reflexivity.
Defined.

Lemma stop_request_ends_the_loop_witness :
  loop Audio.one_device Transcriber.seconds Transcriber.model_fails
       Transcriber.wav_written Transcriber.run_times_out Transcriber.removed
       [stop_now; quiet] capturing
  = (Ok true,
     {| audio_manager :=
          {| Audio.self :=
               {| Audio.stream := Some 7%nat; Audio.device_index := Some 2;
                  Audio.is_recording := false;
                  Audio.audio_buffer := [12; -7; 300]; Audio.callbacks := [] |};
             Audio.calls :=
               [Audio.GetDeviceCount; Audio.GetDeviceInfoByIndex 0;
                Audio.GetDeviceInfoByIndex 1; Audio.GetDeviceInfoByIndex 2;
                Audio.Open 2; Audio.StartStream 7%nat;
                Audio.StopStream 7%nat; Audio.Close 7%nat] |};
        transcriber := transcriber capturing; running := false;
        processing := false; emitted := [StatusChanged "listening"] |}).
Proof.
  exact (stop_request_ends_the_loop Audio.one_device Transcriber.seconds
           Transcriber.model_fails Transcriber.wav_written Transcriber.run_times_out
           Transcriber.removed stop_now [quiet] capturing eq_refl).
Defined.

End ThreadExamples.

(* ===================================================================== *)
(** * More of main.py: the application *)
(* ===================================================================== *)

Section AnswerFacts.
Import AI.

(** With non-empty answers in the cache, what [get_response] returns is a
    non-empty string. *)
Lemma get_response_nonempty question context st a m t st1 :
  cache_ok (response_cache (self st)) ->
  get_response question context st = (Ok (a, m, t), st1) ->
  is_empty a = false.
Proof.
  intros Hok Hrun.
  destruct (dict_get (_get_cache_key question context) (response_cache (self st)))
    as [cached|] eqn:E.
  - rewrite (get_response_hit _ _ _ _ E) in Hrun. injection Hrun as <- _ _ _.
    apply dict_get_In in E. unfold cache_ok in Hok. rewrite Forall_forall in Hok.
    exact (Hok _ E).
  - rewrite (get_response_miss _ _ _ E) in Hrun. injection Hrun as <- _ _ _.
    apply settle_nonempty.
Qed.

End AnswerFacts.

Section AppExtras.
Import App.

Variable outcome : event -> result unit.

Ltac app_simpl :=
  cbn [logged set_last_answer set_overlay_last_answer set_ai_handler
       ai_handler overlay_last_answer last_question last_answer ENABLE_TTS events].

(** X27.  An answer is shown, spoken and logged.  With non-empty answers
    in the cache and collaborators that return, [get_ai_response] asks the
    AI handler once, in the context "data_science", keeps its answer as
    the last answer, shows "Q: <question>", an empty line and
    "AI: <answer>" on the overlay, has the answer spoken when TTS is
    enabled and only then, logs the question with the answer, the model
    and the response time, and sets the status back to "listening". *)
Theorem answer_is_shown_spoken_and_logged question app a m t st1 :
  (forall e, outcome e = Ok tt) ->
  AI.cache_ok (AI.response_cache (AI.self (ai_handler app))) ->
  AI.get_response question "data_science" (ai_handler app) = (Ok (a, m, t), st1) ->
  exists app',
    get_ai_response outcome question app = (Ok tt, app')
    /\ ai_handler app' = st1
    /\ last_answer app' = a
    /\ overlay_last_answer app' = display_text question a
    /\ events app'
       = (events app
          ++ UpdateText (display_text question a)
             :: (if ENABLE_TTS app then [Speak a] else [])
          ++ [LogQA question a m t; SetStatus "listening" "#ffff00"])%list
    /\ last_question app' = last_question app
    /\ ENABLE_TTS app' = ENABLE_TTS app.
Proof.
  intros Hout Hok Hrun.
  pose proof (get_response_nonempty _ _ _ _ _ _ _ Hok Hrun) as Hne.
  unfold get_ai_response, Main.try_finally, try_except.
  unfold bind at 1. unfold in_ai at 1. rewrite Hrun. rewrite Hne. cbn [negb].
  unfold overlay_update_text, do. unfold bind, modify, lift, get.
  rewrite !Hout. app_simpl.
  destruct (ENABLE_TTS app) eqn:Etts; rewrite ?Hout; unfold ret; rewrite ?Hout;
    eexists; (split; [reflexivity|]); app_simpl;
    rewrite <- ?app_assoc; repeat split; exact Etts.
Qed.

Lemma adds_ret ok {A} (a : A) : adds ok (ret a).
Proof. intros app. exists []. cbn. now rewrite app_nil_r. Qed.

Lemma adds_bind ok {A B} (c : M StealthAIApplication A)
    (k : A -> M StealthAIApplication B) :
  adds ok c -> (forall a, adds ok (k a)) -> adds ok (bind c k).
Proof.
  intros Hc Hk app. unfold bind.
  destruct (Hc app) as (new1 & E1 & F1).
  destruct (c app) as [[a|e] app1]; cbn [snd] in *.
  - destruct (Hk a app1) as (new2 & E2 & F2).
    exists (new1 ++ new2)%list. rewrite E2, E1, app_assoc.
    split; [reflexivity | now apply Forall_app].
  - now exists new1.
Qed.

Lemma adds_try_except ok {A} (body : M StealthAIApplication A) handler :
  adds ok body -> (forall e, adds ok (handler e)) -> adds ok (try_except body handler).
Proof.
  intros Hb Hh app. unfold try_except.
  destruct (Hb app) as (new1 & E1 & F1).
  destruct (body app) as [[a|e] app1]; cbn [snd] in *.
  - now exists new1.
  - destruct (Hh e app1) as (new2 & E2 & F2).
    exists (new1 ++ new2)%list. rewrite E2, E1, app_assoc.
    split; [reflexivity | now apply Forall_app].
Qed.

Lemma adds_modify ok f :
  (forall app, events (f app) = events app) -> adds ok (modify f).
Proof.
  intros H app. exists []. cbn. now rewrite H, app_nil_r.
Qed.

Lemma adds_get ok : adds ok get.
Proof. intros app. exists []. cbn. now rewrite app_nil_r. Qed.

Lemma adds_do (ok : event -> Prop) e : ok e -> adds ok (do outcome e).
Proof.
  intros H app. exists [e]. unfold do, bind, modify, lift. cbn [snd logged events].
  split; [reflexivity | now constructor].
Qed.

Lemma adds_overlay_update_text (ok : event -> Prop) text :
  ok (UpdateText text) -> adds ok (overlay_update_text outcome text).
Proof.
  intros H. unfold overlay_update_text.
  apply adds_bind; [now apply adds_modify | intros _; now apply adds_do].
Qed.

(** X28.  The reply "Sorry, I couldn't generate a response" is never
    shown, and the status is always set back: with non-empty answers in
    the cache, whatever the collaborators do (each call may raise),
    [get_ai_response] adds no request for that text to what it asks of
    its collaborators, and the last thing it asks for is the status
    "listening". *)
Theorem sorry_is_never_shown_and_the_status_is_set_back question app :
  AI.cache_ok (AI.response_cache (AI.self (ai_handler app))) ->
  exists new,
    events (snd (get_ai_response outcome question app))
    = (events app ++ new ++ [SetStatus "listening" "#ffff00"])%list
    /\ Forall (fun e => e <> UpdateText sorry_text) new.
Proof.
  intros Hok.
  destruct (get_response_total question "data_science" (ai_handler app))
    as (a & m & t & st1 & Hrun).
  pose proof (get_response_nonempty _ _ _ _ _ _ _ Hok Hrun) as Hne.
  set (ok := fun e => e <> UpdateText sorry_text).
  assert (Hshown : ok (UpdateText (display_text question a)))
    by (intros H; injection H as H; discriminate H).
  assert (Herror : ok (UpdateText error_text))
    by (intros H; injection H as H; discriminate H).
  assert (Hbody : adds ok
    (bind (modify (set_last_answer a)) (fun _ =>
     bind (overlay_update_text outcome (display_text question a)) (fun _ =>
     bind get (fun app0 =>
     bind (if ENABLE_TTS app0 then do outcome (Speak a) else ret tt) (fun _ =>
     do outcome (LogQA question a m t))))))).
  { apply adds_bind; [now apply adds_modify|]. intros _.
    apply adds_bind; [now apply adds_overlay_update_text|]. intros _.
    apply adds_bind; [apply adds_get|]. intros app0.
    apply adds_bind.
    - destruct (ENABLE_TTS app0); [apply adds_do; discriminate | apply adds_ret].
    - intros _. apply adds_do. discriminate. }
  destruct (adds_try_except ok _ (fun _ => overlay_update_text outcome error_text)
              Hbody (fun _ => adds_overlay_update_text ok error_text Herror)
              (set_ai_handler st1 app)) as (new & Hnew & Hall).
  exists new. split; [|exact Hall].
  unfold get_ai_response, Main.try_finally.
  assert (Htry :
    try_except
      (bind (in_ai (AI.get_response question "data_science"))
         (fun x => let '(response, model_used, response_time) := x in
            if negb (is_empty response)
            then bind (modify (set_last_answer response)) (fun _ =>
                 bind (overlay_update_text outcome (display_text question response))
                   (fun _ =>
                 bind get (fun app0 =>
                 bind (if ENABLE_TTS app0 then do outcome (Speak response) else ret tt)
                   (fun _ =>
                 do outcome (LogQA question response model_used response_time)))))
            else overlay_update_text outcome sorry_text))
      (fun _ => overlay_update_text outcome error_text) app
    = try_except
        (bind (modify (set_last_answer a)) (fun _ =>
         bind (overlay_update_text outcome (display_text question a)) (fun _ =>
         bind get (fun app0 =>
         bind (if ENABLE_TTS app0 then do outcome (Speak a) else ret tt) (fun _ =>
         do outcome (LogQA question a m t))))))
        (fun _ => overlay_update_text outcome error_text) (set_ai_handler st1 app)).
  { unfold try_except at 1. unfold bind at 1. unfold in_ai at 1.
    rewrite Hrun. cbv beta iota. rewrite Hne. reflexivity. }
  rewrite Htry.
  destruct (try_except _ _ (set_ai_handler st1 app)) as [r app1].
  cbn [snd] in Hnew. cbn [set_ai_handler events] in Hnew.
  unfold do, bind, modify, lift.
  destruct (outcome (SetStatus "listening" "#ffff00")) as [[]|e];
    cbn [snd logged events]; now rewrite Hnew, app_assoc.
Qed.

(** X29.  The copy button copies the question too.  After an answer was
    shown, [overlay.copy_to_clipboard()] puts on the clipboard the whole
    text of the overlay, "Q: <question>", an empty line and
    "AI: <answer>": the text does not start with "AI: ", so that nothing
    is cut off. *)
Theorem copy_button_copies_the_question_too question answer app :
  (forall e, outcome e = Ok tt) ->
  overlay_last_answer app = display_text question answer ->
  overlay_copy_to_clipboard outcome [] app
  = (Ok tt, logged [ClipboardCopy (display_text question answer); CopyFeedback] app).
Proof.
  intros Hout Hshown.
  unfold overlay_copy_to_clipboard, try_except, do. unfold bind, modify, lift, get, ret.
  rewrite Hshown.
  change (is_empty (display_text question answer)) with false.
  change (prefix "AI: " (display_text question answer)) with false.
  cbn [negb]. rewrite !Hout.
  unfold logged. cbn [ai_handler overlay_last_answer last_question last_answer
                      ENABLE_TTS events].
  now rewrite <- app_assoc.
Qed.

End AppExtras.

Section HotkeyExtras.
Import App Hotkeys.

Variable outcome : event -> result unit.

(** X24.  The debounce window starts at the last press that was
    accepted.  For an action with a callback and no earlier press: a first
    press runs the callback and records its time; a second press less than
    [debounce_time] after the first is dropped, without recording its
    time; a third press that is not within [debounce_time] of the first
    runs the callback again, however close it is to the second.  No
    exception of the callback leaves the handler. *)
Theorem debounce_window_starts_at_the_last_accepted_press
    {S : Type} (t1 t2 t3 : float) action (hk : HotkeyManager S) (s : S) callback :
  dict_get action (callbacks hk) = Some callback ->
  dict_get action (last_press_time hk) = None ->
  (t2 - t1 <? debounce_time hk)%float = true ->
  (t3 - t1 <? debounce_time hk)%float = false ->
  bind (_handle_hotkey t1 action)
       (fun _ => bind (_handle_hotkey t2 action) (fun _ => _handle_hotkey t3 action))
       (hk, s)
  = (Ok tt, (pressed action t3 (pressed action t1 hk), snd (callback (snd (callback s))))).
Proof.
  intros Hcb Hnew H12 H13.
  assert (Hpress : forall t (hk0 : HotkeyManager S) s0,
            dict_get action (callbacks hk0) = Some callback ->
            match dict_get action (last_press_time hk0) with
            | Some last => (t - last <? debounce_time hk0)%float
            | None => false
            end = false ->
            _handle_hotkey t action (hk0, s0)
            = (Ok tt, (pressed action t hk0, snd (callback s0)))).
  { intros t hk0 s0 Hc Hd. unfold _handle_hotkey. unfold bind at 1. cbn [get fst snd].
    rewrite Hd. unfold bind, modify. rewrite Hc.
    unfold try_except, in_callback. cbn [fst snd].
    destruct (callback s0) as [[[]|e] s1]; reflexivity. }
  rewrite (bind_Ok _ _ _ _ _ (Hpress t1 hk s Hcb ltac:(now rewrite Hnew))).
  assert (Hlast : forall t0 (hk0 : HotkeyManager S),
            dict_get action (last_press_time (pressed action t0 hk0)) = Some t0)
    by (intros; apply dict_get_set_same).
  assert (Hdropped : _handle_hotkey t2 action (pressed action t1 hk, snd (callback s))
                     = (Ok tt, (pressed action t1 hk, snd (callback s)))).
  { unfold _handle_hotkey. unfold bind at 1. cbn [get fst snd].
    rewrite Hlast. change (debounce_time (pressed action t1 hk)) with (debounce_time hk).
    now rewrite H12. }
  rewrite (bind_Ok _ _ _ _ _ Hdropped).
  rewrite (Hpress t3 (pressed action t1 hk) (snd (callback s)) Hcb).
  - reflexivity.
  - rewrite Hlast. exact H13.
Qed.

(** X30.  The copy hotkey copies nothing.  [copy_last_answer] passes the
    answer to [overlay.copy_to_clipboard], which takes no argument: with
    an answer to copy the call raises [TypeError] before anything is
    copied, and without one nothing is attempted.  Under the hotkey
    handler the exception is swallowed: a press of the hotkey returns,
    debounced or not, and leaves the application, its clipboard events
    among the rest, as it was. *)
Theorem copy_hotkey_copies_nothing current_time hk app :
  dict_get "copy_last_answer" (callbacks hk) = Some (copy_last_answer outcome) ->
  copy_last_answer outcome app
  = (if is_empty (last_answer app) then Ok tt else Raise TypeError, app)
  /\ exists hk',
       _handle_hotkey current_time "copy_last_answer" (hk, app) = (Ok tt, (hk', app)).
Proof.
  intros Hcb.
  assert (Hcopy : copy_last_answer outcome app
                  = (if is_empty (last_answer app) then Ok tt else Raise TypeError, app)).
  { unfold copy_last_answer, bind, get.
    destruct (is_empty (last_answer app)); reflexivity. }
  split; [exact Hcopy|].
  unfold _handle_hotkey. unfold bind at 1. cbn [get fst snd].
  destruct (match dict_get "copy_last_answer" (last_press_time hk) with
            | Some last => (current_time - last <? debounce_time hk)%float
            | None => false
            end).
  - exists hk. reflexivity.
  - exists (pressed "copy_last_answer" current_time hk).
    unfold bind, modify. rewrite Hcb. unfold try_except, in_callback. cbn [fst snd].
    rewrite Hcopy. destruct (is_empty (last_answer app)); reflexivity.
Qed.

End HotkeyExtras.

Section AppExamples.
Import App Hotkeys.

Lemma answer_is_shown_spoken_and_logged_witness :
  exists app',
    get_ai_response obliging "What is AI?" (started AI.answering_world) = (Ok tt, app')
    /\ last_answer app' = "answer"
    /\ events app'
       = [UpdateText (display_text "What is AI?" "answer"); Speak "answer";
          LogQA "What is AI?" "answer" Config.PRIMARY_MODEL 1%float;
          SetStatus "listening" "#ffff00"].
Proof.
  destruct (answer_is_shown_spoken_and_logged obliging "What is AI?"
              (started AI.answering_world) "answer" Config.PRIMARY_MODEL 1%float
              (snd (AI.get_response "What is AI?" "data_science"
                      (AI.fresh AI.answering_world))))
    as (app' & Hrun & _ & Ha & _ & He & _).
  - reflexivity.
  - constructor.
  - apply run_result. vm_compute. reflexivity.
  - exists app'. split; [exact Hrun|]. split; [exact Ha | exact He].
Defined.

Lemma sorry_is_never_shown_and_the_status_is_set_back_witness :
  exists new,
    events (snd (get_ai_response (fun _ => Raise OSError) "What is AI?"
                   (started AI.offline_world)))
    = ([] ++ new ++ [SetStatus "listening" "#ffff00"])%list
    /\ Forall (fun e => e <> UpdateText sorry_text) new.
Proof.
  apply (sorry_is_never_shown_and_the_status_is_set_back (fun _ => Raise OSError)
           "What is AI?" (started AI.offline_world)).
  constructor.
Defined.

Lemma copy_button_copies_the_question_too_witness :
  overlay_copy_to_clipboard obliging []
    (set_overlay_last_answer (display_text "What is AI?" "answer")
       (started AI.answering_world))
  = (Ok tt,
     logged [ClipboardCopy (display_text "What is AI?" "answer"); CopyFeedback]
       (set_overlay_last_answer (display_text "What is AI?" "answer")
          (started AI.answering_world))).
Proof.
  apply copy_button_copies_the_question_too; reflexivity.
Defined.

Lemma debounce_window_starts_at_the_last_accepted_press_witness :
  snd (snd (bind (_handle_hotkey 10 "toggle_tts")
              (fun _ => bind (_handle_hotkey 10.25 "toggle_tts")
                          (fun _ => _handle_hotkey 10.5 "toggle_tts"))
              (register_callback "toggle_tts" (modify S) init, 0%nat)))
  = 2%nat.
Proof.
  rewrite (debounce_window_starts_at_the_last_accepted_press
             10 10.25 10.5 "toggle_tts"
             (register_callback "toggle_tts" (modify S) init) 0%nat (modify S)
             eq_refl eq_refl eq_refl eq_refl).
  reflexivity.
Defined.

Lemma copy_hotkey_copies_nothing_witness :
  copy_last_answer obliging (set_last_answer "answer" (started AI.answering_world))
  = (Raise TypeError, set_last_answer "answer" (started AI.answering_world)).
Proof.
  destruct (copy_hotkey_copies_nothing obliging 10%float
              (register_callback "copy_last_answer" (copy_last_answer obliging) init)
              (set_last_answer "answer" (started AI.answering_world)) eq_refl)
    as [H _].
  exact H.
Defined.

End AppExamples.

(* ===================================================================== *)
(** * main.py: from the thread's signals to the AI handler *)
(* ===================================================================== *)

Section SlotFacts.
Import App.

Variable outcome : event -> result unit.
Variable describe : exn -> string.

(** A thread started on a target returns at once, whatever the target
    does. *)
Lemma spawn_run (target : M StealthAIApplication unit) app :
  spawn target app = (Ok tt, snd (target app)).
Proof.
  unfold spawn, try_except. destruct (target app) as [[[]|e] app']; reflexivity.
Qed.

Lemma asks_nothing_ret {A} (a : A) : asks_nothing (ret a).
Proof. intros app. split; reflexivity. Qed.

Lemma asks_nothing_bind {A B} (c : M StealthAIApplication A)
    (k : A -> M StealthAIApplication B) :
  asks_nothing c -> (forall a, asks_nothing (k a)) -> asks_nothing (bind c k).
Proof.
  intros Hc Hk app. unfold bind. specialize (Hc app).
  destruct (c app) as [[a|e] app1]; cbn [snd] in *; [|exact Hc].
  destruct (Hk a app1) as [H1 H2]. destruct Hc as [H3 H4].
  split; congruence.
Qed.

Lemma asks_nothing_try_except {A} (body : M StealthAIApplication A) handler :
  asks_nothing body -> (forall e, asks_nothing (handler e)) ->
  asks_nothing (try_except body handler).
Proof.
  intros Hc Hk app. unfold try_except. specialize (Hc app).
  destruct (body app) as [[a|e] app1]; cbn [snd] in *; [exact Hc|].
  destruct (Hk e app1) as [H1 H2]. destruct Hc as [H3 H4].
  split; congruence.
Qed.

Lemma asks_nothing_get : asks_nothing get.
Proof. intros app. split; reflexivity. Qed.

Lemma asks_nothing_do e : asks_nothing (do outcome e).
Proof. intros app. unfold do, bind, modify, lift. cbn. split; reflexivity. Qed.

Lemma asks_nothing_overlay_update_text text :
  asks_nothing (overlay_update_text outcome text).
Proof.
  unfold overlay_update_text. apply asks_nothing_bind.
  - intros app. split; reflexivity.
  - intros _. apply asks_nothing_do.
Qed.

(** Each call of [get_response] reads the clock twice. *)
Lemma get_response_reads_the_clock_twice question context st :
  AI.ticks (AI.world (snd (AI.get_response question context st)))
  = S (S (AI.ticks (AI.world st))).
Proof.
  destruct (dict_get (AI._get_cache_key question context)
              (AI.response_cache (AI.self st))) as [cached|] eqn:E.
  - rewrite (get_response_hit _ _ _ _ E). reflexivity.
  - rewrite (get_response_miss _ _ _ E). cbn [snd AI.world].
    destruct (truthy _); reflexivity.
Qed.

(** [get_ai_response] calls [get_response] on the question, once, and
    nothing else of the AI handler, whatever its collaborators do. *)
Lemma get_ai_response_asks_once question app :
  ai_handler (snd (get_ai_response outcome question app))
  = snd (AI.get_response question "data_science" (ai_handler app))
  /\ last_question (snd (get_ai_response outcome question app)) = last_question app.
Proof.
  destruct (get_response_total question "data_science" (ai_handler app))
    as (a & m & t & st1 & Hrun).
  rewrite Hrun. cbn [snd].
  unfold get_ai_response, Main.try_finally.
  set (cleanup := do outcome (SetStatus "listening" "#ffff00")).
  set (handler := fun _ : exn => overlay_update_text outcome error_text).
  assert (Hbody : forall k : string * string * float -> M StealthAIApplication unit,
            (forall r, asks_nothing (k r)) ->
            let s' := snd (try_except (bind (in_ai (AI.get_response question
                                                      "data_science")) k)
                                      handler app) in
            ai_handler s' = st1 /\ last_question s' = last_question app).
  { intros k Hk. cbv zeta. unfold try_except, bind. unfold in_ai. rewrite Hrun.
    destruct (Hk (a, m, t) (set_ai_handler st1 app)) as [H1 H2].
    cbn [set_ai_handler ai_handler last_question snd] in H1, H2.
    destruct (k (a, m, t) (set_ai_handler st1 app)) as [[[]|e] app1];
      cbn [snd] in *; [split; assumption|].
    destruct (asks_nothing_overlay_update_text error_text app1) as [H3 H4].
    unfold handler. split; congruence. }
  match goal with
  | |- context [try_except (bind _ ?k) handler] => specialize (Hbody k)
  end.
  cbv zeta in Hbody.
  destruct (try_except _ handler app) as [r s'] eqn:Ebody. cbn [snd] in Hbody.
  destruct Hbody as [H1 H2].
  { intros [[response model_used] response_time].
    destruct (negb (is_empty response)).
    - apply asks_nothing_bind; [intros x; split; reflexivity|]. intros _.
      apply asks_nothing_bind; [apply asks_nothing_overlay_update_text|]. intros _.
      apply asks_nothing_bind; [apply asks_nothing_get|]. intros app0.
      apply asks_nothing_bind; [|intros _; apply asks_nothing_do].
      destruct (ENABLE_TTS app0); [apply asks_nothing_do | apply asks_nothing_ret].
    - apply asks_nothing_overlay_update_text. }
  destruct (asks_nothing_do (SetStatus "listening" "#ffff00") s') as [H3 H4].
  fold cleanup in H3, H4.
  destruct (cleanup s') as [[[]|e] s'']; cbn [snd] in *; split; congruence.
Qed.

(** [handle_transcription], when Qt takes the three calls made before the
    thread of the answer starts. *)
Lemma handle_transcription_run transcript confidence app :
  outcome (UpdateText (display_text transcript "Processing...")) = Ok tt ->
  outcome (SetStatus "processing" "#ff8800") = Ok tt ->
  outcome (MessageBox transcript confidence) = Ok tt ->
  handle_transcription outcome transcript confidence app
  = (Ok tt,
     snd (get_ai_response outcome transcript
            {| ai_handler := ai_handler app;
               overlay_last_answer := display_text transcript "Processing...";
               last_question := transcript;
               last_answer := last_answer app;
               ENABLE_TTS := ENABLE_TTS app;
               events := (events app
                          ++ [UpdateText (display_text transcript "Processing...");
                              SetStatus "processing" "#ff8800";
                              MessageBox transcript confidence])%list |})).
Proof.
  intros Hu Hs Hm.
  unfold handle_transcription, overlay_update_text, do.
  change ("Q: " ++ transcript ++ AI.nl ++ AI.nl ++ "AI: Processing...")
    with (display_text transcript "Processing...").
  unfold bind, modify, lift. rewrite Hu, Hs, Hm. rewrite spawn_run.
  unfold logged, set_overlay_last_answer, set_last_question.
  cbn [ai_handler overlay_last_answer last_question last_answer ENABLE_TTS events].
  rewrite <- !app_assoc. reflexivity.
Qed.

End SlotFacts.

Section LoopAnswer.
Import Main App.

Variable upper : string -> string.
Variable pa : Audio.PyAudio.
Variable clock : nat -> float.
Variable model_transcribe : list float -> result pyval.
Variable write_wav : string -> list float -> result unit.
Variable subprocess_run : list string -> result Transcriber.completed.
Variable os_remove : string -> result unit.

(** The application that the signals of the thread reach. *)
Variable outcome : event -> result unit.
Variable describe : exn -> string.

Let transcribe :=
  Transcriber.transcribe_audio clock model_transcribe write_wav subprocess_run os_remove.
Let poll_once := poll clock model_transcribe write_wav subprocess_run os_remove.
Let loop_over := loop pa clock model_transcribe write_wav subprocess_run os_remove.
Let run_over := run upper pa clock model_transcribe write_wav subprocess_run os_remove.

(** C7.  Take a pass of the processing loop made while no chunk is being
    processed and the buffer holds 3 seconds (48000 samples) that are no
    silence.  The pass extracts them and the transcriber returns a
    transcript [text]; the pass then emits "processing" and exactly one
    more signal: the transcription event when the trimmed text has more
    than 3 characters, the status "listening" when it has at most 3.

    The loop performs this pass: an interval in which [stop] is not called
    and that reaches this state with the thread running goes on from the
    state the pass leaves.  So does [run]: started on a ready transcriber
    and a manager that starts recording, it emits "listening", then the
    signals of the pass, then only status, error and meaningful
    transcription signals.  And whatever the schedule and the audio, [run]
    never emits a transcription event whose trimmed text has at most 3
    characters.

    In the application, the slots run on the signals of a short transcript
    make no AI call: the handler is left as it is, with its clock and its
    log of requests, no question is stored and nothing is shown but the
    two statuses.  On the signals of a long transcript, when Qt takes the
    three calls that precede it, [handle_transcription] stores the
    question and starts [get_ai_response], which calls [get_response] on
    the transcript exactly once: the handler is in the state one call
    leaves, its clock read twice. *)
Theorem short_transcripts_trigger_no_answer t :
  processing t = false ->
  48000 <= Z.of_nat (List.length (Audio.audio_buffer (Audio.self (audio_manager t)))) ->
  (Audio.rms (slice_from (Audio.audio_buffer (Audio.self (audio_manager t))) (- 48000))
   <? Config.SILENCE_THRESHOLD)%float = false ->
  let chunk :=
    Audio.normalize
      (slice_from (Audio.audio_buffer (Audio.self (audio_manager t))) (- 48000)) in
  exists text confidence w,
    transcribe chunk (transcriber t) = (Ok (text, confidence), w)
    /\
  let long := (3 <? String.length (strip text))%nat in
  let new := [StatusChanged "processing";
              if long then TranscriptionReady text confidence
              else StatusChanged "listening"] in
  let t' := {| audio_manager := audio_manager t; transcriber := w;
               running := running t; processing := false;
               emitted := (emitted t ++ new)%list |} in
  poll_once t = (Ok tt, t')
  /\ (forall i rest t0,
        stop_called i = false ->
        running t = true ->
        deliver (captured i) t0 = (Ok tt, t) ->
        loop_over (i :: rest) t0 = loop_over rest t')
  /\ (forall i rest t0 a0,
        Transcriber.is_ready (Transcriber.self (transcriber t0)) = true ->
        Audio.start_recording upper pa thread_callback (audio_manager t0)
        = (Ok true, a0) ->
        stop_called i = false ->
        deliver (captured i)
                (with_emitted [StatusChanged "listening"]
                   (set_audio_manager a0 (set_running true t0)))
        = (Ok tt, t) ->
        exists more,
          emitted (snd (run_over (i :: rest) t0))
          = (emitted t0 ++ StatusChanged "listening" :: new ++ more)%list
          /\ Forall meaningful more)
  /\ (forall schedule t0, extends t0 (snd (run_over schedule t0)))
  /\ (long = false ->
      forall app,
        let app' := snd (on_signals outcome describe new app) in
        ai_handler app' = ai_handler app
        /\ last_question app' = last_question app
        /\ last_answer app' = last_answer app
        /\ overlay_last_answer app' = overlay_last_answer app
        /\ events app'
           = (events app
              ++ SetStatus "processing" "#ff8800"
                 :: match outcome (SetStatus "processing" "#ff8800") with
                    | Ok _ => [SetStatus "listening" "#ffff00"]
                    | Raise _ => []
                    end)%list)
  /\ (long = true ->
      forall app,
        outcome (SetStatus "processing" "#ff8800") = Ok tt ->
        outcome (UpdateText (display_text text "Processing...")) = Ok tt ->
        outcome (MessageBox text confidence) = Ok tt ->
        let asked :=
          {| ai_handler := ai_handler app;
             overlay_last_answer := display_text text "Processing...";
             last_question := text;
             last_answer := last_answer app;
             ENABLE_TTS := ENABLE_TTS app;
             events := (events app
                        ++ [SetStatus "processing" "#ff8800";
                            UpdateText (display_text text "Processing...");
                            SetStatus "processing" "#ff8800";
                            MessageBox text confidence])%list |} in
        let app' := snd (get_ai_response outcome text asked) in
        on_signals outcome describe new app = (Ok tt, app')
        /\ ai_handler app'
           = snd (AI.get_response text "data_science" (ai_handler app))
        /\ AI.ticks (AI.world (ai_handler app'))
           = S (S (AI.ticks (AI.world (ai_handler app))))
        /\ last_question app' = text).
Proof.
  intros Hp Hlen Hloud. cbv zeta.
  set (chunk := Audio.normalize
                  (slice_from (Audio.audio_buffer (Audio.self (audio_manager t)))
                              (- 48000))).
  assert (Hchunk : Audio.get_audio_chunk Config.CHUNK_DURATION (audio_manager t)
                   = (Ok (Some chunk), audio_manager t)).
  { rewrite (get_audio_chunk_run _ _ _ chunk_samples). cbv zeta.
    destruct (Z.ltb_spec (Z.of_nat (List.length
                (Audio.audio_buffer (Audio.self (audio_manager t))))) 48000); [lia|].
    change (Z.opp 48000) with (- 48000). rewrite Hloud. reflexivity. }
  assert (Hne : chunk <> []).
  { intros H. apply (f_equal (@List.length float)) in H.
    unfold chunk, Audio.normalize in H. change (- 48000) with (Z.opp 48000) in H.
    rewrite length_map, slice_from_recent, length_skipn in H by lia.
    cbn [List.length] in H. lia. }
  destruct (transcribe_audio_total clock model_transcribe write_wav subprocess_run
              os_remove chunk (transcriber t)) as (text & confidence & w & Htr).
  exists text, confidence, w. split; [exact Htr|].
  pose proof (poll_run clock model_transcribe write_wav subprocess_run os_remove
                t chunk (audio_manager t) text confidence w Hp Hchunk Hne Htr)
    as Hpoll.
  fold poll_once in Hpoll. unfold signals_of in Hpoll.
  assert (Hstep : forall i rest t0,
            stop_called i = false -> running t = true ->
            deliver (captured i) t0 = (Ok tt, t) ->
            loop_over (i :: rest) t0
            = loop_over rest
                {| audio_manager := audio_manager t; transcriber := w;
                   running := running t; processing := false;
                   emitted := (emitted t
                     ++ [StatusChanged "processing";
                         if (3 <? String.length (strip text))%nat
                         then TranscriptionReady text confidence
                         else StatusChanged "listening"])%list |}).
  { intros i rest t0 Hstop Hrun Hdel.
    unfold loop_over. cbn [loop]. unfold between_polls. rewrite Hstop.
    unfold bind at 1. unfold bind at 1. rewrite Hdel. cbn [ret].
    unfold bind at 1. cbn [get]. rewrite Hrun.
    unfold bind at 1. fold poll_once. rewrite Hpoll, ?Hrun. reflexivity. }
  split; [exact Hpoll|]. split; [exact Hstep|]. split; [|split; [|split]].
  - intros i rest t0 a0 Hready Hstart Hstop Hdel.
    assert (Hrun : running t = true /\ emitted t
                   = (emitted t0 ++ [StatusChanged "listening"])%list).
    { destruct (deliver_run (captured i)
                  (with_emitted [StatusChanged "listening"]
                     (set_audio_manager a0 (set_running true t0)))) as [a1 H1].
      rewrite H1 in Hdel. injection Hdel as <-. split; reflexivity. }
    destruct Hrun as [Hrun Hemitted].
    unfold run_over, run.
    unfold bind at 1. cbn [modify]. unfold bind at 1. cbn [get].
    change (transcriber (set_running true t0)) with (transcriber t0).
    rewrite Hready. cbn [negb].
    unfold bind at 1. unfold in_audio at 1.
    change (audio_manager (set_running true t0)) with (audio_manager t0).
    rewrite Hstart. cbn [negb].
    unfold bind at 1. unfold emit at 1. cbn [modify].
    fold (with_emitted [StatusChanged "listening"]
            (set_audio_manager a0 (set_running true t0))).
    fold loop_over. unfold bind at 1. rewrite (Hstep i rest _ Hstop Hrun Hdel).
    match goal with
    | |- context [loop_over rest ?s] =>
        destruct (safe_loop pa clock model_transcribe write_wav subprocess_run
                    os_remove rest s) as (more & Hmore & Hok);
        fold loop_over in Hmore; destruct (loop_over rest s) as [[left|e] t2]
    end; cbn [snd emitted] in Hmore.
    + exists more. split; [|exact Hok].
      destruct left.
      * unfold in_audio.
        destruct (Audio.stop_recording pa (audio_manager t2)) as [r a2].
        cbn [snd set_audio_manager emitted]. rewrite Hmore, Hemitted.
        rewrite <- !app_assoc. reflexivity.
      * cbn [ret snd]. rewrite Hmore, Hemitted. rewrite <- !app_assoc. reflexivity.
    + exists more. split; [|exact Hok].
      cbn [snd]. rewrite Hmore, Hemitted. rewrite <- !app_assoc. reflexivity.
  - intros schedule t0. apply safe_run.
  - intros Hshort app. rewrite Hshort. cbv zeta.
    cbn [on_signals on_signal]. unfold handle_status_change.
    change (dict_get "processing" status_colors) with (Some "#ff8800").
    change (dict_get "listening" status_colors) with (Some "#ffff00").
    cbv iota beta. unfold do, bind, modify, lift, ret.
    cbn [logged ai_handler overlay_last_answer last_question last_answer
         ENABLE_TTS events].
    destruct (outcome (SetStatus "processing" "#ff8800")) as [[]|e1].
    + destruct (outcome (SetStatus "listening" "#ffff00")) as [[]|e2];
        cbn [snd logged ai_handler overlay_last_answer last_question last_answer
             ENABLE_TTS events]; rewrite <- app_assoc; repeat split; reflexivity.
    + cbn [snd logged ai_handler overlay_last_answer last_question last_answer
           ENABLE_TTS events]. repeat split; reflexivity.
  - intros Hlong app Hs Hu Hm. rewrite Hlong. cbv zeta.
    match goal with
    | |- context [get_ai_response outcome text ?s] => set (asked := s)
    end.
    destruct (get_ai_response_asks_once outcome text asked) as [Hai Hq].
    change (ai_handler asked) with (ai_handler app) in Hai.
    change (last_question asked) with text in Hq.
    split; [|split; [exact Hai | split; [|exact Hq]]].
    + cbn [on_signals on_signal]. unfold handle_status_change.
      change (dict_get "processing" status_colors) with (Some "#ff8800").
      cbv iota beta. unfold do at 1. unfold bind at 1. unfold bind at 1.
      cbn [modify]. unfold lift at 1. rewrite Hs.
      unfold bind at 1.
      rewrite (handle_transcription_run outcome text confidence _ Hu Hs Hm).
      unfold ret.
      unfold logged, asked.
      cbn [ai_handler overlay_last_answer last_question last_answer ENABLE_TTS events].
      rewrite <- !app_assoc. reflexivity.
    + rewrite Hai. apply get_response_reads_the_clock_twice.
Qed.

End LoopAnswer.

Section LoopAnswerExamples.
Import Main App.

(** C7 at a thread with 3 seconds of a tone in its buffer, started by [run]
    on one device, whose model hears a question; and at an application
    whose collaborators return and whose AI client answers. *)
Lemma short_transcripts_trigger_no_answer_witness :
  (exists more,
     emitted (snd (run ascii_upper Audio.one_device Transcriber.seconds
                       (Transcriber.model_hears " What is overfitting? ")
                       Transcriber.wav_written Transcriber.run_times_out
                       Transcriber.removed [quiet] waiting))
     = ([StatusChanged "listening"; StatusChanged "processing";
         TranscriptionReady "What is overfitting?" 0.5] ++ more)%list)
  /\ exists app',
       on_signals obliging (fun _ => "")
         [StatusChanged "processing"; TranscriptionReady "What is overfitting?" 0.5]
         (started AI.answering_world)
       = (Ok tt, app')
       /\ AI.ticks (AI.world (ai_handler app')) = 2%nat
       /\ AI.request_count (AI.self (ai_handler app')) = 1
       /\ last_question app' = "What is overfitting?".
Proof.
  pose (a0 := {| Audio.self :=
                   {| Audio.stream := Some 1%nat; Audio.device_index := Some 0;
                      Audio.is_recording := true; Audio.audio_buffer := tone;
                      Audio.callbacks := [thread_callback] |};
                 Audio.calls := [Audio.GetDeviceCount; Audio.GetDeviceInfoByIndex 0;
                                 Audio.Open 0; Audio.StartStream 1%nat] |}).
  assert (Hstart : Audio.start_recording ascii_upper Audio.one_device thread_callback
                     (audio_manager waiting) = (Ok true, a0)).
  { unfold a0, waiting. cbn [audio_manager]. generalize tone. intros buffer.
    vm_compute. reflexivity. }
  pose (t := with_emitted [StatusChanged "listening"]
               (set_audio_manager a0 (set_running true waiting))).
  destruct (short_transcripts_trigger_no_answer
              ascii_upper Audio.one_device Transcriber.seconds
              (Transcriber.model_hears " What is overfitting? ")
              Transcriber.wav_written Transcriber.run_times_out Transcriber.removed
              obliging (fun _ => "") t eq_refl)
    as (text & confidence & w & Htr & _ & _ & Hrun & _ & _ & Hlong).
  { change (Audio.audio_buffer (Audio.self (audio_manager t))) with tone.
    rewrite tone_length. lia. }
  { exact tone_is_loud. }
  destruct (transcribe_primary_answer Transcriber.seconds
              (Transcriber.model_hears " What is overfitting? ")
              Transcriber.wav_written Transcriber.run_times_out Transcriber.removed
              (Audio.normalize
                 (slice_from (Audio.audio_buffer (Audio.self (audio_manager t)))
                             (- 48000)))
              (transcriber t) eq_refl) as [n Hn].
  rewrite Hn in Htr. injection Htr as <- <- _.
  split.
  - destruct (Hrun quiet [] waiting a0 eq_refl Hstart eq_refl eq_refl)
      as (more & Hmore & _).
    exists more. rewrite Hmore. reflexivity.
  - destruct (Hlong eq_refl (started AI.answering_world) eq_refl eq_refl eq_refl)
      as (Hslots & Hai & Hticks & Hquestion).
    eexists. split; [exact Hslots|]. split; [exact Hticks|].
    split; [|exact Hquestion].
    rewrite Hai. vm_compute. reflexivity.
Defined.

End LoopAnswerExamples.
